(** * The chat store: stream merging, research grouping and the paper-writing
    completion check

    The repository carries the zustand chat store twice:

    - [src/src/core/store/store.ts], embedded below as [Module CoreStore];
    - the store source that follows the message list view in
      [src/app/chat/components/message-list-view.tsx], embedded as
      [Module ViewStore].

    Both share the store object, [sendMessage], [appendResearch] and
    [appendResearchActivity]; they differ in the agents that open a Research,
    in the commit that schedules the completion check, in the condition that
    check evaluates, and in what a successful final-paper fetch does. *)

From stdpp Require Import base option list strings gmap.
From Stdlib Require Import Ascii String.

Open Scope string_scope.
Open Scope list_scope.

(** ** JavaScript values *)

(** A JS [Map<string, V>] iterates in insertion order; [set] on a present key
    replaces the value where it stands, [set] on a new key adds at the end. *)
Module JsMap.
Definition t (V : Type) : Type := list (string * V).

Definition empty {V : Type} : t V := [].

Fixpoint get {V : Type} (k : string) (m : t V) : option V :=
  match m with
  | [] => None
  | (k', v) :: r => if decide (k' = k) then Some v else get k r
  end.

Fixpoint set {V : Type} (k : string) (v : V) (m : t V) : t V :=
  match m with
  | [] => [(k, v)]
  | (k', v') :: r =>
      if decide (k' = k) then (k, v) :: r else (k', v') :: set k v r
  end.

Definition values {V : Type} (m : t V) : list V := map snd m.

Definition keys {V : Type} (m : t V) : list string := map fst m.
End JsMap.

(** Truthiness of a string: only the empty string is falsy. *)
Definition truthy (s : string) : bool := negb (String.eqb s "").

(** Truthiness of a [string | null] value. *)
Definition truthyOpt (o : option string) : bool :=
  match o with
  | Some s => truthy s
  | None => false
  end.

(** White space as [String.prototype.trim] sees it, on UTF-8 text: the
    single-byte characters TAB, LF, VT, FF, CR and SPACE, and the encodings of
    U+00A0, U+1680, U+2000..U+200A, U+2028, U+2029, U+202F, U+205F, U+3000 and
    U+FEFF. *)
Definition isSpaceByte (c : ascii) : bool :=
  let n := nat_of_ascii c in
  (Nat.leb 9 n && Nat.leb n 13) || Nat.eqb n 32.

Definition isSpace3 (a b c : ascii) : bool :=
  let x := nat_of_ascii a in
  let y := nat_of_ascii b in
  let z := nat_of_ascii c in
  (Nat.eqb x 225 && Nat.eqb y 154 && Nat.eqb z 128)
  || (Nat.eqb x 226 && Nat.eqb y 128
      && ((Nat.leb 128 z && Nat.leb z 138)
          || Nat.eqb z 168 || Nat.eqb z 169 || Nat.eqb z 175))
  || (Nat.eqb x 226 && Nat.eqb y 129 && Nat.eqb z 159)
  || (Nat.eqb x 227 && Nat.eqb y 128 && Nat.eqb z 128)
  || (Nat.eqb x 239 && Nat.eqb y 187 && Nat.eqb z 191).

(** [isBlank s] holds when [s.trim()] is the empty string. *)
Fixpoint isBlank (s : string) : bool :=
  match s with
  | EmptyString => true
  | String a r =>
      if isSpaceByte a then isBlank r
      else
        match r with
        | String b r' =>
            if Nat.eqb (nat_of_ascii a) 194 && Nat.eqb (nat_of_ascii b) 160
            then isBlank r'
            else
              match r' with
              | String c r'' => if isSpace3 a b c then isBlank r'' else false
              | EmptyString => false
              end
        | EmptyString => false
        end
  end.

(** ** The data model *)

Inductive MessageRole := user | assistant.

Record ToolCall := mkToolCall {
  tc_id : string;
  tc_name : string;
  tc_args : string;
  tc_result : option string;
}.

(** [isStreaming?: boolean] is only ever tested for truthiness, so an absent
    flag is represented by [false]. *)
Record Message := mkMessage {
  id : string;
  threadId : string;
  role : MessageRole;
  agent : option string;
  content : string;
  contentChunks : list string;
  toolCalls : option (list ToolCall);
  isStreaming : bool;
  finishReason : option string;
  interruptFeedback : option string;
}.

Record FinalPaperResponse := mkFinalPaperResponse {
  final_paper : string;
  status : string;
  paper_writing_mode : bool;
}.

(** One increment of the chat stream: [type] and the fields of [data]. *)
Record ChatEvent := mkChatEvent {
  ev_type : string;
  ev_id : string;
  ev_thread_id : string;
  ev_agent : option string;
  ev_role : MessageRole;
  ev_content : option string;
  ev_tool_call_id : string;
  ev_tool_call_name : option string;
  ev_finish_reason : option string;
}.

(** What [getFinalPaper] can end in: a response, or a rejection with a thrown
    value that is an [Error] (carrying its message) or something else. *)
Inductive ThrownValue :=
| ErrorObject (message : string)
| NotAnError.

Inductive FetchOutcome :=
| Resolved (response : FinalPaperResponse)
| Rejected (error : ThrownValue).

(** The patterns of [sectionIndicators], in source order. *)
Inductive SectionIndicator :=
| MarkdownH2
| NumberedSection
| SectionN
| ChineseSection.

Definition sectionIndicators : list SectionIndicator :=
  [MarkdownH2; NumberedSection; SectionN; ChineseSection].

(** Reading a string property off what [parseJSON] of [core/utils] returns.
    The stores read it without a check: when [parseJSON] returns [null] or
    [undefined] the read throws a TypeError; otherwise it gives the property,
    a string or nothing. *)
Inductive PropertyRead :=
| ReadThrows
| ReadGives (value : option string).

(** What the store takes from outside its own file: [mergeMessage] of
    [core/messages], the read of [section_content] off
    [parseJSON(content, {})] of [core/utils], [JSON.stringify] of the
    final-paper card, and the platform's [toLowerCase] and global-regex
    [match] (the number of matches, 0 for [null]). *)
Class Externals := {
  mergeMessage : Message -> ChatEvent -> Message;
  section_content : string -> PropertyRead;
  finalPaperCardContent : FinalPaperResponse -> string;
  toLowerCase : string -> string;
  matchCount : SectionIndicator -> string -> nat;
}.

(** ** The store state *)

Record State := mkState {
  responding : bool;
  storeThreadId : option string;
  messageIds : list string;
  messages : JsMap.t Message;
  researchIds : list string;
  researchPlanIds : gmap string string;
  researchReportIds : gmap string string;
  researchActivityIds : gmap string (list string);
  ongoingResearchId : option string;
  openResearchId : option string;
  paperSections : list string;
  paperOutlineId : option string;
  completedPaperId : option string;
  finalPaper : option FinalPaperResponse;
  finalPaperLoading : bool;
  finalPaperError : option string;
}.

(** The store as [create] builds it, for the module constant [THREAD_ID]. *)
Definition initialState (THREAD_ID : string) : State :=
  {| responding := false;
     storeThreadId := Some THREAD_ID;
     messageIds := [];
     messages := JsMap.empty;
     researchIds := [];
     researchPlanIds := ∅;
     researchReportIds := ∅;
     researchActivityIds := ∅;
     ongoingResearchId := None;
     openResearchId := None;
     paperSections := [];
     paperOutlineId := None;
     completedPaperId := None;
     finalPaper := None;
     finalPaperLoading := false;
     finalPaperError := None |}.

(** [set({ field: v })], one definition per field the code writes. *)
Definition set_responding (v : bool) (s : State) : State :=
  mkState v (storeThreadId s) (messageIds s) (messages s) (researchIds s)
    (researchPlanIds s) (researchReportIds s) (researchActivityIds s)
    (ongoingResearchId s) (openResearchId s) (paperSections s)
    (paperOutlineId s) (completedPaperId s) (finalPaper s)
    (finalPaperLoading s) (finalPaperError s).

Definition set_messageIds (v : list string) (s : State) : State :=
  mkState (responding s) (storeThreadId s) v (messages s) (researchIds s)
    (researchPlanIds s) (researchReportIds s) (researchActivityIds s)
    (ongoingResearchId s) (openResearchId s) (paperSections s)
    (paperOutlineId s) (completedPaperId s) (finalPaper s)
    (finalPaperLoading s) (finalPaperError s).

Definition set_messages (v : JsMap.t Message) (s : State) : State :=
  mkState (responding s) (storeThreadId s) (messageIds s) v (researchIds s)
    (researchPlanIds s) (researchReportIds s) (researchActivityIds s)
    (ongoingResearchId s) (openResearchId s) (paperSections s)
    (paperOutlineId s) (completedPaperId s) (finalPaper s)
    (finalPaperLoading s) (finalPaperError s).

Definition set_researchIds (v : list string) (s : State) : State :=
  mkState (responding s) (storeThreadId s) (messageIds s) (messages s) v
    (researchPlanIds s) (researchReportIds s) (researchActivityIds s)
    (ongoingResearchId s) (openResearchId s) (paperSections s)
    (paperOutlineId s) (completedPaperId s) (finalPaper s)
    (finalPaperLoading s) (finalPaperError s).

Definition set_researchPlanIds (v : gmap string string) (s : State) : State :=
  mkState (responding s) (storeThreadId s) (messageIds s) (messages s)
    (researchIds s) v (researchReportIds s) (researchActivityIds s)
    (ongoingResearchId s) (openResearchId s) (paperSections s)
    (paperOutlineId s) (completedPaperId s) (finalPaper s)
    (finalPaperLoading s) (finalPaperError s).

Definition set_researchReportIds (v : gmap string string) (s : State) : State :=
  mkState (responding s) (storeThreadId s) (messageIds s) (messages s)
    (researchIds s) (researchPlanIds s) v (researchActivityIds s)
    (ongoingResearchId s) (openResearchId s) (paperSections s)
    (paperOutlineId s) (completedPaperId s) (finalPaper s)
    (finalPaperLoading s) (finalPaperError s).

Definition set_researchActivityIds (v : gmap string (list string)) (s : State)
  : State :=
  mkState (responding s) (storeThreadId s) (messageIds s) (messages s)
    (researchIds s) (researchPlanIds s) (researchReportIds s) v
    (ongoingResearchId s) (openResearchId s) (paperSections s)
    (paperOutlineId s) (completedPaperId s) (finalPaper s)
    (finalPaperLoading s) (finalPaperError s).

Definition set_ongoingResearchId (v : option string) (s : State) : State :=
  mkState (responding s) (storeThreadId s) (messageIds s) (messages s)
    (researchIds s) (researchPlanIds s) (researchReportIds s)
    (researchActivityIds s) v (openResearchId s) (paperSections s)
    (paperOutlineId s) (completedPaperId s) (finalPaper s)
    (finalPaperLoading s) (finalPaperError s).

Definition set_openResearchId (v : option string) (s : State) : State :=
  mkState (responding s) (storeThreadId s) (messageIds s) (messages s)
    (researchIds s) (researchPlanIds s) (researchReportIds s)
    (researchActivityIds s) (ongoingResearchId s) v (paperSections s)
    (paperOutlineId s) (completedPaperId s) (finalPaper s)
    (finalPaperLoading s) (finalPaperError s).

Definition set_paperSections (v : list string) (s : State) : State :=
  mkState (responding s) (storeThreadId s) (messageIds s) (messages s)
    (researchIds s) (researchPlanIds s) (researchReportIds s)
    (researchActivityIds s) (ongoingResearchId s) (openResearchId s) v
    (paperOutlineId s) (completedPaperId s) (finalPaper s)
    (finalPaperLoading s) (finalPaperError s).

Definition set_paperOutlineId (v : option string) (s : State) : State :=
  mkState (responding s) (storeThreadId s) (messageIds s) (messages s)
    (researchIds s) (researchPlanIds s) (researchReportIds s)
    (researchActivityIds s) (ongoingResearchId s) (openResearchId s)
    (paperSections s) v (completedPaperId s) (finalPaper s)
    (finalPaperLoading s) (finalPaperError s).

Definition set_completedPaperId (v : option string) (s : State) : State :=
  mkState (responding s) (storeThreadId s) (messageIds s) (messages s)
    (researchIds s) (researchPlanIds s) (researchReportIds s)
    (researchActivityIds s) (ongoingResearchId s) (openResearchId s)
    (paperSections s) (paperOutlineId s) v (finalPaper s)
    (finalPaperLoading s) (finalPaperError s).

Definition set_finalPaper (v : option FinalPaperResponse) (s : State) : State :=
  mkState (responding s) (storeThreadId s) (messageIds s) (messages s)
    (researchIds s) (researchPlanIds s) (researchReportIds s)
    (researchActivityIds s) (ongoingResearchId s) (openResearchId s)
    (paperSections s) (paperOutlineId s) (completedPaperId s) v
    (finalPaperLoading s) (finalPaperError s).

Definition set_finalPaperLoading (v : bool) (s : State) : State :=
  mkState (responding s) (storeThreadId s) (messageIds s) (messages s)
    (researchIds s) (researchPlanIds s) (researchReportIds s)
    (researchActivityIds s) (ongoingResearchId s) (openResearchId s)
    (paperSections s) (paperOutlineId s) (completedPaperId s) (finalPaper s)
    v (finalPaperError s).

Definition set_finalPaperError (v : option string) (s : State) : State :=
  mkState (responding s) (storeThreadId s) (messageIds s) (messages s)
    (researchIds s) (researchPlanIds s) (researchReportIds s)
    (researchActivityIds s) (ongoingResearchId s) (openResearchId s)
    (paperSections s) (paperOutlineId s) (completedPaperId s) (finalPaper s)
    (finalPaperLoading s) v.

(** ** The store's own methods (the object passed to [create]) *)
Module Store.
Definition appendMessage (message : Message) (state : State) : State :=
  set_messages (JsMap.set (id message) message (messages state))
    (set_messageIds (messageIds state ++ [id message]) state).

Definition updateMessage (message : Message) (state : State) : State :=
  set_messages (JsMap.set (id message) message (messages state)) state.

Definition updateMessages (ms : list Message) (state : State) : State :=
  set_messages
    (fold_left (fun acc m => JsMap.set (id m) m acc) ms (messages state))
    state.

Definition openResearch (researchId : option string) : State -> State :=
  set_openResearchId researchId.

Definition closeResearch : State -> State := set_openResearchId None.

Definition setOngoingResearch (researchId : option string) : State -> State :=
  set_ongoingResearchId researchId.

Definition addPaperSection (sectionContent : string) (state : State)
  : State :=
  set_paperSections (paperSections state ++ [sectionContent]) state.

Definition setPaperOutline (outlineId : string) : State -> State :=
  set_paperOutlineId (Some outlineId).

Definition setCompletedPaper (paperId : string) : State -> State :=
  set_completedPaperId (Some paperId).

Definition resetPaperState (state : State) : State :=
  set_completedPaperId None (set_paperSections [] state).

Definition clearFinalPaper (state : State) : State :=
  set_finalPaperLoading false
    (set_finalPaperError None (set_finalPaper None state)).
End Store.


(** ** The world around the store

    Besides the store, the event loop holds the [setTimeout] callbacks that
    [checkAndFetchFinalPaper] has scheduled (each with the thread id it
    closed over; all use one delay, so they run in scheduling order) and the
    [getFinalPaper] requests that have not settled yet.  [fetchCalls] logs
    every call of [getFinalPaper], in order. *)
Record World := mkWorld {
  store : State;
  timers : list string;
  inflight : list string;
  fetchCalls : list string;
}.

Definition initialWorld (THREAD_ID : string) : World :=
  mkWorld (initialState THREAD_ID) [] [] [].

(** [useStore.setState(f)]. *)
Definition onStore (f : State -> State) (w : World) : World :=
  mkWorld (f (store w)) (timers w) (inflight w) (fetchCalls w).

(** A call either returns or throws; both leave a world behind. *)
Inductive Result :=
| Returned (w : World)
| Thrown (w : World).

Definition andThen (r : Result) (k : World -> Result) : Result :=
  match r with
  | Returned w => k w
  | Thrown w => Thrown w
  end.

Definition worldOf (r : Result) : World :=
  match r with
  | Returned w => w
  | Thrown w => w
  end.

Definition hasThrown (r : Result) : bool :=
  match r with
  | Returned _ => false
  | Thrown _ => true
  end.

(** [message.agent === a]. *)
Definition agentIs (a : string) (message : Message) : bool :=
  bool_decide (agent message = Some a).

Definition setResponding (value : bool) : World -> World :=
  onStore (set_responding value).

Definition existsMessage (i : string) (w : World) : bool :=
  bool_decide (i ∈ messageIds (store w)).

Definition getMessage (i : string) (w : World) : option Message :=
  JsMap.get i (messages (store w)).

Definition hasToolCall (toolCallId : string) (message : Message) : bool :=
  match toolCalls message with
  | Some calls => existsb (fun toolCall => String.eqb (tc_id toolCall) toolCallId) calls
  | None => false
  end.

Definition findMessageByToolCallId (toolCallId : string) (w : World)
  : option Message :=
  find (hasToolCall toolCallId) (rev (JsMap.values (messages (store w)))).

Definition getOngoingResearchId (w : World) : option string :=
  ongoingResearchId (store w).

(** [allMessages.some(msg => msg.agent === "paper_writer" || msg.agent ===
    "outline_writer")]. *)
Definition somePaperWritingMessage (state : State) : bool :=
  existsb (fun msg => agentIs "paper_writer" msg || agentIs "outline_writer" msg)
    (JsMap.values (messages state)).

(** The loop of [appendResearch] over the reversed id list. *)
Fixpoint findPlanMessage (msgs : JsMap.t Message) (reversedMessageIds : list string)
  : option Message :=
  match reversedMessageIds with
  | [] => None
  | messageId :: rest =>
      match JsMap.get messageId msgs with
      | Some message =>
          if agentIs "planner" message then Some message
          else findPlanMessage msgs rest
      | None => findPlanMessage msgs rest
      end
  end.

(** [planMessage!.id] throws a TypeError when no planner message was found. *)
Definition appendResearch (researchId : string) (w : World) : Result :=
  match findPlanMessage (messages (store w)) (rev (messageIds (store w))) with
  | None => Thrown w
  | Some planMessage =>
      let ids := [id planMessage; researchId] in
      Returned
        (onStore
           (fun s =>
              set_researchActivityIds (<[researchId := ids]> (researchActivityIds s))
                (set_researchPlanIds
                   (<[researchId := id planMessage]> (researchPlanIds s))
                   (set_researchIds (researchIds s ++ [researchId])
                      (set_ongoingResearchId (Some researchId) s))))
           w)
  end.

Definition openResearch (researchId : option string) : World -> World :=
  onStore (Store.openResearch researchId).

Definition closeResearch : World -> World := onStore Store.closeResearch.

(** [researchActivityIds.get(researchId)!.includes] throws a TypeError when
    the ongoing id has no activity list. *)
Definition appendResearchActivity (message : Message) (w : World) : Result :=
  match getOngoingResearchId w with
  | Some researchId =>
      if truthy researchId then
        match researchActivityIds (store w) !! researchId with
        | None => Thrown w
        | Some current =>
            let w1 :=
              if bool_decide (id message ∈ current) then w
              else
                onStore
                  (set_researchActivityIds
                     (<[researchId := current ++ [id message]]>
                        (researchActivityIds (store w))))
                  w in
            let w2 :=
              if agentIs "reporter" message then
                onStore
                  (fun s =>
                     set_researchReportIds
                       (<[researchId := id message]> (researchReportIds s)) s)
                  w1
              else w1 in
            Returned w2
        end
      else Returned w
  | None => Returned w
  end.

(** The block both [appendMessage] and [updateMessage] run for a committed
    [outline_writer] message: [setPaperOutline(message.id)] and then
    [resetPaperState()]. *)
Definition outlineCommitted (message : Message) (state : State) : State :=
  Store.resetPaperState (Store.setPaperOutline (id message) state).

(** What the [paper_writer] block writes once [sectionData.section_content]
    has been read as [field]: a truthy field is the section; a falsy or
    missing one falls through to the plain-text branch, which wants a
    non-blank content. *)
Definition sectionAdded (field : option string) (message : Message)
    (state : State) : State :=
  match field with
  | Some body =>
      if truthy body then Store.addPaperSection body state
      else if negb (isBlank (content message))
           then Store.addPaperSection (content message) state
           else state
  | None =>
      if negb (isBlank (content message))
      then Store.addPaperSection (content message) state
      else state
  end.

(** The block both run for a committed [paper_writer] message.  The result of
    [parseJSON(message.content ?? "", {})] is only cast, not checked, before
    [sectionData.section_content] is read: when it is [null] the read throws,
    before anything is written, which is [None] here. *)
Definition paperSectionCommitted `{Externals} (message : Message) (state : State)
  : option State :=
  match section_content (content message) with
  | ReadThrows => None
  | ReadGives field => Some (sectionAdded field message state)
  end.

(** The same block on the world: a throw leaves the world as it found it. *)
Definition paperSectionBlock `{Externals} (message : Message) (w : World)
  : Result :=
  match paperSectionCommitted message (store w) with
  | Some state => Returned (mkWorld state (timers w) (inflight w) (fetchCalls w))
  | None => Thrown w
  end.

(** [checkAndFetchFinalPaper(threadId)] only arms the timer. *)
Definition checkAndFetchFinalPaper (threadId : string) (w : World) : World :=
  mkWorld (store w) (timers w ++ [threadId]) (inflight w) (fetchCalls w).

(** [fetchFinalPaper(threadId)] up to its [await]: the loading flag is
    raised, the old error dropped, and the request is under way. *)
Definition fetchFinalPaper (threadId : string) (w : World) : World :=
  mkWorld
    (set_finalPaperError None (set_finalPaperLoading true (store w)))
    (timers w)
    (inflight w ++ [threadId])
    (fetchCalls w ++ [threadId]).

(** [error instanceof Error ? error.message : 'Failed to fetch final paper']. *)
Definition errorMessage (error : ThrownValue) : string :=
  match error with
  | ErrorObject message => message
  | NotAnError => "Failed to fetch final paper"
  end.

(** The [catch] branch of [fetchFinalPaper]. *)
Definition fetchFailed (error : ThrownValue) (state : State) : State :=
  set_finalPaperLoading false
    (set_finalPaperError (Some (errorMessage error)) state).

(** The outline-based estimate of [checkAndFetchFinalPaper]: the first
    committed [outline_writer] message in the map's order, 3 by default, and
    the largest pattern count clamped into 2..8 when a pattern matches. *)
Definition maxSectionCount `{Externals} (outlineContent : string) : nat :=
  fold_left
    (fun acc pattern =>
       let matches := matchCount pattern outlineContent in
       if Nat.ltb 0 matches then Nat.max acc matches else acc)
    sectionIndicators 0.

Definition estimateExpectedSections `{Externals} (allMessages : list Message)
  : nat :=
  match find (fun msg => agentIs "outline_writer" msg && negb (isStreaming msg))
          allMessages with
  | Some outlineMessage =>
      if truthy (content outlineMessage) then
        let detected := maxSectionCount (toLowerCase (content outlineMessage)) in
        if Nat.ltb 0 detected then Nat.min (Nat.max detected 2) 8 else 3
      else 3
  | None => 3
  end.

(** ** [sendMessage]

    The function is the same text in both stores; it is stated once, over
    the [appendMessage] and [updateMessage] of the store it belongs to.
    [THREAD_ID] is the module constant, [nanoid] the id drawn for the user
    message, and the stream is the list of events it yields, ending either
    normally or with a transport error ([streamFails]). *)
Section SendMessage.
Context `{Externals}.
Variable appendMessage : Message -> World -> Result.
Variable updateMessage : Message -> World -> Result.

(** The body of the [for await] loop for one event. *)
Definition streamIteration (feedback : option string) (event : ChatEvent)
    (w : World) : Result :=
  let messageId := ev_id event in
  let looked : Result * option Message :=
    if String.eqb (ev_type event) "tool_call_result" then
      (Returned w, findMessageByToolCallId (ev_tool_call_id event) w)
    else if negb (existsMessage messageId w) then
      let message :=
        {| id := messageId;
           threadId := ev_thread_id event;
           role := ev_role event;
           agent := ev_agent event;
           content := "";
           contentChunks := [];
           toolCalls := None;
           isStreaming := true;
           finishReason := None;
           interruptFeedback := feedback |} in
      (appendMessage message w, Some message)
    else (Returned w, None) in
  andThen (fst looked)
    (fun w1 =>
       let message :=
         match snd looked with
         | Some m => Some m
         | None => getMessage messageId w1
         end in
       match message with
       | Some m => updateMessage (mergeMessage m event) w1
       | None => Returned w1
       end).

(** The loop; the second component is the local [messageId] when the loop
    ends or throws. *)
Fixpoint streamLoop (feedback : option string) (events : list ChatEvent)
    (messageId : option string) (w : World) : Result * option string :=
  match events with
  | [] => (Returned w, messageId)
  | event :: rest =>
      match streamIteration feedback event w with
      | Returned w' => streamLoop feedback rest (Some (ev_id event)) w'
      | Thrown w' => (Thrown w', Some (ev_id event))
      end
  end.

(** The [catch] block.  [message.isStreaming = false] writes into the object
    the map holds under [messageId]; the store's own [updateMessage] then
    sets it under [message.id]. *)
Definition catchBlock (messageId : option string) (w : World) : World :=
  let w1 :=
    match messageId with
    | Some i =>
        match getMessage i w with
        | Some message =>
            if isStreaming message then
              let stopped :=
                {| id := id message;
                   threadId := threadId message;
                   role := role message;
                   agent := agent message;
                   content := content message;
                   contentChunks := contentChunks message;
                   toolCalls := toolCalls message;
                   isStreaming := false;
                   finishReason := finishReason message;
                   interruptFeedback := interruptFeedback message |} in
              onStore
                (fun s =>
                   Store.updateMessage stopped
                     (set_messages (JsMap.set i stopped (messages s)) s))
                w
            else w
        | None => w
        end
    | None => w
    end in
  onStore (Store.setOngoingResearch None) w1.

Definition sendMessageOver (THREAD_ID : string) (messageContent : option string)
    (nanoid : string) (feedback : option string) (events : list ChatEvent)
    (streamFails : bool) (w : World) : Result :=
  andThen
    (match messageContent with
     | Some text =>
         appendMessage
           {| id := nanoid;
              threadId := THREAD_ID;
              role := user;
              agent := None;
              content := text;
              contentChunks := [text];
              toolCalls := None;
              isStreaming := false;
              finishReason := None;
              interruptFeedback := None |}
           w
     | None => Returned w
     end)
    (fun w0 =>
       let w1 := setResponding true w0 in
       let looped := streamLoop feedback events None w1 in
       let w2 :=
         match fst looped with
         | Returned w' => if streamFails then catchBlock (snd looped) w' else w'
         | Thrown w' => catchBlock (snd looped) w'
         end in
       Returned (setResponding false w2)).
End SendMessage.

(** ** The event loop after the stream: timers and settling requests

    A task is either the oldest armed timer running its callback, or the
    [k]-th pending [getFinalPaper] request settling with an outcome
    ([nanoid] is the id the continuation may draw for the final-paper card). *)
Inductive Task :=
| TimerFires
| FetchSettles (k : nat) (outcome : FetchOutcome) (nanoid : string).

Section EventLoop.
Variable timerCallback : string -> World -> World.
Variable fetchSettled : string -> FetchOutcome -> string -> State -> State.

Definition runTask (task : Task) (w : World) : World :=
  match task with
  | TimerFires =>
      match timers w with
      | [] => w
      | threadId :: rest =>
          timerCallback threadId
            (mkWorld (store w) rest (inflight w) (fetchCalls w))
      end
  | FetchSettles k outcome nanoid =>
      match inflight w !! k with
      | None => w
      | Some threadId =>
          mkWorld (fetchSettled threadId outcome nanoid (store w)) (timers w)
            (delete k (inflight w)) (fetchCalls w)
      end
  end.

Definition runTasks (tasks : list Task) (w : World) : World :=
  fold_left (fun acc task => runTask task acc) tasks w.
End EventLoop.

(** ** The store of [src/src/core/store/store.ts] *)
Module CoreStore.

(** The continuation of the store's [fetchFinalPaper] once [getFinalPaper]
    has settled. *)
Definition fetchFinalPaper_settled (threadId : string) (outcome : FetchOutcome)
    (nanoid : string) (state : State) : State :=
  match outcome with
  | Resolved response =>
      set_finalPaperLoading false (set_finalPaper (Some response) state)
  | Rejected error => fetchFailed error state
  end.

Definition isResearchAgent (message : Message) : bool :=
  agentIs "coder" message
  || agentIs "thinking" message
  || agentIs "reporter" message
  || agentIs "researcher" message.

(** The [reporter] block at the end of the function only logs. *)
Definition appendMessage `{Externals} (message : Message) (w : World) : Result :=
  andThen
    (if isResearchAgent message then
       andThen
         (if negb (truthyOpt (getOngoingResearchId w)) then
            andThen (appendResearch (id message) w)
              (fun w' => Returned (openResearch (Some (id message)) w'))
          else Returned w)
         (appendResearchActivity message)
     else Returned w)
    (fun w1 =>
       let w2 :=
         if agentIs "outline_writer" message && negb (isStreaming message)
         then onStore (outlineCommitted message) w1
         else w1 in
       andThen
         (if agentIs "paper_writer" message && negb (isStreaming message)
          then andThen (paperSectionBlock message w2)
                 (fun w' =>
                    Returned (checkAndFetchFinalPaper (threadId message) w'))
          else Returned w2)
         (fun w3 => Returned (onStore (Store.appendMessage message) w3))).

Definition updateMessage `{Externals} (message : Message) (w : World) : Result :=
  let isPaperWritingWorkflow := somePaperWritingMessage (store w) in
  let w1 :=
    if truthyOpt (getOngoingResearchId w)
       && agentIs "reporter" message
       && negb (isStreaming message)
       && negb isPaperWritingWorkflow
    then onStore (Store.setOngoingResearch None) w
    else w in
  let w2 :=
    if agentIs "outline_writer" message && negb (isStreaming message)
    then onStore (outlineCommitted message) w1
    else w1 in
  andThen
    (if agentIs "paper_writer" message && negb (isStreaming message)
     then andThen (paperSectionBlock message w2)
            (fun w' => Returned (checkAndFetchFinalPaper (threadId message) w'))
     else Returned w2)
    (fun w3 => Returned (onStore (Store.updateMessage message) w3)).

(** The local variables of the timer callback: what it logs and what
    [shouldFetch] reads. *)
Record Locals := mkLocals {
  isPaperWritingWorkflow : bool;
  hasPaperWriters : bool;
  expectedSections : nat;
  streamingPaperWriters : list Message;
  anyStreamingMessages : bool;
  completedPaperWriters : list Message;
  totalSections : nat;
  finalPaperPresent : bool;
}.

Definition locals `{Externals} (state : State) : Locals :=
  let allMessages := JsMap.values (messages state) in
  {| isPaperWritingWorkflow :=
       existsb
         (fun msg => agentIs "paper_writer" msg || agentIs "outline_writer" msg)
         allMessages;
     hasPaperWriters := existsb (agentIs "paper_writer") allMessages;
     expectedSections := estimateExpectedSections allMessages;
     streamingPaperWriters :=
       List.filter (fun msg => agentIs "paper_writer" msg && isStreaming msg)
         allMessages;
     anyStreamingMessages := existsb isStreaming allMessages;
     completedPaperWriters :=
       List.filter (fun msg => agentIs "paper_writer" msg && negb (isStreaming msg))
         allMessages;
     totalSections := List.length (paperSections state);
     finalPaperPresent := bool_decide (is_Some (finalPaper state)) |}.

Definition shouldFetch (l : Locals) : bool :=
  hasPaperWriters l
  && Nat.eqb (List.length (streamingPaperWriters l)) 0
  && negb (anyStreamingMessages l)
  && Nat.leb (expectedSections l) (List.length (completedPaperWriters l))
  && negb (finalPaperPresent l).

(** The callback [checkAndFetchFinalPaper] hands to [setTimeout]. *)
Definition checkAndFetchFinalPaper_callback `{Externals} (threadId : string)
    (w : World) : World :=
  let l := locals (store w) in
  if negb (isPaperWritingWorkflow l) then w
  else if negb (hasPaperWriters l) then w
  else if shouldFetch l then fetchFinalPaper threadId w
  else w.

Definition sendMessage `{Externals} :=
  sendMessageOver appendMessage updateMessage.

Definition runTasks `{Externals} : list Task -> World -> World :=
  runTasks checkAndFetchFinalPaper_callback fetchFinalPaper_settled.

End CoreStore.

(** ** The store that follows [message-list-view.tsx] *)
Module ViewStore.

(** On success the continuation also files a [final_paper] card through the
    store's own [appendMessage], when the returned text is non-empty. *)
Definition fetchFinalPaper_settled `{Externals} (threadId : string)
    (outcome : FetchOutcome) (nanoid : string) (state : State) : State :=
  match outcome with
  | Resolved response =>
      let stored :=
        set_finalPaperLoading false (set_finalPaper (Some response) state) in
      if truthy (final_paper response) then
        Store.appendMessage
          {| id := nanoid;
             threadId := threadId;
             role := assistant;
             agent := Some "final_paper";
             content := finalPaperCardContent response;
             contentChunks := [final_paper response];
             toolCalls := None;
             isStreaming := false;
             finishReason := None;
             interruptFeedback := None |}
          stored
      else stored
  | Rejected error => fetchFailed error state
  end.

Definition isResearchAgent (message : Message) : bool :=
  agentIs "coder" message
  || agentIs "thinking" message
  || agentIs "reporter" message
  || agentIs "researcher" message
  || agentIs "outline_writer" message
  || agentIs "paper_writer" message
  || agentIs "references_writer" message.

(** The [reporter] block at the end of the function only logs. *)
Definition appendMessage `{Externals} (message : Message) (w : World) : Result :=
  andThen
    (if isResearchAgent message then
       andThen
         (if negb (truthyOpt (getOngoingResearchId w)) then
            andThen (appendResearch (id message) w)
              (fun w' => Returned (openResearch (Some (id message)) w'))
          else Returned w)
         (appendResearchActivity message)
     else Returned w)
    (fun w1 =>
       let w2 :=
         if agentIs "outline_writer" message && negb (isStreaming message)
         then onStore (outlineCommitted message) w1
         else w1 in
       andThen
         (if agentIs "paper_writer" message && negb (isStreaming message)
          then paperSectionBlock message w2
          else Returned w2)
         (fun w3 =>
            let w4 :=
              if agentIs "references_writer" message
                 && negb (isStreaming message)
              then checkAndFetchFinalPaper (threadId message) w3
              else w3 in
            Returned (onStore (Store.appendMessage message) w4))).

Definition updateMessage `{Externals} (message : Message) (w : World) : Result :=
  let isPaperWritingWorkflow := somePaperWritingMessage (store w) in
  let w1 :=
    if truthyOpt (getOngoingResearchId w)
       && agentIs "reporter" message
       && negb (isStreaming message)
       && negb isPaperWritingWorkflow
    then onStore (Store.setOngoingResearch None) w
    else w in
  let w2 :=
    if agentIs "outline_writer" message && negb (isStreaming message)
    then onStore (outlineCommitted message) w1
    else w1 in
  andThen
    (if agentIs "paper_writer" message && negb (isStreaming message)
     then paperSectionBlock message w2
     else Returned w2)
    (fun w3 =>
       let w4 :=
         if agentIs "references_writer" message && negb (isStreaming message)
         then checkAndFetchFinalPaper (threadId message) w3
         else w3 in
       Returned (onStore (Store.updateMessage message) w4)).

(** The local variables of the timer callback: what it logs and what
    [shouldFetch] reads. *)
Record Locals := mkLocals {
  isPaperWritingWorkflow : bool;
  hasPaperWriters : bool;
  expectedSections : nat;
  streamingReferencesWriters : list Message;
  anyStreamingMessages : bool;
  completedReferencesWriters : list Message;
  completedPaperWriters : list Message;
  totalSections : nat;
  finalPaperPresent : bool;
}.

Definition locals `{Externals} (state : State) : Locals :=
  let allMessages := JsMap.values (messages state) in
  {| isPaperWritingWorkflow :=
       existsb
         (fun msg => agentIs "paper_writer" msg || agentIs "outline_writer" msg)
         allMessages;
     hasPaperWriters := existsb (agentIs "paper_writer") allMessages;
     expectedSections := estimateExpectedSections allMessages;
     streamingReferencesWriters :=
       List.filter (fun msg => agentIs "references_writer" msg && isStreaming msg)
         allMessages;
     anyStreamingMessages := existsb isStreaming allMessages;
     completedReferencesWriters :=
       List.filter
         (fun msg => agentIs "references_writer" msg && negb (isStreaming msg))
         allMessages;
     completedPaperWriters :=
       List.filter (fun msg => agentIs "paper_writer" msg && negb (isStreaming msg))
         allMessages;
     totalSections := List.length (paperSections state);
     finalPaperPresent := bool_decide (is_Some (finalPaper state)) |}.

Definition shouldFetch (l : Locals) : bool :=
  hasPaperWriters l
  && Nat.eqb (List.length (streamingReferencesWriters l)) 0
  && Nat.ltb 0 (List.length (completedReferencesWriters l))
  && negb (anyStreamingMessages l)
  && negb (finalPaperPresent l).

(** The callback [checkAndFetchFinalPaper] hands to [setTimeout]. *)
Definition checkAndFetchFinalPaper_callback `{Externals} (threadId : string)
    (w : World) : World :=
  let l := locals (store w) in
  if negb (isPaperWritingWorkflow l) then w
  else if negb (hasPaperWriters l) then w
  else if shouldFetch l then fetchFinalPaper threadId w
  else w.

Definition sendMessage `{Externals} :=
  sendMessageOver appendMessage updateMessage.

Definition runTasks `{Externals} : list Task -> World -> World :=
  runTasks checkAndFetchFinalPaper_callback fetchFinalPaper_settled.

End ViewStore.

(** ** An environment to run the stores in *)

(** A tool-call delta extends the arguments of the entry it names. *)
Definition extendToolCall (toolCallId text : string) (call : ToolCall) : ToolCall :=
  if String.eqb (tc_id call) toolCallId
  then mkToolCall (tc_id call) (tc_name call) (String.append (tc_args call) text)
         (tc_result call)
  else call.

(** A tool-call result resolves the entry it names. *)
Definition resolveToolCall (toolCallId text : string) (call : ToolCall) : ToolCall :=
  if String.eqb (tc_id call) toolCallId
  then mkToolCall (tc_id call) (tc_name call) (tc_args call) (Some text)
  else call.

(** Modelled from the spec: [mergeMessage] of [core/messages], which is not
    among the sources at hand.  Per the Stream Merge Engine section: a
    content delta appends its text to [content] and adds a slot to
    [contentChunks]; a tool-call start adds an entry to [toolCalls] under the
    tool-call identifier, a tool-call delta extends that entry's arguments, a
    tool-call result resolves it; a finish reason sets [isStreaming] to
    [false] and records the reason.  An event may carry several of these. *)
Definition specMergeMessage (message : Message) (event : ChatEvent) : Message :=
  let text := default "" (ev_content event) in
  let isResult := String.eqb (ev_type event) "tool_call_result" in
  let calls :=
    match ev_tool_call_name event with
    | Some name =>
        Some (default [] (toolCalls message)
                ++ [mkToolCall (ev_tool_call_id event) name text None])
    | None =>
        if isResult
        then fmap (map (resolveToolCall (ev_tool_call_id event) text))
               (toolCalls message)
        else if truthy (ev_tool_call_id event)
        then fmap (map (extendToolCall (ev_tool_call_id event) text))
               (toolCalls message)
        else toolCalls message
    end in
  let isDelta :=
    negb isResult && negb (truthy (ev_tool_call_id event))
    && bool_decide (is_Some (ev_content event)) in
  {| id := id message;
     threadId := threadId message;
     role := role message;
     agent := agent message;
     content :=
       if isDelta then String.append (content message) text else content message;
     contentChunks :=
       if isDelta then contentChunks message ++ [text] else contentChunks message;
     toolCalls := calls;
     isStreaming :=
       match ev_finish_reason event with
       | Some _ => false
       | None => isStreaming message
       end;
     finishReason :=
       match ev_finish_reason event with
       | Some reason => Some reason
       | None => finishReason message
       end;
     interruptFeedback := interruptFeedback message |}.

(** Plain-text sessions: no content parses as a section record, no outline
    carries a section marker, and the card content is the paper text. *)
Definition plainExternals : Externals :=
  {| mergeMessage := specMergeMessage;
     section_content := fun _ => ReadGives None;
     finalPaperCardContent := final_paper;
     toLowerCase := fun s => s;
     matchCount := fun _ _ => 0 |}.


(** Events as the stream delivers them. *)
Definition startEvent (i : string) (a : string) : ChatEvent :=
  mkChatEvent "message_chunk" i "T" (Some a) assistant None "" None None.

Definition deltaEvent (i : string) (a : string) (text : string) : ChatEvent :=
  mkChatEvent "message_chunk" i "T" (Some a) assistant (Some text) "" None None.

Definition finishEvent (i : string) (a : string) : ChatEvent :=
  mkChatEvent "message_chunk" i "T" (Some a) assistant None "" None (Some "stop").

(** A committed message of an agent, as [updateMessage] receives it. *)
Definition committedMessage (i : string) (a : string) (text : string) : Message :=
  {| id := i;
     threadId := "T";
     role := assistant;
     agent := Some a;
     content := text;
     contentChunks := [text];
     toolCalls := None;
     isStreaming := false;
     finishReason := Some "stop";
     interruptFeedback := None |}.

(** ** The conditions in the words of the specification *)

(** Every entry of the message map sits under its own id. *)
Definition keyed (state : State) : Prop :=
  forall k m, (k, m) ∈ messages state -> id m = k.

Definition allMessagesOf (state : State) : list Message :=
  JsMap.values (messages state).

(** The messages of the store in map order, each with its agent and its
    streaming flag. *)
Definition summary (w : World) : list (string * option string * bool) :=
  map (fun m => (id m, agent m, isStreaming m)) (allMessagesOf (store w)).

(** The five conditions the completion re-evaluation is said to verify. *)
Record CompletionConditions (state : State) : Prop := {
  paper_writer_exists :
    exists m, m ∈ allMessagesOf state /\ agent m = Some "paper_writer";
  no_references_writer_streaming :
    forall m, m ∈ allMessagesOf state ->
              agent m = Some "references_writer" -> isStreaming m = false;
  references_writer_committed :
    exists m, m ∈ allMessagesOf state
              /\ agent m = Some "references_writer" /\ isStreaming m = false;
  nothing_streaming :
    forall m, m ∈ allMessagesOf state -> isStreaming m = false;
  no_final_artifact : finalPaper state = None;
}.

(** The conditions [src/src/core/store/store.ts] verifies instead. *)
Record SectionCountConditions `{Externals} (state : State) : Prop := {
  sc_paper_writer_exists :
    exists m, m ∈ allMessagesOf state /\ agent m = Some "paper_writer";
  sc_nothing_streaming :
    forall m, m ∈ allMessagesOf state -> isStreaming m = false;
  sc_enough_sections :
    estimateExpectedSections (allMessagesOf state)
    <= List.length
         (List.filter
            (fun msg => agentIs "paper_writer" msg && negb (isStreaming msg))
            (allMessagesOf state));
  sc_no_final_artifact : finalPaper state = None;
}.


(** The callback triggers the fetch: [getFinalPaper] is called once more,
    for this thread. *)
Definition triggersFetch (callback : string -> World -> World)
    (threadId : string) (w : World) : Prop :=
  fetchCalls (callback threadId w) = fetchCalls w ++ [threadId].

(** The session is a paper-writing workflow: an [outline_writer] or
    [paper_writer] message exists somewhere in the store. *)
Definition paperWritingSession (state : State) : Prop :=
  exists m, m ∈ allMessagesOf state
            /\ (agent m = Some "outline_writer" \/ agent m = Some "paper_writer").

(** The locals of the callback with another estimate and another list of
    completed paper writers. *)
Definition withProgress (estimate : nat) (completed : list Message)
    (l : ViewStore.Locals) : ViewStore.Locals :=
  ViewStore.mkLocals (ViewStore.isPaperWritingWorkflow l)
    (ViewStore.hasPaperWriters l) estimate
    (ViewStore.streamingReferencesWriters l) (ViewStore.anyStreamingMessages l)
    (ViewStore.completedReferencesWriters l) completed
    (ViewStore.totalSections l) (ViewStore.finalPaperPresent l).

Definition withEstimate (estimate : nat) (l : CoreStore.Locals)
  : CoreStore.Locals :=
  CoreStore.mkLocals (CoreStore.isPaperWritingWorkflow l)
    (CoreStore.hasPaperWriters l) estimate (CoreStore.streamingPaperWriters l)
    (CoreStore.anyStreamingMessages l) (CoreStore.completedPaperWriters l)
    (CoreStore.totalSections l) (CoreStore.finalPaperPresent l).

(** ** Sessions and notions the statements use *)

(** Three paper sections written and committed, nothing else in the store. *)
Definition threeSectionsWritten : World :=
  worldOf
    (@CoreStore.sendMessage plainExternals "T" None "u" None
       [startEvent "s1" "paper_writer"; deltaEvent "s1" "paper_writer" "One";
        finishEvent "s1" "paper_writer";
        startEvent "s2" "paper_writer"; deltaEvent "s2" "paper_writer" "Two";
        finishEvent "s2" "paper_writer";
        startEvent "s3" "paper_writer"; deltaEvent "s3" "paper_writer" "Three";
        finishEvent "s3" "paper_writer"]
       false (initialWorld "T")).

(** One paper section and the references written and committed. *)
Definition referencesWritten : World :=
  worldOf
    (@CoreStore.sendMessage plainExternals "T" None "u" None
       [startEvent "s1" "paper_writer"; deltaEvent "s1" "paper_writer" "One";
        finishEvent "s1" "paper_writer";
        startEvent "r" "references_writer";
        deltaEvent "r" "references_writer" "[1] A source";
        finishEvent "r" "references_writer"]
       false (initialWorld "T")).

(** Two paper sections written and committed, no outline in the store. *)
Definition twoSectionsWritten : World :=
  worldOf
    (@CoreStore.sendMessage plainExternals "T" None "u" None
       [startEvent "s1" "paper_writer"; deltaEvent "s1" "paper_writer" "One";
        finishEvent "s1" "paper_writer";
        startEvent "s2" "paper_writer"; deltaEvent "s2" "paper_writer" "Two";
        finishEvent "s2" "paper_writer"]
       false (initialWorld "T")).

(** Committed references with the finish increment delivered twice: the
    session of a planner, an outline, one paper section and the references,
    as the store that follows [message-list-view.tsx] leaves it. *)
Definition referencesCommittedTwice : World :=
  worldOf
    (@ViewStore.sendMessage plainExternals "T" (Some "Write a paper") "u" None
       [startEvent "p" "planner"; deltaEvent "p" "planner" "plan";
        finishEvent "p" "planner";
        startEvent "o" "outline_writer"; deltaEvent "o" "outline_writer" "## Intro";
        finishEvent "o" "outline_writer";
        startEvent "s1" "paper_writer"; deltaEvent "s1" "paper_writer" "One";
        finishEvent "s1" "paper_writer";
        startEvent "r" "references_writer";
        deltaEvent "r" "references_writer" "[1] A source";
        finishEvent "r" "references_writer";
        finishEvent "r" "references_writer"]
       false (initialWorld "T")).

(** A response of the compiled-document service. *)
Definition paperResponse : FinalPaperResponse :=
  mkFinalPaperResponse "# Paper" "completed" true.

(** Either store's [appendMessage], for a message of one of its research
    agents. *)
Definition appendsResearchAgent `{Externals}
    (append : Message -> World -> Result) (message : Message) : Prop :=
  (append = CoreStore.appendMessage /\ CoreStore.isResearchAgent message = true)
  \/ (append = ViewStore.appendMessage /\ ViewStore.isResearchAgent message = true).

(** A session in which the planner has answered the user's question. *)
Definition planned : World :=
  worldOf
    (@ViewStore.sendMessage plainExternals "T" (Some "Why is the sky blue?") "u"
       None
       [startEvent "m1" "planner"; deltaEvent "m1" "planner" "{title: X}";
        finishEvent "m1" "planner"]
       false (initialWorld "T")).

(** The message [sendMessage] builds for the first increment of a researcher
    message [m2]. *)
Definition researcherStarts : Message :=
  {| id := "m2";
     threadId := "T";
     role := assistant;
     agent := Some "researcher";
     content := "";
     contentChunks := [];
     toolCalls := None;
     isStreaming := true;
     finishReason := None;
     interruptFeedback := None |}.

(** The functions of one store, taken together. *)
Definition storeFunctions `{Externals} (append : Message -> World -> Result)
    (update : Message -> World -> Result) : Prop :=
  (append = CoreStore.appendMessage /\ update = CoreStore.updateMessage)
  \/ (append = ViewStore.appendMessage /\ update = ViewStore.updateMessage).

(** The part of the store the Research bookkeeping is read from. *)
Definition sameResearch (w w' : World) : Prop :=
  messageIds (store w') = messageIds (store w)
  /\ researchIds (store w') = researchIds (store w)
  /\ ongoingResearchId (store w') = ongoingResearchId (store w)
  /\ messages (store w') = messages (store w).

(** The Research step of [appendMessage]: nothing while a Research is
    ongoing; otherwise a throw that changes nothing, or a new Research under
    the id of the message. *)
Definition researchStep (message : Message) (w : World) : Result :=
  andThen
    (if negb (truthyOpt (getOngoingResearchId w)) then
       andThen (appendResearch (id message) w)
         (fun w' => Returned (openResearch (Some (id message)) w'))
     else Returned w)
    (appendResearchActivity message).

(** One event of the stream: either the id list and the Research list stay
    as they are, or the event's id is new, the event is not a tool-call
    result, [appendMessage] returned, and the id is appended once; a Research
    is started only in the second case and only when none was ongoing. *)
Definition iterationEffect (event : ChatEvent) (w : World) (r : Result) : Prop :=
  let w' := worldOf r in
  let marker_kept_or_cleared :=
    ongoingResearchId (store w') = ongoingResearchId (store w)
    \/ ongoingResearchId (store w') = None in
  ((ev_id event ∈ messageIds (store w)
    \/ ev_type event = "tool_call_result"
    \/ hasThrown r = true)
   /\ messageIds (store w') = messageIds (store w)
   /\ researchIds (store w') = researchIds (store w)
   /\ marker_kept_or_cleared)
  \/ ((ev_id event ∉ messageIds (store w))
      /\ ev_type event <> "tool_call_result"
      /\ messageIds (store w') = messageIds (store w) ++ [ev_id event]
      /\ ((researchIds (store w') = researchIds (store w)
           /\ marker_kept_or_cleared)
          \/ (truthyOpt (getOngoingResearchId w) = false
              /\ researchIds (store w') = researchIds (store w) ++ [ev_id event]
              /\ (ongoingResearchId (store w') = Some (ev_id event)
                  \/ ongoingResearchId (store w') = None)))).

(** A planner message, then the first increment of a researcher message
    whose id is the empty string. *)
Definition emptyIdEvents : list ChatEvent :=
  [startEvent "m1" "planner"; finishEvent "m1" "planner";
   startEvent "" "researcher"].

(** The world those events leave, in either store (both open the Research
    the same way). *)
Definition afterEmptyId : World :=
  worldOf
    (fst (@streamLoop plainExternals (@ViewStore.appendMessage plainExternals)
            (@ViewStore.updateMessage plainExternals)
            None emptyIdEvents None (initialWorld "T"))).

(** ** The selectors the store exports *)

(** [useResearchMessage]: the plan message of a Research; the plan id is
    tested for truthiness. *)
Definition useResearchMessage (researchId : string) (state : State)
  : option Message :=
  match researchPlanIds state !! researchId with
  | Some messageId =>
      if truthy messageId then JsMap.get messageId (messages state) else None
  | None => None
  end.

Definition useMessage (messageId : option string) (state : State)
  : option Message :=
  match messageId with
  | Some i => if truthy i then JsMap.get i (messages state) else None
  | None => None
  end.

Definition useMessageIds (state : State) : list string := messageIds state.

Definition useLastInterruptMessage (state : State) : option Message :=
  if Nat.leb 2 (List.length (messageIds state)) then
    match messageIds state !! (List.length (messageIds state) - 1) with
    | Some lastId =>
        match JsMap.get lastId (messages state) with
        | Some lastMessage =>
            if bool_decide (finishReason lastMessage = Some "interrupt")
            then Some lastMessage else None
        | None => None
        end
    | None => None
    end
  else None.

Definition useLastFeedbackMessageId (state : State) : option string :=
  if Nat.leb 2 (List.length (messageIds state)) then
    match messageIds state !! (List.length (messageIds state) - 1) with
    | Some lastId =>
        match JsMap.get lastId (messages state) with
        | Some lastMessage =>
            if bool_decide (finishReason lastMessage = Some "interrupt")
            then messageIds state !! (List.length (messageIds state) - 2)
            else None
        | None => None
        end
    | None => None
    end
  else None.

(** [useToolCalls]: the tool calls of the listed messages, in list order. *)
Definition useToolCalls (state : State) : list ToolCall :=
  List.concat
    (omap
       (fun i =>
          match JsMap.get i (messages state) with
          | Some message => toolCalls message
          | None => None
          end)
       (messageIds state)).

Definition usePaperSections (state : State) : list string := paperSections state.

Definition usePaperOutlineId (state : State) : option string :=
  paperOutlineId state.

Definition usePaperOutlineMessage (state : State) : option Message :=
  useMessage (usePaperOutlineId state) state.

(** The status line of [ResearchCard] in [message-list-view.tsx]:
    [messages.get(reportId)!.isStreaming] throws a TypeError when the report
    id has no message, which is [None] here. *)
Definition researchCardState (researchId : string) (state : State)
  : option string :=
  match researchReportIds state !! researchId with
  | Some reportId =>
      match JsMap.get reportId (messages state) with
      | Some report =>
          Some (if isStreaming report then "Generating report..."
                else "Report generated")
      | None => None
      end
  | None => Some "Researching..."
  end.

(** ** [listenToPodcast]

    The function is the same text in both stores.  [planTitle] stands for
    the read [parseJSON(planMessage.content, { title: "Untitled" }).title],
    which throws when [parseJSON] returns [null], and [podcastJSON] for
    [JSON.stringify] of the podcast object, alone, with the error text, or
    with the audio url; [nanoid1] and [nanoid2] are the two ids drawn. *)
Inductive PodcastExtra :=
| NoExtra
| WithError (text : string)
| WithAudioUrl (audioUrl : option string).

Inductive PodcastOutcome :=
| PodcastGenerated (audioUrl : option string)
| PodcastRejected (error : ThrownValue).

(** What the function holds across its [await]. *)
Record PodcastRequest := mkPodcastRequest {
  podCastMessageId : string;
  podcastTitle : option string;
  podcastResearchId : string;
  reportContent : string;
}.

Section Podcast.
Variable appendMessage : Message -> World -> Result.
Variable planTitle : string -> PropertyRead.
Variable podcastJSON : option string -> string -> PodcastExtra -> string.

(** [listenToPodcast] up to its [await]: the result, and the request under
    way when [generatePodcast] has been called. *)
Definition listenToPodcast (THREAD_ID researchId nanoid1 nanoid2 : string)
    (w : World) : Result * option PodcastRequest :=
  match researchPlanIds (store w) !! researchId,
        researchReportIds (store w) !! researchId with
  | Some planMessageId, Some reportMessageId =>
      if truthy planMessageId && truthy reportMessageId then
        match getMessage planMessageId w with
        | None => (Thrown w, None)
        | Some planMessage =>
            match planTitle (content planMessage) with
            | ReadThrows => (Thrown w, None)
            | ReadGives title =>
                match getMessage reportMessageId w with
                | Some reportMessage =>
                    if truthy (content reportMessage) then
                      match
                        appendMessage
                          {| id := nanoid1;
                             threadId := THREAD_ID;
                             role := user;
                             agent := None;
                             content := "Please generate a podcast for the above research.";
                             contentChunks := [];
                             toolCalls := None;
                             isStreaming := false;
                             finishReason := None;
                             interruptFeedback := None |}
                          w
                      with
                      | Thrown w1 => (Thrown w1, None)
                      | Returned w1 =>
                          match
                            appendMessage
                              {| id := nanoid2;
                                 threadId := THREAD_ID;
                                 role := assistant;
                                 agent := Some "podcast";
                                 content := podcastJSON title researchId NoExtra;
                                 contentChunks := [];
                                 toolCalls := None;
                                 isStreaming := true;
                                 finishReason := None;
                                 interruptFeedback := None |}
                              w1
                          with
                          | Thrown w2 => (Thrown w2, None)
                          | Returned w2 =>
                              (Returned w2,
                               Some (mkPodcastRequest nanoid2 title researchId
                                       (content reportMessage)))
                          end
                      end
                    else (Returned w, None)
                | None => (Returned w, None)
                end
            end
        end
      else (Returned w, None)
  | _, _ => (Returned w, None)
  end.

(** [e instanceof Error ? e.message : "Unknown error"]. *)
Definition podcastErrorMessage (error : ThrownValue) : string :=
  match error with
  | ErrorObject message => message
  | NotAnError => "Unknown error"
  end.

(** The continuation once [generatePodcast] has settled.  The spread of
    [state.messages.get(podCastMessageId)!] needs the podcast message to be
    in the map; without it the object written has no id and is no [Message],
    which is [None] here. *)
Definition listenToPodcast_settled (request : PodcastRequest)
    (outcome : PodcastOutcome) (state : State) : option State :=
  match JsMap.get (podCastMessageId request) (messages state) with
  | Some podcastMessage =>
      let extra :=
        match outcome with
        | PodcastGenerated audioUrl => WithAudioUrl audioUrl
        | PodcastRejected error => WithError (podcastErrorMessage error)
        end in
      Some
        (set_messages
           (JsMap.set (podCastMessageId request)
              {| id := id podcastMessage;
                 threadId := threadId podcastMessage;
                 role := role podcastMessage;
                 agent := agent podcastMessage;
                 content :=
                   podcastJSON (podcastTitle request) (podcastResearchId request)
                     extra;
                 contentChunks := contentChunks podcastMessage;
                 toolCalls := toolCalls podcastMessage;
                 isStreaming := false;
                 finishReason := finishReason podcastMessage;
                 interruptFeedback := interruptFeedback podcastMessage |}
              (messages state))
           state)
  | None => None
  end.
End Podcast.

(** ** The Research step and the commit blocks, written out *)

(** The store once [appendResearchActivity] has recorded [message] under the
    ongoing Research [r], whose activity list was [current]. *)
Definition activityRecorded (r : string) (current : list string)
    (message : Message) (s : State) : State :=
  set_researchReportIds
    (if agentIs "reporter" message
     then <[r := id message]> (researchReportIds s)
     else researchReportIds s)
    (set_researchActivityIds
       (if bool_decide (id message ∈ current)
        then researchActivityIds s
        else <[r := current ++ [id message]]> (researchActivityIds s))
       s).

(** The store once a Research has been started for [message] under the plan
    message [planMessage]: [appendResearch], [openResearch], and the activity
    step, which finds the message listed and, for a reporter under a
    non-empty id, records the report. *)
Definition researchStarted (planMessage message : Message) (s : State) : State :=
  let started :=
    set_openResearchId (Some (id message))
      (set_researchActivityIds
         (<[id message := [id planMessage; id message]]> (researchActivityIds s))
         (set_researchPlanIds
            (<[id message := id planMessage]> (researchPlanIds s))
            (set_researchIds (researchIds s ++ [id message])
               (set_ongoingResearchId (Some (id message)) s)))) in
  if truthy (id message) && agentIs "reporter" message
  then set_researchReportIds
         (<[id message := id message]> (researchReportIds started)) started
  else started.

(** The Research step by cases. *)
Definition researchStepCases (message : Message) (w : World) : Result :=
  if truthyOpt (getOngoingResearchId w) then
    match getOngoingResearchId w with
    | Some r =>
        match researchActivityIds (store w) !! r with
        | Some current => Returned (onStore (activityRecorded r current message) w)
        | None => Thrown w
        end
    | None => Returned w
    end
  else
    match findPlanMessage (messages (store w)) (rev (messageIds (store w))) with
    | Some planMessage => Returned (onStore (researchStarted planMessage message) w)
    | None => Thrown w
    end.

(** Two stores that differ at most in the paper-writing progress
    ([paperSections], [paperOutlineId], [completedPaperId]). *)
Record SameButPaper (s s' : State) : Prop := {
  sbp_responding : responding s' = responding s;
  sbp_storeThreadId : storeThreadId s' = storeThreadId s;
  sbp_messageIds : messageIds s' = messageIds s;
  sbp_messages : messages s' = messages s;
  sbp_researchIds : researchIds s' = researchIds s;
  sbp_researchPlanIds : researchPlanIds s' = researchPlanIds s;
  sbp_researchReportIds : researchReportIds s' = researchReportIds s;
  sbp_researchActivityIds : researchActivityIds s' = researchActivityIds s;
  sbp_ongoingResearchId : ongoingResearchId s' = ongoingResearchId s;
  sbp_openResearchId : openResearchId s' = openResearchId s;
  sbp_finalPaper : finalPaper s' = finalPaper s;
  sbp_finalPaperLoading : finalPaperLoading s' = finalPaperLoading s;
  sbp_finalPaperError : finalPaperError s' = finalPaperError s;
}.

(** What a commit block may do to the world: change the paper-writing
    progress and arm at most one timer, for the thread of the message; the
    outline id is kept or becomes the id of the message, and the
    completed-paper id is kept or dropped. *)
Record BlocksFrame (message : Message) (w w' : World) : Prop := {
  bf_store : SameButPaper (store w) (store w');
  bf_inflight : inflight w' = inflight w;
  bf_fetchCalls : fetchCalls w' = fetchCalls w;
  bf_timers :
    timers w' = timers w \/ timers w' = timers w ++ [threadId message];
  bf_outline :
    paperOutlineId (store w') = paperOutlineId (store w)
    \/ paperOutlineId (store w') = Some (id message);
  bf_completed :
    completedPaperId (store w') = completedPaperId (store w)
    \/ completedPaperId (store w') = None;
}.

(** The bookkeeping of the Researches is sound: every listed id has a
    message; every Research is listed as a message, once; the ongoing marker
    is a Research; every Research has a plan message in the store and an
    activity list without repeats; every report id has a message. *)
Record ResearchSound (s : State) : Prop := {
  rs_ids_stored :
    forall i, i ∈ messageIds s -> is_Some (JsMap.get i (messages s));
  rs_research_listed : forall r, r ∈ researchIds s -> r ∈ messageIds s;
  rs_research_once : NoDup (researchIds s);
  rs_ongoing : forall r, ongoingResearchId s = Some r -> r ∈ researchIds s;
  rs_plan :
    forall r, r ∈ researchIds s ->
              exists p, researchPlanIds s !! r = Some p
                        /\ is_Some (JsMap.get p (messages s));
  rs_activity :
    forall r, r ∈ researchIds s ->
              exists l, researchActivityIds s !! r = Some l /\ NoDup l;
  rs_report :
    forall r q, researchReportIds s !! r = Some q ->
                is_Some (JsMap.get q (messages s));
}.


(** The user message [sendMessage] appends for a given text. *)
Definition userMessage (THREAD_ID nanoid text : string) : Message :=
  {| id := nanoid;
     threadId := THREAD_ID;
     role := user;
     agent := None;
     content := text;
     contentChunks := [text];
     toolCalls := None;
     isStreaming := false;
     finishReason := None;
     interruptFeedback := None |}.

(** [sendMessage] once the user message is stored: the loop, the [catch]
    block when the stream or a call failed, and the [finally] block. *)
Definition sendMessageReturns (append : Message -> World -> Result)
    (updated : Message -> World -> Result) `{Externals} (THREAD_ID : string)
    (messageContent : option string) (nanoid : string)
    (feedback : option string) (events : list ChatEvent) (streamFails : bool)
    (w : World) : World :=
  let w0 :=
    match messageContent with
    | Some text =>
        onStore (Store.appendMessage (userMessage THREAD_ID nanoid text)) w
    | None => w
    end in
  let looped := streamLoop append updated feedback events None
                  (setResponding true w0) in
  setResponding false
    (match fst looped with
     | Returned w' => if streamFails then catchBlock (snd looped) w' else w'
     | Thrown w' => catchBlock (snd looped) w'
     end).

(** A session in which the planner has answered and the reporter has written
    its report, the only message of the Research. *)
Definition reported : World :=
  worldOf
    (@ViewStore.sendMessage plainExternals "T" None "u" None
       [startEvent "m1" "planner"; deltaEvent "m1" "planner" "{title: X}";
        finishEvent "m1" "planner";
        startEvent "m2" "reporter"; deltaEvent "m2" "reporter" "The sky";
        finishEvent "m2" "reporter"]
       false (initialWorld "T")).


(** What a run of tasks may do to the event-loop side of the world: the
    timers consumed are a prefix of the armed ones, the fetch calls added
    are for consumed timers, in their order, and no request is pending that
    was not pending before or added. *)
Definition TasksBudget (w w' : World) : Prop :=
  exists added gone,
    fetchCalls w' = fetchCalls w ++ added
    /\ timers w = gone ++ timers w'
    /\ sublist added gone
    /\ List.length (inflight w') <= List.length (inflight w) + List.length added.

(** The message [sendMessage] builds for an increment whose id is not
    listed yet. *)
Definition incrementMessage (feedback : option string) (event : ChatEvent)
  : Message :=
  {| id := ev_id event;
     threadId := ev_thread_id event;
     role := ev_role event;
     agent := ev_agent event;
     content := "";
     contentChunks := [];
     toolCalls := None;
     isStreaming := true;
     finishReason := None;
     interruptFeedback := feedback |}.

(** A store holding one assistant message with a tool call. *)
Definition searching : World :=
  onStore
    (Store.appendMessage
       {| id := "m1";
          threadId := "T";
          role := assistant;
          agent := Some "researcher";
          content := "";
          contentChunks := [];
          toolCalls := Some [mkToolCall "c7" "web_search" "{}" None];
          isStreaming := true;
          finishReason := None;
          interruptFeedback := None |})
    (initialWorld "T").

(** ** [MessageListItem] of [message-list-view.tsx]

    What the component returns for a listed id: the card it chooses, the
    plain bubble, [null], or nothing at all ([undefined]) when [useMessage]
    finds no message.  The Research card carries the [researchId] it is
    given, which is [message.id]. *)
Inductive ListItem :=
| PlanCardItem
| PodcastCardItem
| OutlineCardItem
| PaperWritingCardItem
| FinalPaperCardItem
| ReporterCardItem
| ResearchCardItem (researchId : string)
| BubbleItem (text : string)
| NullItem
| UndefinedItem.

Definition MessageListItem (messageId : string) (state : State) : ListItem :=
  match useMessage (Some messageId) state with
  | Some message =>
      let startOfResearch := bool_decide (messageId ∈ researchIds state) in
      if match role message with user => true | assistant => false end
         || agentIs "coordinator" message
         || agentIs "planner" message
         || agentIs "podcast" message
         || agentIs "outline_writer" message
         || agentIs "paper_writer" message
         || agentIs "reporter" message
         || agentIs "final_paper" message
         || startOfResearch
      then
        if agentIs "planner" message then PlanCardItem
        else if agentIs "podcast" message then PodcastCardItem
        else if agentIs "outline_writer" message then OutlineCardItem
        else if agentIs "paper_writer" message then PaperWritingCardItem
        else if agentIs "final_paper" message then FinalPaperCardItem
        else if agentIs "reporter" message then ReporterCardItem
        else if startOfResearch then ResearchCardItem (id message)
        else if truthy (content message) then BubbleItem (content message)
        else NullItem
      else NullItem
  | None => UndefinedItem
  end.

(** ** [FinalPaperBlock]

    What the block shows: the loading line, the error line with its text,
    the line for a missing paper, or the paper in the editor or as rendered
    Markdown.  [isReplay] is what [useReplay] gives. *)
Inductive FinalPaperView :=
| LoadingPaperView
| PaperErrorView (error : string)
| NoPaperView
| PaperEditorView (text : string)
| PaperMarkdownView (text : string).

Definition FinalPaperBlock (isReplay editing : bool) (state : State)
  : FinalPaperView :=
  let loading := finalPaperLoading state in
  let error := finalPaperError state in
  let paperText :=
    match finalPaper state with
    | Some paper => Some (final_paper paper)
    | None => None
    end in
  let isCompleted :=
    negb loading && truthyOpt paperText && negb (truthyOpt error) in
  if loading then LoadingPaperView
  else if truthyOpt error then PaperErrorView (default "" error)
  else if negb (truthyOpt paperText) then NoPaperView
  else if negb isReplay && isCompleted && editing
       then PaperEditorView (default "" paperText)
       else PaperMarkdownView (default "" paperText).

(** [handleMarkdownChange] of the block, for the paper of the state the
    block was rendered from. *)
Definition handleMarkdownChange (markdown : string) (state : State) : State :=
  match finalPaper state with
  | Some paper =>
      set_finalPaper
        (Some {| final_paper := markdown;
                 status := status paper;
                 paper_writing_mode := paper_writing_mode paper |})
        state
  | None => state
  end.

(** The paper bookkeeping is sound: no completed-paper id is recorded, and
    the outline id, when there is one, names a stored message. *)
Definition PaperSound (s : State) : Prop :=
  completedPaperId s = None
  /\ forall i, paperOutlineId s = Some i -> is_Some (JsMap.get i (messages s)).

(** ** The commit blocks, with the throw written out *)

(** The read of [section_content] off the parse of this message throws. *)
Definition readThrows `{Externals} (message : Message) : bool :=
  match section_content (content message) with
  | ReadThrows => true
  | ReadGives _ => false
  end.

(** The message makes the [paper_writer] block throw: it is a committed
    [paper_writer] message and the read off its parse throws. *)
Definition commitThrows `{Externals} (message : Message) : bool :=
  agentIs "paper_writer" message && negb (isStreaming message)
  && readThrows message.

(** What the [paper_writer] block writes when the read does not throw. *)
Definition sectionCommitted `{Externals} (message : Message) (state : State)
  : State :=
  match section_content (content message) with
  | ReadThrows => state
  | ReadGives field => sectionAdded field message state
  end.

(** The test that opens [updateMessage]: a committed [reporter] message
    clears the marker of a Research that is ongoing, outside a paper-writing
    session. *)
Definition reporterCommitted (message : Message) (w : World) : World :=
  if truthyOpt (getOngoingResearchId w)
     && agentIs "reporter" message
     && negb (isStreaming message)
     && negb (somePaperWritingMessage (store w))
  then onStore (Store.setOngoingResearch None) w
  else w.

(** The commit blocks of [store.ts], when the read does not throw. *)
Definition coreCommitBlocks `{Externals} (message : Message) (w : World)
  : World :=
  let w2 :=
    if agentIs "outline_writer" message && negb (isStreaming message)
    then onStore (outlineCommitted message) w
    else w in
  if agentIs "paper_writer" message && negb (isStreaming message)
  then checkAndFetchFinalPaper (threadId message)
         (onStore (sectionCommitted message) w2)
  else w2.

(** The commit blocks of the store that follows [message-list-view.tsx],
    when the read does not throw. *)
Definition viewCommitBlocks `{Externals} (message : Message) (w : World)
  : World :=
  let w2 :=
    if agentIs "outline_writer" message && negb (isStreaming message)
    then onStore (outlineCommitted message) w
    else w in
  let w3 :=
    if agentIs "paper_writer" message && negb (isStreaming message)
    then onStore (sectionCommitted message) w2
    else w2 in
  if agentIs "references_writer" message && negb (isStreaming message)
  then checkAndFetchFinalPaper (threadId message) w3
  else w3.



(** * Properties *)

(** ** The ordered map *)

Lemma JsMap_get_set_eq {V : Type} (k : string) (v : V) (m : JsMap.t V) :
  JsMap.get k (JsMap.set k v m) = Some v.
Proof.
  induction m as [|[k' v'] r IH]; simpl.
  - by rewrite decide_True.
  - destruct (decide (k' = k)) as [->|Hne]; simpl.
    + by rewrite decide_True.
    + by rewrite decide_False.
Qed.

Lemma JsMap_get_set_ne {V : Type} (k k' : string) (v : V) (m : JsMap.t V) :
  k <> k' -> JsMap.get k' (JsMap.set k v m) = JsMap.get k' m.
Proof.
  intros Hne. induction m as [|[k0 v0] r IH]; simpl.
  - by rewrite decide_False.
  - destruct (decide (k0 = k)) as [->|Hk0]; simpl.
    + by rewrite !decide_False.
    + destruct (decide (k0 = k')); [done | apply IH].
Qed.

Lemma JsMap_elem_of_set {V : Type} (k k' : string) (v v' : V) (m : JsMap.t V) :
  (k', v') ∈ JsMap.set k v m -> (k' = k /\ v' = v) \/ (k', v') ∈ m.
Proof.
  induction m as [|[k0 v0] r IH]; simpl; intros Hin.
  - apply list_elem_of_singleton in Hin. left. by inversion Hin.
  - destruct (decide (k0 = k)) as [->|Hk0].
    + apply elem_of_cons in Hin as [Heq|Hin].
      * left. by inversion Heq.
      * right. by apply list_elem_of_further.
    + apply elem_of_cons in Hin as [Heq|Hin].
      * right. rewrite Heq. apply list_elem_of_here.
      * destruct (IH Hin) as [?|?]; [by left | right].
        by apply list_elem_of_further.
Qed.

Lemma JsMap_get_elem_of {V : Type} (k : string) (v : V) (m : JsMap.t V) :
  JsMap.get k m = Some v -> (k, v) ∈ m.
Proof.
  induction m as [|[k0 v0] r IH]; simpl; [done|].
  destruct (decide (k0 = k)) as [->|Hk0]; intros Hget.
  - inversion Hget. apply list_elem_of_here.
  - apply list_elem_of_further. by apply IH.
Qed.

Lemma JsMap_get_values {V : Type} (k : string) (v : V) (m : JsMap.t V) :
  JsMap.get k m = Some v -> v ∈ JsMap.values m.
Proof.
  intros Hget. apply JsMap_get_elem_of in Hget.
  unfold JsMap.values. apply list_elem_of_In, in_map_iff.
  exists (k, v). split; [done | by apply list_elem_of_In].
Qed.

(** ** Agents and booleans *)

Lemma agentIs_true (a : string) (m : Message) :
  agentIs a m = true <-> agent m = Some a.
Proof. unfold agentIs. apply bool_decide_eq_true. Qed.

Lemma agentIs_eqb (a b : string) (m : Message) :
  agent m = Some a -> agentIs b m = String.eqb a b.
Proof.
  intros Ha. unfold agentIs. rewrite Ha.
  destruct (String.eqb_spec a b) as [->|Hne].
  - by apply bool_decide_eq_true.
  - apply bool_decide_eq_false. congruence.
Qed.

Lemma existsb_elem_of {A : Type} (f : A -> bool) (l : list A) :
  existsb f l = true <-> exists x, x ∈ l /\ f x = true.
Proof.
  rewrite existsb_exists. split; intros (x & Hin & Hf); exists x; split; try done.
  - by apply list_elem_of_In.
  - by apply list_elem_of_In.
Qed.

Lemma existsb_false_elem_of {A : Type} (f : A -> bool) (l : list A) :
  existsb f l = false <-> forall x, x ∈ l -> f x = false.
Proof.
  split.
  - intros Hex x Hin. destruct (f x) eqn:Hf; [|done].
    assert (existsb f l = true) by (apply existsb_elem_of; eauto). congruence.
  - intros Hall. destruct (existsb f l) eqn:Hex; [|done].
    apply existsb_elem_of in Hex as (x & Hin & Hf).
    rewrite (Hall x Hin) in Hf. discriminate.
Qed.

Lemma filter_length_zero {A : Type} (f : A -> bool) (l : list A) :
  Nat.eqb (List.length (List.filter f l)) 0 = true
  <-> forall x, x ∈ l -> f x = false.
Proof.
  rewrite Nat.eqb_eq. split.
  - intros Hlen x Hin. destruct (f x) eqn:Hf; [|done].
    assert (Hx : In x (List.filter f l)).
    { apply filter_In. split; [by apply list_elem_of_In | done]. }
    destruct (List.filter f l); [destruct Hx | discriminate].
  - intros Hall. induction l as [|y r IH]; simpl; [done|].
    rewrite (Hall y) by apply list_elem_of_here.
    apply IH. intros x Hin. apply Hall. by apply list_elem_of_further.
Qed.

Lemma filter_length_pos {A : Type} (f : A -> bool) (l : list A) :
  Nat.ltb 0 (List.length (List.filter f l)) = true
  <-> exists x, x ∈ l /\ f x = true.
Proof.
  rewrite Nat.ltb_lt. split.
  - intros Hlen. destruct (List.filter f l) as [|x r] eqn:Hf; simpl in Hlen; [lia|].
    assert (Hx : In x (List.filter f l)) by (rewrite Hf; by left).
    apply filter_In in Hx as [Hin Hfx]. exists x. split; [|done].
    by apply list_elem_of_In.
  - intros (x & Hin & Hfx).
    assert (Hx : In x (List.filter f l)).
    { apply filter_In. split; [by apply list_elem_of_In | done]. }
    destruct (List.filter f l); [destruct Hx | simpl; lia].
Qed.

Lemma somePaperWritingMessage_spec (state : State) :
  somePaperWritingMessage state = true <-> paperWritingSession state.
Proof.
  unfold somePaperWritingMessage, paperWritingSession, allMessagesOf.
  rewrite existsb_elem_of. split; intros (m & Hin & Hm); exists m; split; try done.
  - apply orb_true_iff in Hm as [Hm|Hm]; apply agentIs_true in Hm; auto.
  - apply orb_true_iff. destruct Hm as [Hm|Hm]; apply agentIs_true in Hm; auto.
Qed.

(** Rewrites every agent test on a message whose agent is known. *)
Ltac known_agent H :=
  repeat rewrite (agentIs_eqb _ _ _ H); simpl.

(** ** The paper state (C10, C6) *)

(** C10. Processing a committed [outline_writer] message resets
    [completedPaperId] to null and empties [paperSections]: the reset itself
    changes nothing else (not [paperOutlineId], not the messages, not the
    research state), the outline block run before it sets [paperOutlineId]
    to the message id, and both hold after [updateMessage], which returns
    for such a message, and after a returning [appendMessage] of either
    store. *)
Theorem outline_commit_resets_paper_state
    (E : Externals) (message : Message) (w : World)
    (Hagent : agent message = Some "outline_writer")
    (Hcommit : isStreaming message = false) :
  (forall state,
      let after := Store.resetPaperState state in
      completedPaperId after = None
      /\ paperSections after = []
      /\ paperOutlineId after = paperOutlineId state
      /\ messageIds after = messageIds state
      /\ messages after = messages state
      /\ researchIds after = researchIds state
      /\ researchPlanIds after = researchPlanIds state
      /\ researchReportIds after = researchReportIds state
      /\ researchActivityIds after = researchActivityIds state
      /\ ongoingResearchId after = ongoingResearchId state
      /\ openResearchId after = openResearchId state
      /\ finalPaper after = finalPaper state
      /\ finalPaperLoading after = finalPaperLoading state
      /\ finalPaperError after = finalPaperError state
      /\ responding after = responding state
      /\ storeThreadId after = storeThreadId state)
  /\ (forall update,
        update = CoreStore.updateMessage \/ update = ViewStore.updateMessage ->
        exists w',
          update message w = Returned w'
          /\ let after := store w' in
             completedPaperId after = None
             /\ paperSections after = []
             /\ paperOutlineId after = Some (id message)
             /\ researchIds after = researchIds (store w)
             /\ ongoingResearchId after = ongoingResearchId (store w))
  /\ (forall append w',
        append = CoreStore.appendMessage \/ append = ViewStore.appendMessage ->
        append message w = Returned w' ->
        completedPaperId (store w') = None
        /\ paperSections (store w') = []
        /\ paperOutlineId (store w') = Some (id message)).
Proof.
  split; [intros state; simpl; repeat split|].
  split.
  - intros update [->| ->]; simpl.
    + unfold CoreStore.updateMessage. known_agent Hagent. rewrite Hcommit.
      rewrite andb_false_r. simpl. eexists. split; [reflexivity|]. done.
    + unfold ViewStore.updateMessage. known_agent Hagent. rewrite Hcommit.
      rewrite andb_false_r. simpl. eexists. split; [reflexivity|]. done.
  - intros append w' [->| ->].
    + unfold CoreStore.appendMessage, CoreStore.isResearchAgent.
      known_agent Hagent. rewrite Hcommit. simpl.
      intros Hret. inversion Hret. simpl. done.
    + unfold ViewStore.appendMessage, ViewStore.isResearchAgent.
      known_agent Hagent. rewrite Hcommit. simpl.
      destruct (truthyOpt (getOngoingResearchId w)); simpl.
      * destruct (appendResearchActivity message w) as [w1|w1]; simpl;
          intros Hret; inversion Hret; simpl; done.
      * destruct (appendResearch (id message) w) as [w0|w0]; simpl;
          [|discriminate].
        destruct (appendResearchActivity message
                    (openResearch (Some (id message)) w0)) as [w1|w1]; simpl;
          intros Hret; inversion Hret; simpl; done.
Qed.

Lemma outline_commit_resets_paper_state_witness :
  agent (committedMessage "o" "outline_writer" "## Intro") = Some "outline_writer"
  /\ isStreaming (committedMessage "o" "outline_writer" "## Intro") = false
  /\ exists w',
       @ViewStore.updateMessage plainExternals
         (committedMessage "o" "outline_writer" "## Intro")
         (onStore (Store.addPaperSection "old") (initialWorld "T"))
       = Returned w'
       /\ paperSections (store w') = [].
Proof.
  split; [reflexivity|]. split; [reflexivity|].
  pose proof (outline_commit_resets_paper_state plainExternals
                (committedMessage "o" "outline_writer" "## Intro")
                (onStore (Store.addPaperSection "old") (initialWorld "T"))
                eq_refl eq_refl) as (_ & Hupdate & _).
  destruct (Hupdate ViewStore.updateMessage (or_intror eq_refl))
    as (w' & Hreturned & _ & Hsections & _).
  exists w'. split; [exact Hreturned | exact Hsections].
Defined.

Lemma addPaperSection_sections (text : string) (state : State) :
  paperSections (Store.addPaperSection text state) = paperSections state ++ [text].
Proof. reflexivity. Qed.

(** ** The two functions, with the throw written out *)

Lemma paperSectionBlock_cases `{Externals} (message : Message) (w : World) :
  paperSectionBlock message w
  = if readThrows message then Thrown w
    else Returned (onStore (sectionCommitted message) w).
Proof.
  unfold paperSectionBlock, paperSectionCommitted, readThrows, sectionCommitted,
    onStore.
  by destruct (section_content (content message)).
Qed.

Lemma commitThrows_agent `{Externals} (message : Message) :
  commitThrows message = true ->
  agent message = Some "paper_writer" /\ isStreaming message = false
  /\ section_content (content message) = ReadThrows.
Proof.
  unfold commitThrows, readThrows. intros Hthrows.
  apply andb_true_iff in Hthrows as [Hthrows Hread].
  apply andb_true_iff in Hthrows as [Hagent Hcommit].
  apply agentIs_true in Hagent. apply negb_true_iff in Hcommit.
  by destruct (section_content (content message)).
Qed.

Lemma commitThrows_streaming `{Externals} (message : Message) :
  isStreaming message = true -> commitThrows message = false.
Proof.
  intros Hstreaming. unfold commitThrows. rewrite Hstreaming. simpl.
  by rewrite andb_false_r.
Qed.

Lemma commitThrows_other `{Externals} (message : Message) :
  agent message <> Some "paper_writer" -> commitThrows message = false.
Proof.
  intros Hagent. unfold commitThrows.
  destruct (agentIs "paper_writer" message) eqn:Hpaper; [|done].
  by apply agentIs_true in Hpaper.
Qed.

Lemma CoreStore_updateMessage_cases `{Externals} (message : Message) (w : World) :
  CoreStore.updateMessage message w
  = if commitThrows message then Thrown w
    else Returned (onStore (Store.updateMessage message)
                     (coreCommitBlocks message (reporterCommitted message w))).
Proof.
  unfold CoreStore.updateMessage, commitThrows, coreCommitBlocks,
    reporterCommitted.
  destruct (agentIs "paper_writer" message) eqn:Hpaper; simpl; [|done].
  apply agentIs_true in Hpaper. known_agent Hpaper.
  rewrite !andb_false_r. simpl.
  destruct (isStreaming message); simpl; [done|].
  rewrite paperSectionBlock_cases. by destruct (readThrows message).
Qed.

Lemma ViewStore_updateMessage_cases `{Externals} (message : Message) (w : World) :
  ViewStore.updateMessage message w
  = if commitThrows message then Thrown w
    else Returned (onStore (Store.updateMessage message)
                     (viewCommitBlocks message (reporterCommitted message w))).
Proof.
  unfold ViewStore.updateMessage, commitThrows, viewCommitBlocks,
    reporterCommitted.
  destruct (agentIs "paper_writer" message) eqn:Hpaper; simpl; [|done].
  apply agentIs_true in Hpaper. known_agent Hpaper.
  rewrite !andb_false_r. simpl.
  destruct (isStreaming message); simpl; [done|].
  rewrite paperSectionBlock_cases. by destruct (readThrows message).
Qed.

Lemma CoreStore_appendMessage_cases `{Externals} (message : Message) (w : World) :
  CoreStore.appendMessage message w
  = andThen
      (if CoreStore.isResearchAgent message then
         andThen
           (if negb (truthyOpt (getOngoingResearchId w)) then
              andThen (appendResearch (id message) w)
                (fun w' => Returned (openResearch (Some (id message)) w'))
            else Returned w)
           (appendResearchActivity message)
       else Returned w)
      (fun w1 =>
         if commitThrows message then Thrown w1
         else Returned (onStore (Store.appendMessage message)
                          (coreCommitBlocks message w1))).
Proof.
  unfold CoreStore.appendMessage.
  match goal with |- andThen ?r _ = _ => destruct r as [w1|w1] end;
    simpl; [|done].
  unfold commitThrows, coreCommitBlocks.
  destruct (agentIs "paper_writer" message) eqn:Hpaper; simpl; [|done].
  apply agentIs_true in Hpaper. known_agent Hpaper.
  destruct (isStreaming message); simpl; [done|].
  rewrite paperSectionBlock_cases. by destruct (readThrows message).
Qed.

Lemma ViewStore_appendMessage_cases `{Externals} (message : Message) (w : World) :
  ViewStore.appendMessage message w
  = andThen
      (if ViewStore.isResearchAgent message then
         andThen
           (if negb (truthyOpt (getOngoingResearchId w)) then
              andThen (appendResearch (id message) w)
                (fun w' => Returned (openResearch (Some (id message)) w'))
            else Returned w)
           (appendResearchActivity message)
       else Returned w)
      (fun w1 =>
         if commitThrows message then Thrown w1
         else Returned (onStore (Store.appendMessage message)
                          (viewCommitBlocks message w1))).
Proof.
  unfold ViewStore.appendMessage.
  match goal with |- andThen ?r _ = _ => destruct r as [w1|w1] end;
    simpl; [|done].
  unfold commitThrows, viewCommitBlocks.
  destruct (agentIs "paper_writer" message) eqn:Hpaper; simpl; [|done].
  apply agentIs_true in Hpaper. known_agent Hpaper.
  destruct (isStreaming message); simpl; [done|].
  rewrite paperSectionBlock_cases. by destruct (readThrows message).
Qed.


Lemma sectionCommitted_cases `{Externals} (message : Message) (state : State) :
  sectionCommitted message state = state
  \/ exists text, sectionCommitted message state = Store.addPaperSection text state.
Proof.
  unfold sectionCommitted, sectionAdded.
  destruct (section_content (content message)) as [|[body|]]; [by left| |];
    [destruct (truthy body)|]; destruct (isBlank (content message)); simpl;
    eauto.
Qed.







(** ** The final-paper gateway (C9) *)


(** ** Closing the ongoing Research (C8) *)

(** C8, as stated, fails: [updateMessage] tests the marker for
    truthiness; after a Research has been started under the empty id the
    marker is the empty string, and a committed [reporter] message then
    leaves it as it is, in both stores, although no [outline_writer] or
    [paper_writer] message is in the store. *)
Lemma reporter_commit_keeps_empty_id_marker :
  let report := committedMessage "rep" "reporter" "done" in
  agent report = Some "reporter"
  /\ isStreaming report = false
  /\ researchIds (store afterEmptyId) = [""]
  /\ ongoingResearchId (store afterEmptyId) = Some ""
  /\ somePaperWritingMessage (store afterEmptyId) = false
  /\ ongoingResearchId
       (store (worldOf (@CoreStore.updateMessage plainExternals report
                          afterEmptyId)))
     = Some ""
  /\ ongoingResearchId
       (store (worldOf (@ViewStore.updateMessage plainExternals report
                          afterEmptyId)))
     = Some "".
Proof. vm_compute. repeat split. Qed.

(** C8 (amended).  [updateMessage] of either store returns for a committed
    [reporter] message.  While a Research is ongoing under a non-empty id,
    the ongoing-Research marker is cleared if and only if no
    [outline_writer] or [paper_writer] message exists in the store; when one
    exists the marker stays as it was.  While the marker is the empty string
    or null, it is left as it is, whatever the session. *)
Theorem reporter_commit_clears_ongoing_unless_paper_writing
    (E : Externals) (message : Message) (w : World)
    (Hagent : agent message = Some "reporter")
    (Hcommit : isStreaming message = false) :
  forall update,
    update = CoreStore.updateMessage \/ update = ViewStore.updateMessage ->
    exists w',
      update message w = Returned w'
      /\ (truthyOpt (getOngoingResearchId w) = true ->
          (ongoingResearchId (store w') = None
           <-> ~ paperWritingSession (store w))
          /\ (paperWritingSession (store w) ->
              ongoingResearchId (store w') = ongoingResearchId (store w)))
      /\ (truthyOpt (getOngoingResearchId w) = false ->
          ongoingResearchId (store w') = ongoingResearchId (store w)).
Proof.
  intros update Hupdate.
  assert (Hafter : exists w',
    update message w = Returned w'
    /\ ongoingResearchId (store w')
       = if truthyOpt (getOngoingResearchId w)
            && negb (somePaperWritingMessage (store w))
         then None else ongoingResearchId (store w)).
  { destruct Hupdate as [->| ->].
    - rewrite CoreStore_updateMessage_cases, commitThrows_other by congruence.
      eexists. split; [reflexivity|].
      unfold coreCommitBlocks, reporterCommitted. known_agent Hagent.
      rewrite Hcommit. simpl. rewrite !andb_true_r.
      by destruct (truthyOpt (getOngoingResearchId w)
                   && negb (somePaperWritingMessage (store w))).
    - rewrite ViewStore_updateMessage_cases, commitThrows_other by congruence.
      eexists. split; [reflexivity|].
      unfold viewCommitBlocks, reporterCommitted. known_agent Hagent.
      rewrite Hcommit. simpl. rewrite !andb_true_r.
      by destruct (truthyOpt (getOngoingResearchId w)
                   && negb (somePaperWritingMessage (store w))). }
  destruct Hafter as (w' & Hreturned & Hafter). exists w'.
  split; [done|]. rewrite Hafter. split.
  - intros Hongoing. rewrite Hongoing. simpl.
    destruct (somePaperWritingMessage (store w)) eqn:Hpaper; simpl.
    + apply somePaperWritingMessage_spec in Hpaper. split; [|done].
      split; [|done]. intros Hnone. unfold getOngoingResearchId in Hongoing.
      rewrite Hnone in Hongoing. discriminate.
    + assert (~ paperWritingSession (store w)) as Hno.
      { intros Hyes. apply somePaperWritingMessage_spec in Hyes. congruence. }
      split; [done|]. intros Hyes. by destruct Hno.
  - intros Hfalsy. by rewrite Hfalsy.
Qed.

Lemma reporter_commit_clears_ongoing_unless_paper_writing_witness :
  let report := committedMessage "rep" "reporter" "done" in
  let w := onStore (Store.setOngoingResearch (Some "m2")) (initialWorld "T") in
  agent report = Some "reporter"
  /\ isStreaming report = false
  /\ truthyOpt (getOngoingResearchId w) = true
  /\ exists w',
       @ViewStore.updateMessage plainExternals report w = Returned w'
       /\ (ongoingResearchId (store w') = None
           <-> ~ paperWritingSession (store w)).
Proof.
  intros report w.
  split; [reflexivity|]. split; [reflexivity|]. split; [reflexivity|].
  destruct (reporter_commit_clears_ongoing_unless_paper_writing
              plainExternals report w eq_refl eq_refl
              ViewStore.updateMessage (or_intror eq_refl))
    as (w' & Hreturned & Hongoing & _).
  exists w'. split; [exact Hreturned|]. exact (proj1 (Hongoing eq_refl)).
Defined.

(** ** The completion check (C1, C2) *)

Lemma finalPaperPresent_false (state : State) :
  negb (bool_decide (is_Some (finalPaper state))) = true
  <-> finalPaper state = None.
Proof.
  rewrite negb_true_iff, bool_decide_eq_false.
  destruct (finalPaper state) as [r|]; split; intros Hx;
    first [done | by destruct Hx; eexists | by intros [? ?]].
Qed.

Lemma fetchFinalPaper_calls (threadId : string) (w : World) :
  fetchCalls (fetchFinalPaper threadId w) = fetchCalls w ++ [threadId].
Proof. reflexivity. Qed.

Lemma not_extended {A : Type} (l : list A) (x : A) : l <> l ++ [x].
Proof.
  intros Heq. apply (f_equal (@List.length A)) in Heq.
  rewrite length_app in Heq. simpl in Heq. lia.
Qed.

Lemma ViewStore_shouldFetch_spec `{Externals} (state : State) :
  ViewStore.shouldFetch (ViewStore.locals state) = true
  <-> CompletionConditions state.
Proof.
  unfold ViewStore.shouldFetch, ViewStore.locals; simpl.
  rewrite !andb_true_iff, filter_length_zero, filter_length_pos,
    negb_true_iff, existsb_false_elem_of, finalPaperPresent_false,
    existsb_elem_of.
  split.
  - intros ((((Ha & Hb) & Hc) & Hd) & He).
    constructor; try done.
    + destruct Ha as (m & Hin & Hm). exists m. split; [done|].
      by apply agentIs_true.
    + intros m Hin Hm. specialize (Hb m Hin).
      apply agentIs_true in Hm. rewrite Hm in Hb. done.
    + destruct Hc as (m & Hin & Hm). apply andb_true_iff in Hm as [Hm Hs].
      exists m. split; [done|]. split; [by apply agentIs_true|].
      by apply negb_true_iff.
  - intros [Ha Hb Hc Hd He]. repeat split; try done.
    + destruct Ha as (m & Hin & Hm). exists m. split; [done|].
      by apply agentIs_true.
    + intros m Hin. destruct (agentIs "references_writer" m) eqn:Hm; [|done].
      apply agentIs_true in Hm. simpl. by apply Hb.
    + destruct Hc as (m & Hin & Hm & Hs). exists m. split; [done|].
      apply andb_true_iff. split; [by apply agentIs_true|].
      by apply negb_true_iff.
Qed.

Lemma CoreStore_shouldFetch_spec `{Externals} (state : State) :
  CoreStore.shouldFetch (CoreStore.locals state) = true
  <-> SectionCountConditions state.
Proof.
  unfold CoreStore.shouldFetch, CoreStore.locals; simpl.
  rewrite !andb_true_iff, filter_length_zero, Nat.leb_le,
    negb_true_iff, existsb_false_elem_of, finalPaperPresent_false,
    existsb_elem_of.
  split.
  - intros ((((Ha & Hb) & Hc) & Hd) & He).
    constructor; try done.
    destruct Ha as (m & Hin & Hm). exists m. split; [done|].
    by apply agentIs_true.
  - intros [Ha Hb Hc Hd]. repeat split; try done.
    + destruct Ha as (m & Hin & Hm). exists m. split; [done|].
      by apply agentIs_true.
    + intros m Hin. rewrite (Hb m Hin). apply andb_false_r.
Qed.

Lemma hasPaperWriters_workflow (allMessages : list Message) :
  existsb (agentIs "paper_writer") allMessages = true ->
  existsb (fun msg => agentIs "paper_writer" msg || agentIs "outline_writer" msg)
    allMessages = true.
Proof.
  rewrite !existsb_elem_of. intros (m & Hin & Hm). exists m.
  split; [done|]. by rewrite Hm.
Qed.

Lemma ViewStore_callback_cases `{Externals} (threadId : string) (w : World) :
  ViewStore.checkAndFetchFinalPaper_callback threadId w
  = if ViewStore.shouldFetch (ViewStore.locals (store w))
    then fetchFinalPaper threadId w else w.
Proof.
  unfold ViewStore.checkAndFetchFinalPaper_callback.
  destruct (ViewStore.shouldFetch (ViewStore.locals (store w))) eqn:Hs.
  - unfold ViewStore.shouldFetch in Hs.
    destruct (ViewStore.hasPaperWriters (ViewStore.locals (store w))) eqn:Hp;
      [|discriminate].
    simpl in Hp. simpl. rewrite (hasPaperWriters_workflow _ Hp). done.
  - destruct (negb _); [done|]. destruct (negb _); done.
Qed.

Lemma CoreStore_callback_cases `{Externals} (threadId : string) (w : World) :
  CoreStore.checkAndFetchFinalPaper_callback threadId w
  = if CoreStore.shouldFetch (CoreStore.locals (store w))
    then fetchFinalPaper threadId w else w.
Proof.
  unfold CoreStore.checkAndFetchFinalPaper_callback.
  destruct (CoreStore.shouldFetch (CoreStore.locals (store w))) eqn:Hs.
  - unfold CoreStore.shouldFetch in Hs.
    destruct (CoreStore.hasPaperWriters (CoreStore.locals (store w))) eqn:Hp;
      [|discriminate].
    simpl in Hp. simpl. rewrite (hasPaperWriters_workflow _ Hp). done.
  - destruct (negb _); [done|]. destruct (negb _); done.
Qed.

Lemma estimate_clamped `{Externals} (allMessages : list Message) :
  2 <= estimateExpectedSections allMessages <= 8.
Proof.
  unfold estimateExpectedSections.
  destruct (find _ allMessages) as [outline|]; [|lia].
  destruct (truthy (content outline)); [|lia].
  destruct (Nat.ltb 0 _); lia.
Qed.

(** C1, as stated, fails on [src/src/core/store/store.ts]: with three
    committed sections and no [references_writer] message at all its
    callback calls the fetch, and with one section and committed references
    (all five conditions hold) it does not. *)
Lemma core_store_check_ignores_references :
  (summary threeSectionsWritten
   = [("s1", Some "paper_writer", false); ("s2", Some "paper_writer", false);
      ("s3", Some "paper_writer", false)]
   /\ finalPaper (store threeSectionsWritten) = None
   /\ triggersFetch (@CoreStore.checkAndFetchFinalPaper_callback plainExternals)
        "T" threeSectionsWritten
   /\ ~ CompletionConditions (store threeSectionsWritten))
  /\ (summary referencesWritten
      = [("s1", Some "paper_writer", false);
         ("r", Some "references_writer", false)]
      /\ CompletionConditions (store referencesWritten)
      /\ @CoreStore.checkAndFetchFinalPaper_callback plainExternals
           "T" referencesWritten
         = referencesWritten).
Proof.
  split; [split; [vm_compute; reflexivity|]; split; [reflexivity|]; split
         | split; [vm_compute; reflexivity|]; split].
  - unfold triggersFetch. vm_compute. reflexivity.
  - intros Hc. apply (@ViewStore_shouldFetch_spec plainExternals) in Hc.
    vm_compute in Hc. discriminate.
  - apply (@ViewStore_shouldFetch_spec plainExternals). vm_compute. reflexivity.
  - rewrite CoreStore_callback_cases.
    assert (CoreStore.shouldFetch
              (@CoreStore.locals plainExternals (store referencesWritten))
            = false) as -> by (vm_compute; reflexivity).
    reflexivity.
Qed.

(** C1 (amended). The callback of the store that follows
    [message-list-view.tsx] calls the fetch if and only if the five
    conditions hold at evaluation time: a [paper_writer] message exists, no
    [references_writer] message is streaming, a [references_writer] message
    has committed, no message at all is streaming, and no final artifact is
    in the state; otherwise it leaves the world as it is.  The callback of
    [src/src/core/store/store.ts] calls the fetch if and only if a
    [paper_writer] message exists, no message is streaming, the committed
    [paper_writer] messages are at least as many as the estimated section
    count, and no final artifact is in the state. *)
Theorem completion_check_fetch_conditions :
  forall (E : Externals) (threadId : string) (w : World),
    ((triggersFetch ViewStore.checkAndFetchFinalPaper_callback threadId w
      <-> CompletionConditions (store w))
     /\ (CompletionConditions (store w) ->
         ViewStore.checkAndFetchFinalPaper_callback threadId w
         = fetchFinalPaper threadId w)
     /\ (~ CompletionConditions (store w) ->
         ViewStore.checkAndFetchFinalPaper_callback threadId w = w))
    /\
    ((triggersFetch CoreStore.checkAndFetchFinalPaper_callback threadId w
      <-> SectionCountConditions (store w))
     /\ (SectionCountConditions (store w) ->
         CoreStore.checkAndFetchFinalPaper_callback threadId w
         = fetchFinalPaper threadId w)
     /\ (~ SectionCountConditions (store w) ->
         CoreStore.checkAndFetchFinalPaper_callback threadId w = w)).
Proof.
  intros E threadId w. unfold triggersFetch.
  rewrite ViewStore_callback_cases, CoreStore_callback_cases.
  pose proof (ViewStore_shouldFetch_spec (store w)) as Hview.
  pose proof (CoreStore_shouldFetch_spec (store w)) as Hcore.
  split.
  - destruct (ViewStore.shouldFetch _).
    + assert (CompletionConditions (store w)) as Hc by by apply Hview.
      split; [split; [done | by intros _]|].
      split; [done|]. intros Hn. by destruct Hn.
    + assert (~ CompletionConditions (store w)) as Hn.
      { intros Hc. apply Hview in Hc. discriminate. }
      split; [split|].
      * intros Heq. by apply not_extended in Heq.
      * intros Hc. by destruct Hn.
      * split; [|done]. intros Hc. by destruct Hn.
  - destruct (CoreStore.shouldFetch _).
    + assert (SectionCountConditions (store w)) as Hc by by apply Hcore.
      split; [split; [done | by intros _]|].
      split; [done|]. intros Hn. by destruct Hn.
    + assert (~ SectionCountConditions (store w)) as Hn.
      { intros Hc. apply Hcore in Hc. discriminate. }
      split; [split|].
      * intros Heq. by apply not_extended in Heq.
      * intros Hc. by destruct Hn.
      * split; [|done]. intros Hc. by destruct Hn.
Qed.

(** C2, as stated, fails on [src/src/core/store/store.ts]: with two committed
    sections and the default estimate of 3 its callback does not fetch, it
    would with an estimate of 2, and it does once a third section has
    committed. *)
Lemma core_store_check_gated_by_estimate :
  summary twoSectionsWritten
  = [("s1", Some "paper_writer", false); ("s2", Some "paper_writer", false)]
  /\ CoreStore.expectedSections
    (@CoreStore.locals plainExternals (store twoSectionsWritten)) = 3
  /\ CoreStore.shouldFetch
       (@CoreStore.locals plainExternals (store twoSectionsWritten)) = false
  /\ CoreStore.shouldFetch
       (withEstimate 2
          (@CoreStore.locals plainExternals (store twoSectionsWritten))) = true
  /\ fetchCalls
       (@CoreStore.checkAndFetchFinalPaper_callback plainExternals "T"
          twoSectionsWritten) = []
  /\ fetchCalls
       (@CoreStore.checkAndFetchFinalPaper_callback plainExternals "T"
          threeSectionsWritten) = ["T"].
Proof. repeat split; vm_compute; reflexivity. Qed.

Lemma maxSectionCount_largest `{Externals} (outlineContent : string) :
  maxSectionCount outlineContent
  = Nat.max
      (Nat.max
         (Nat.max (matchCount MarkdownH2 outlineContent)
            (matchCount NumberedSection outlineContent))
         (matchCount SectionN outlineContent))
      (matchCount ChineseSection outlineContent).
Proof.
  unfold maxSectionCount, sectionIndicators. simpl.
  repeat match goal with
         | |- context [Nat.ltb 0 ?n] => destruct (Nat.ltb_spec 0 n)
         end; lia.
Qed.

Lemma find_app_first {A : Type} (f : A -> bool) (before after : list A) (x : A) :
  f x = true ->
  (forall y, y ∈ before -> f y = false) ->
  find f (before ++ x :: after) = Some x.
Proof.
  intros Hx. induction before as [|y before IH]; intros Hbefore; simpl.
  - by rewrite Hx.
  - rewrite (Hbefore y) by apply list_elem_of_here.
    apply IH. intros z Hz. apply Hbefore. by apply list_elem_of_further.
Qed.

Lemma find_nowhere {A : Type} (f : A -> bool) (l : list A) :
  (forall y, y ∈ l -> f y = false) -> find f l = None.
Proof.
  induction l as [|y l IH]; intros Hall; simpl; [done|].
  rewrite (Hall y) by apply list_elem_of_here.
  apply IH. intros z Hz. apply Hall. by apply list_elem_of_further.
Qed.

Lemma outlineCommitted_test (m : Message) :
  (agent m = Some "outline_writer" -> isStreaming m = true) ->
  agentIs "outline_writer" m && negb (isStreaming m) = false.
Proof.
  intros Hm. destruct (agentIs "outline_writer" m) eqn:Hagent; [|done].
  apply agentIs_true in Hagent. by rewrite (Hm Hagent).
Qed.

(** The value of the estimate, case by case. *)
Lemma estimate_cases `{Externals} :
  (forall allMessages,
      (forall m, m ∈ allMessages ->
                 agent m = Some "outline_writer" -> isStreaming m = true) ->
      estimateExpectedSections allMessages = 3)
  /\ (forall before outline after,
        agent outline = Some "outline_writer" ->
        isStreaming outline = false ->
        (forall m, m ∈ before ->
                   agent m = Some "outline_writer" -> isStreaming m = true) ->
        let text := toLowerCase (content outline) in
        let estimate := estimateExpectedSections (before ++ outline :: after) in
        (content outline = "" -> estimate = 3)
        /\ ((forall pattern, matchCount pattern text = 0) -> estimate = 3)
        /\ (content outline <> "" ->
            forall pattern,
              0 < matchCount pattern text ->
              (forall other, matchCount other text <= matchCount pattern text) ->
              estimate = Nat.min (Nat.max (matchCount pattern text) 2) 8)).
Proof.
  split.
  - intros allMessages Hnone. unfold estimateExpectedSections.
    rewrite find_nowhere; [done|].
    intros m Hm. apply outlineCommitted_test. by apply Hnone.
  - intros before outline after Hagent Hcommit Hbefore text estimate.
    subst text estimate. unfold estimateExpectedSections.
    rewrite (find_app_first _ before after outline).
    2: { apply andb_true_iff. split; [by apply agentIs_true|].
         by rewrite Hcommit. }
    2: { intros m Hm. apply outlineCommitted_test. by apply Hbefore. }
    rewrite maxSectionCount_largest.
    split; [|split].
    + intros ->. done.
    + intros Hzero. rewrite !Hzero. simpl. by destruct (truthy _).
    + intros Htext pattern Hpositive Hlargest.
      assert (Htruthy : truthy (content outline) = true).
      { unfold truthy. apply negb_true_iff. by apply String.eqb_neq. }
      rewrite Htruthy.
      pose proof (Hlargest MarkdownH2). pose proof (Hlargest NumberedSection).
      pose proof (Hlargest SectionN). pose proof (Hlargest ChineseSection).
      match goal with
      | |- (if Nat.ltb 0 ?n then _ else _) = _ =>
          assert (Hmax : n = matchCount pattern (toLowerCase (content outline)))
            by (destruct pattern; lia)
      end.
      rewrite Hmax.
      destruct (Nat.ltb_spec 0
                  (matchCount pattern (toLowerCase (content outline))));
        [done | lia].
Qed.

(** C2 (amended). Both stores draw the same estimate from the messages.  It
    lies in 2..8: it is 3 when no [outline_writer] message has committed,
    when the first committed one has an empty content, or when no pattern
    matches its lower-cased content; otherwise it is the largest pattern
    count, raised to 2 and cut at 8.  In the store that follows
    [message-list-view.tsx] it is reported only: the decision of the
    callback is the same for every estimate and every list of completed
    [paper_writer] messages, and the callback does the same whatever the
    outline text matches.  In [src/src/core/store/store.ts] the estimate
    gates the fetch: the decision is positive only when the completed
    [paper_writer] messages are at least as many as the estimate. *)
Theorem section_estimate_reporting_only :
  forall (E : Externals) (state : State),
    2 <= ViewStore.expectedSections (ViewStore.locals state) <= 8
    /\ 2 <= CoreStore.expectedSections (CoreStore.locals state) <= 8
    /\ (forall (estimate : nat) (completed : list Message),
          ViewStore.shouldFetch (withProgress estimate completed (ViewStore.locals state))
          = ViewStore.shouldFetch (ViewStore.locals state))
    /\ (forall (E' : Externals) (threadId : string) (w : World),
          @ViewStore.checkAndFetchFinalPaper_callback E threadId w
          = @ViewStore.checkAndFetchFinalPaper_callback E' threadId w)
    /\ (CoreStore.shouldFetch (CoreStore.locals state) = true ->
        CoreStore.expectedSections (CoreStore.locals state)
        <= List.length (CoreStore.completedPaperWriters (CoreStore.locals state)))
    /\ (ViewStore.expectedSections (ViewStore.locals state)
        = estimateExpectedSections (allMessagesOf state)
        /\ CoreStore.expectedSections (CoreStore.locals state)
           = estimateExpectedSections (allMessagesOf state))
    /\ (forall allMessages,
          (forall m, m ∈ allMessages ->
                     agent m = Some "outline_writer" -> isStreaming m = true) ->
          estimateExpectedSections allMessages = 3)
    /\ (forall before outline after,
          agent outline = Some "outline_writer" ->
          isStreaming outline = false ->
          (forall m, m ∈ before ->
                     agent m = Some "outline_writer" -> isStreaming m = true) ->
          let text := toLowerCase (content outline) in
          let estimate := estimateExpectedSections (before ++ outline :: after) in
          (content outline = "" -> estimate = 3)
          /\ ((forall pattern, matchCount pattern text = 0) -> estimate = 3)
          /\ (content outline <> "" ->
              forall pattern,
                0 < matchCount pattern text ->
                (forall other, matchCount other text <= matchCount pattern text) ->
                estimate = Nat.min (Nat.max (matchCount pattern text) 2) 8)).
Proof.
  intros E state.
  split; [apply estimate_clamped|].
  split; [apply estimate_clamped|].
  split; [reflexivity|].
  split; [reflexivity|].
  split.
  { unfold CoreStore.shouldFetch. rewrite !andb_true_iff, Nat.leb_le.
    by intros (((_ & _) & Hgate) & _). }
  split; [by split|].
  exact estimate_cases.
Qed.

(** ** Overlapping re-evaluations (C3) *)

Lemma ViewStore_shouldFetch_present `{Externals} (state : State) :
  is_Some (finalPaper state) ->
  ViewStore.shouldFetch (ViewStore.locals state) = false.
Proof.
  intros Hsome. unfold ViewStore.shouldFetch. simpl.
  rewrite (bool_decide_eq_true_2 _ Hsome). simpl. apply andb_false_r.
Qed.

Lemma ViewStore_callback_present `{Externals} (threadId : string) (w : World) :
  is_Some (finalPaper (store w)) ->
  ViewStore.checkAndFetchFinalPaper_callback threadId w = w.
Proof.
  intros Hsome. rewrite ViewStore_callback_cases.
  by rewrite ViewStore_shouldFetch_present.
Qed.

Lemma CompletionConditions_same (s s' : State) :
  messages s' = messages s -> finalPaper s' = finalPaper s ->
  CompletionConditions s -> CompletionConditions s'.
Proof.
  intros Hm Hf [Ha Hb Hc Hd He].
  constructor; unfold allMessagesOf in *; rewrite ?Hm, ?Hf; done.
Qed.

Lemma runTasks_nil (callback : string -> World -> World)
    (settled : string -> FetchOutcome -> string -> State -> State) (w : World) :
  runTasks callback settled [] w = w.
Proof. reflexivity. Qed.

Lemma runTasks_cons (callback : string -> World -> World)
    (settled : string -> FetchOutcome -> string -> State -> State)
    (task : Task) (tasks : list Task) (w : World) :
  runTasks callback settled (task :: tasks) w
  = runTasks callback settled tasks (runTask callback settled task w).
Proof. reflexivity. Qed.

Lemma runTask_fire (callback : string -> World -> World)
    (settled : string -> FetchOutcome -> string -> State -> State)
    (threadId : string) (rest : list string) (state : State)
    (pending calls : list string) :
  runTask callback settled TimerFires (mkWorld state (threadId :: rest) pending calls)
  = callback threadId (mkWorld state rest pending calls).
Proof. reflexivity. Qed.

(** C3, as stated, fails: after the references have committed and two
    re-evaluations are armed, both fire before the first request settles,
    each finds no artifact in the state, and [getFinalPaper] is called
    twice; when both requests resolve, two final-paper cards are filed. *)
Lemma overlapping_firings_fetch_twice :
  summary referencesCommittedTwice
  = [("u", None, false); ("p", Some "planner", false);
     ("o", Some "outline_writer", false); ("s1", Some "paper_writer", false);
     ("r", Some "references_writer", false)]
  /\ finalPaper (store referencesCommittedTwice) = None
  /\ timers referencesCommittedTwice = ["T"; "T"]
  /\ fetchCalls referencesCommittedTwice = []
  /\ fetchCalls
       (@ViewStore.runTasks plainExternals [TimerFires; TimerFires]
          referencesCommittedTwice)
     = ["T"; "T"]
  /\ messageIds
       (store
          (@ViewStore.runTasks plainExternals
             [TimerFires; TimerFires;
              FetchSettles 0 (Resolved paperResponse) "card1";
              FetchSettles 0 (Resolved paperResponse) "card2"]
             referencesCommittedTwice))
     = ["u"; "p"; "o"; "s1"; "r"; "card1"; "card2"].
Proof. repeat split; vm_compute; reflexivity. Qed.

(** C3 (amended). A re-evaluation that finds a final artifact in the state
    is a no-op.  When the five conditions hold and two re-evaluations are
    armed for the thread, the fetch is called exactly once if the first
    request resolves before the second re-evaluation fires; if the first
    request fails before it, the second re-evaluation calls the fetch
    again. *)
Theorem fetch_once_when_resolved_before_second_firing
    (E : Externals) (threadId nanoid : string) (w : World)
    (response : FinalPaperResponse) (error : ThrownValue)
    (Hconds : CompletionConditions (store w))
    (Htimers : timers w = [threadId; threadId])
    (Hinflight : inflight w = []) :
  (forall w', is_Some (finalPaper (store w')) ->
              ViewStore.checkAndFetchFinalPaper_callback threadId w' = w')
  /\ fetchCalls
       (ViewStore.runTasks
          [TimerFires; FetchSettles 0 (Resolved response) nanoid; TimerFires] w)
     = fetchCalls w ++ [threadId]
  /\ fetchCalls
       (ViewStore.runTasks
          [TimerFires; FetchSettles 0 (Rejected error) nanoid; TimerFires] w)
     = fetchCalls w ++ [threadId; threadId].
Proof.
  split; [intros w'; apply ViewStore_callback_present|].
  destruct w as [st tm inf calls].
  simpl in Hconds, Htimers, Hinflight. subst tm inf.
  assert (Hfetch : ViewStore.shouldFetch (ViewStore.locals st) = true)
    by by apply ViewStore_shouldFetch_spec.
  unfold ViewStore.runTasks.
  rewrite !runTasks_cons, !runTasks_nil, !runTask_fire.
  rewrite !ViewStore_callback_cases. simpl store at 1 2. rewrite Hfetch.
  unfold fetchFinalPaper. simpl.
  split.
  - rewrite ViewStore_callback_present; [done|].
    simpl. destruct (truthy (final_paper response)); by eexists.
  - rewrite ViewStore_callback_cases. simpl store.
    assert (ViewStore.shouldFetch
              (ViewStore.locals
                 (fetchFailed error
                    (set_finalPaperError None (set_finalPaperLoading true st))))
            = true) as ->.
    { apply ViewStore_shouldFetch_spec.
      by apply (CompletionConditions_same st). }
    simpl. by rewrite <- app_assoc.
Qed.

Lemma fetch_once_when_resolved_before_second_firing_witness :
  CompletionConditions (store referencesCommittedTwice)
  /\ timers referencesCommittedTwice = ["T"; "T"]
  /\ inflight referencesCommittedTwice = []
  /\ fetchCalls
       (@ViewStore.runTasks plainExternals
          [TimerFires; FetchSettles 0 (Resolved paperResponse) "card"; TimerFires]
          referencesCommittedTwice)
     = fetchCalls referencesCommittedTwice ++ ["T"].
Proof.
  assert (Hc : CompletionConditions (store referencesCommittedTwice)).
  { apply (@ViewStore_shouldFetch_spec plainExternals). vm_compute. reflexivity. }
  split; [exact Hc|]. split; [reflexivity|]. split; [reflexivity|].
  exact (proj1 (proj2
    (fetch_once_when_resolved_before_second_firing plainExternals
       "T" "card" referencesCommittedTwice paperResponse NotAnError
       Hc eq_refl eq_refl))).
Defined.

(** ** Starting a Research (C5, C4) *)

Lemma elem_of_rev {A : Type} (x : A) (l : list A) : x ∈ rev l <-> x ∈ l.
Proof. rewrite !list_elem_of_In. symmetry. apply in_rev. Qed.

Lemma findPlanMessage_found (msgs : JsMap.t Message) (ids : list string)
    (planMessage : Message) :
  findPlanMessage msgs ids = Some planMessage ->
  exists before k after,
    ids = before ++ k :: after
    /\ JsMap.get k msgs = Some planMessage
    /\ agent planMessage = Some "planner"
    /\ (forall k' m, k' ∈ before -> JsMap.get k' msgs = Some m ->
                     agent m <> Some "planner").
Proof.
  induction ids as [|i rest IH]; simpl; [done|].
  destruct (JsMap.get i msgs) as [m|] eqn:Hget.
  - destruct (agentIs "planner" m) eqn:Hm.
    + intros Heq. inversion Heq; subst m. exists [], i, rest.
      repeat split; try done.
      * by apply agentIs_true.
      * intros k' m' Hin. by apply elem_of_nil in Hin.
    + intros Hfound. destruct (IH Hfound) as (before & k & after & -> & Hk & Hp & Hnear).
      exists (i :: before), k, after. repeat split; try done.
      intros k' m' Hin Hget'. apply elem_of_cons in Hin as [->|Hin].
      * rewrite Hget in Hget'. inversion Hget'; subst m'.
        intros Hag. apply agentIs_true in Hag. congruence.
      * by apply (Hnear k' m').
  - intros Hfound. destruct (IH Hfound) as (before & k & after & -> & Hk & Hp & Hnear).
    exists (i :: before), k, after. repeat split; try done.
    intros k' m' Hin Hget'. apply elem_of_cons in Hin as [->|Hin].
    + congruence.
    + by apply (Hnear k' m').
Qed.

Lemma findPlanMessage_exists (msgs : JsMap.t Message) (ids : list string)
    (k : string) (m : Message) :
  k ∈ ids -> JsMap.get k msgs = Some m -> agent m = Some "planner" ->
  exists planMessage, findPlanMessage msgs ids = Some planMessage.
Proof.
  intros Hin Hget Hag. induction ids as [|i rest IH]; simpl.
  - by apply elem_of_nil in Hin.
  - apply elem_of_cons in Hin as [<-|Hin].
    + rewrite Hget. apply agentIs_true in Hag. rewrite Hag. eauto.
    + destruct (JsMap.get i msgs) as [m'|]; [|by apply IH].
      destruct (agentIs "planner" m'); [eauto | by apply IH].
Qed.

(** What a returning [appendResearch] leaves in the store. *)
Lemma appendResearch_returned (researchId : string) (w w' : World) :
  appendResearch researchId w = Returned w' ->
  exists planMessage,
    findPlanMessage (messages (store w)) (rev (messageIds (store w)))
    = Some planMessage
    /\ researchPlanIds (store w')
       = <[researchId := id planMessage]> (researchPlanIds (store w))
    /\ researchActivityIds (store w')
       = <[researchId := [id planMessage; researchId]]>
           (researchActivityIds (store w))
    /\ researchIds (store w') = researchIds (store w) ++ [researchId]
    /\ ongoingResearchId (store w') = Some researchId
    /\ messageIds (store w') = messageIds (store w)
    /\ messages (store w') = messages (store w).
Proof.
  unfold appendResearch.
  destruct (findPlanMessage _ _) as [planMessage|]; [|discriminate].
  intros Heq. inversion Heq. exists planMessage. simpl. repeat split.
Qed.

(** The research maps, the id list and the ongoing marker as the activity
    step leaves them when the Research has just been opened. *)
Lemma appendResearchActivity_opened (message : Message) (planId : string)
    (w : World) :
  ongoingResearchId (store w) = Some (id message) ->
  researchActivityIds (store w) !! id message = Some [planId; id message] ->
  exists w',
    appendResearchActivity message w = Returned w'
    /\ researchActivityIds (store w') !! id message = Some [planId; id message]
    /\ researchPlanIds (store w') = researchPlanIds (store w)
    /\ researchIds (store w') = researchIds (store w)
    /\ ongoingResearchId (store w') = ongoingResearchId (store w)
    /\ messageIds (store w') = messageIds (store w)
    /\ messages (store w') = messages (store w)
    /\ timers w' = timers w
    /\ fetchCalls w' = fetchCalls w.
Proof.
  intros Hongoing Hactivity. unfold appendResearchActivity, getOngoingResearchId.
  rewrite Hongoing. destruct (truthy (id message)); [|by exists w].
  rewrite Hactivity.
  rewrite bool_decide_eq_true_2
    by (apply elem_of_cons; right; apply list_elem_of_here).
  destruct (agentIs "reporter" message); eexists; (split; [reflexivity|]);
    simpl; repeat split; done.
Qed.

(** The commit blocks write the paper fields and arm the timer; the messages
    and the Research bookkeeping are not theirs. *)
Lemma commitBlocks_research `{Externals} (blocks : Message -> World -> World)
    (message : Message) (w : World) :
  blocks = coreCommitBlocks \/ blocks = viewCommitBlocks ->
  researchPlanIds (store (blocks message w)) = researchPlanIds (store w)
  /\ researchActivityIds (store (blocks message w))
     = researchActivityIds (store w)
  /\ researchIds (store (blocks message w)) = researchIds (store w)
  /\ ongoingResearchId (store (blocks message w)) = ongoingResearchId (store w)
  /\ messageIds (store (blocks message w)) = messageIds (store w)
  /\ messages (store (blocks message w)) = messages (store w).
Proof.
  intros [->| ->]; unfold coreCommitBlocks, viewCommitBlocks;
    destruct (agentIs "outline_writer" message && negb (isStreaming message));
    destruct (agentIs "paper_writer" message && negb (isStreaming message));
    try destruct (agentIs "references_writer" message
                  && negb (isStreaming message));
    simpl; try done;
    match goal with
    | |- context [sectionCommitted message ?s] =>
        destruct (sectionCommitted_cases message s) as [->|[text ->]]
    end; done.
Qed.

(** A Research started by [appendMessage]: the call goes on to store the
    message, unless the message is a committed [paper_writer] message whose
    parse cannot be read; then it throws with the Research recorded and the
    message not stored. *)
Lemma appendMessage_starts_research `{Externals}
    (append : Message -> World -> Result) (message : Message) (w w1 : World) :
  appendsResearchAgent append message ->
  truthyOpt (getOngoingResearchId w) = false ->
  appendResearch (id message) w = Returned w1 ->
  exists w',
    append message w
    = (if commitThrows message then Thrown w' else Returned w')
    /\ researchPlanIds (store w') = researchPlanIds (store w1)
    /\ researchActivityIds (store w') !! id message
       = researchActivityIds (store w1) !! id message
    /\ researchIds (store w') = researchIds (store w1)
    /\ ongoingResearchId (store w') = Some (id message)
    /\ messageIds (store w')
       = messageIds (store w)
         ++ (if commitThrows message then [] else [id message])
    /\ messages (store w')
       = if commitThrows message then messages (store w)
         else JsMap.set (id message) message (messages (store w)).
Proof.
  intros Happend Hnone Hstart.
  destruct (appendResearch_returned _ _ _ Hstart)
    as (planMessage & _ & Hplan & Hact & Hids & Hon & Hmids & Hmsgs).
  destruct (appendResearchActivity_opened message (id planMessage)
              (openResearch (Some (id message)) w1))
    as (w2 & Hret & Hact2 & Hplan2 & Hids2 & Hon2 & Hmids2 & Hmsgs2 & _);
    [done | by simpl; rewrite Hact, lookup_insert_eq |].
  simpl in Hplan2, Hids2, Hon2, Hmids2, Hmsgs2.
  assert (Hact1 : researchActivityIds (store w1) !! id message
                  = Some [id planMessage; id message])
    by by rewrite Hact, lookup_insert_eq.
  assert (Hcases : exists blocks,
             (blocks = coreCommitBlocks \/ blocks = viewCommitBlocks)
             /\ append message w
                = if commitThrows message then Thrown w2
                  else Returned (onStore (Store.appendMessage message)
                                   (blocks message w2))).
  { destruct Happend as [[-> Hagent]|[-> Hagent]].
    - exists coreCommitBlocks. split; [by left|].
      rewrite CoreStore_appendMessage_cases, Hagent, Hnone. simpl negb.
      rewrite Hstart. simpl andThen. by rewrite Hret.
    - exists viewCommitBlocks. split; [by right|].
      rewrite ViewStore_appendMessage_cases, Hagent, Hnone. simpl negb.
      rewrite Hstart. simpl andThen. by rewrite Hret. }
  destruct Hcases as (blocks & Hblocks & ->).
  destruct (commitBlocks_research blocks message w2 Hblocks)
    as (Hplan3 & Hact3 & Hids3 & Hon3 & Hmids3 & Hmsgs3).
  destruct (commitThrows message); eexists; (split; [reflexivity|]); simpl;
    rewrite ?Hplan3, ?Hact3, ?Hids3, ?Hon3, ?Hmids3, ?Hmsgs3,
      ?Hplan2, ?Hact2, ?Hids2, ?Hon2, ?Hmids2, ?Hmsgs2, ?Hact1,
      ?Hmids, ?Hmsgs, ?app_nil_r; done.
Qed.

(** C5. Planner linkage: when a message of a research agent with a new id is
    appended while no Research is ongoing, and a planner-tagged message
    stands in the ordered message list, the Research created for it has as
    [planMessageId] the id of a message with agent [planner] that is in the
    store and in the ordered list before the trigger (the nearest one, no
    planner stands between it and the trigger), and its activity ids are
    exactly [[planMessageId; triggerMessageId]].  This holds for both stores,
    on a store whose entries sit under their own ids.  The call then returns
    with the trigger listed last; only for a committed [paper_writer]
    message whose parse cannot be read does it throw, after the Research has
    been created as said and before the message is listed. *)
Theorem research_plan_linkage
    (E : Externals) (append : Message -> World -> Result)
    (message : Message) (w : World)
    (Happend : appendsResearchAgent append message)
    (Hkeyed : keyed (store w))
    (Hnew : id message ∉ messageIds (store w))
    (Hnone : truthyOpt (getOngoingResearchId w) = false)
    (Hplanner : exists k m, k ∈ messageIds (store w)
                            /\ getMessage k w = Some m
                            /\ agent m = Some "planner") :
  exists w' planId planMessage before after,
    append message w
    = (if commitThrows message then Thrown w' else Returned w')
    /\ researchPlanIds (store w') !! id message = Some planId
    /\ getMessage planId w = Some planMessage
    /\ getMessage planId w' = Some planMessage
    /\ agent planMessage = Some "planner"
    /\ messageIds (store w) = before ++ planId :: after
    /\ (forall k m, k ∈ after -> getMessage k w = Some m ->
                    agent m <> Some "planner")
    /\ messageIds (store w')
       = before ++ planId :: after
         ++ (if commitThrows message then [] else [id message])
    /\ researchActivityIds (store w') !! id message
       = Some [planId; id message]
    /\ ongoingResearchId (store w') = Some (id message)
    /\ researchIds (store w') = researchIds (store w) ++ [id message].
Proof.
  destruct Hplanner as (k0 & m0 & Hin0 & Hget0 & Hag0).
  destruct (findPlanMessage_exists (messages (store w))
              (rev (messageIds (store w))) k0 m0) as [planMessage Hfind];
    [by apply elem_of_rev | done | done |].
  destruct (findPlanMessage_found _ _ _ Hfind)
    as (later & k & earlier & Hrev & Hget & Hag & Hnear).
  assert (Hids : messageIds (store w) = rev earlier ++ k :: rev later).
  { rewrite <- (rev_involutive (messageIds (store w))), Hrev.
    rewrite rev_app_distr. simpl. by rewrite <- app_assoc. }
  assert (Hid : id planMessage = k).
  { apply Hkeyed. by apply JsMap_get_elem_of. }
  assert (Hstart : appendResearch (id message) w
                   = Returned
                       (onStore
                          (fun s =>
                             set_researchActivityIds
                               (<[id message := [id planMessage; id message]]>
                                  (researchActivityIds s))
                               (set_researchPlanIds
                                  (<[id message := id planMessage]>
                                     (researchPlanIds s))
                                  (set_researchIds (researchIds s ++ [id message])
                                     (set_ongoingResearchId (Some (id message)) s))))
                          w)).
  { unfold appendResearch. by rewrite Hfind. }
  destruct (appendMessage_starts_research append message w _ Happend Hnone Hstart)
    as (w' & Hret & Hplan & Hact & Hrids & Hon & Hmids & Hmsgs).
  simpl in Hplan, Hact, Hrids.
  exists w', k, planMessage, (rev earlier), (rev later).
  assert (Hne : id message <> k).
  { intros Heq. apply Hnew. rewrite Hids, Heq.
    apply elem_of_app. right. apply list_elem_of_here. }
  split; [done|].
  split; [by rewrite Hplan, lookup_insert_eq, Hid|].
  split; [done|].
  split.
  { unfold getMessage. rewrite Hmsgs.
    destruct (commitThrows message); [done | by rewrite JsMap_get_set_ne]. }
  split; [done|].
  split; [done|].
  split.
  { intros k' m' Hin. apply (Hnear k' m'). by apply elem_of_rev. }
  split; [by rewrite Hmids, Hids, <- app_assoc|].
  split; [by rewrite Hact, lookup_insert_eq, Hid|].
  done.
Qed.

(** The end-to-end scenario of the specification: a planner message, then a
    researcher message, leave one Research under the researcher's id, linked
    to the plan, ongoing, open, and without report, in both stores. *)
Example planner_then_researcher :
  forall send,
    send = @CoreStore.sendMessage plainExternals
    \/ send = @ViewStore.sendMessage plainExternals ->
    let w :=
      worldOf
        (send "T" None "u" None
           [startEvent "m1" "planner"; deltaEvent "m1" "planner" "{title: X}";
            finishEvent "m1" "planner";
            startEvent "m2" "researcher"; finishEvent "m2" "researcher"]
           false (initialWorld "T")) in
    researchIds (store w) = ["m2"]
    /\ researchPlanIds (store w) !! "m2" = Some "m1"
    /\ researchActivityIds (store w) !! "m2" = Some ["m1"; "m2"]
    /\ ongoingResearchId (store w) = Some "m2"
    /\ openResearchId (store w) = Some "m2"
    /\ researchReportIds (store w) !! "m2" = None
    /\ messageIds (store w) = ["m1"; "m2"].
Proof. intros send [->| ->]; repeat split; vm_compute; reflexivity. Qed.

Lemma planned_keyed : keyed (store planned).
Proof.
  intros k m Hin. apply list_elem_of_In in Hin. vm_compute in Hin.
  destruct Hin as [Heq|[Heq|[]]]; inversion Heq; reflexivity.
Qed.

Lemma research_plan_linkage_witness :
  (@appendsResearchAgent plainExternals
     (@ViewStore.appendMessage plainExternals) researcherStarts
   /\ keyed (store planned)
   /\ (id researcherStarts ∉ messageIds (store planned))
   /\ truthyOpt (getOngoingResearchId planned) = false
   /\ (exists k m, k ∈ messageIds (store planned)
                   /\ getMessage k planned = Some m
                   /\ agent m = Some "planner"))
  /\ (exists w' planId planMessage before after,
      @ViewStore.appendMessage plainExternals researcherStarts planned
      = Returned w'
      /\ researchPlanIds (store w') !! id researcherStarts = Some planId
      /\ getMessage planId planned = Some planMessage
      /\ getMessage planId w' = Some planMessage
      /\ agent planMessage = Some "planner"
      /\ messageIds (store planned) = before ++ planId :: after
      /\ (forall k m, k ∈ after -> getMessage k planned = Some m ->
                      agent m <> Some "planner")
      /\ messageIds (store w') = before ++ planId :: after ++ [id researcherStarts]
      /\ researchActivityIds (store w') !! id researcherStarts
         = Some [planId; id researcherStarts]
      /\ ongoingResearchId (store w') = Some (id researcherStarts)
      /\ researchIds (store w')
         = researchIds (store planned) ++ [id researcherStarts]).
Proof.
  assert (Hagent : @appendsResearchAgent plainExternals
                     (@ViewStore.appendMessage plainExternals) researcherStarts)
    by (right; split; reflexivity).
  assert (Hnew : id researcherStarts ∉ messageIds (store planned)).
  { apply (proj1 (bool_decide_eq_false _)). vm_compute. reflexivity. }
  assert (Hplanner : exists k m, k ∈ messageIds (store planned)
                                 /\ getMessage k planned = Some m
                                 /\ agent m = Some "planner").
  { exists "m1". eexists. split; [|split].
    - apply (proj1 (bool_decide_eq_true _)). vm_compute. reflexivity.
    - vm_compute. reflexivity.
    - reflexivity. }
  split.
  - split; [exact Hagent|]. split; [exact planned_keyed|].
    split; [exact Hnew|]. split; [reflexivity | exact Hplanner].
  - exact (research_plan_linkage plainExternals _ researcherStarts planned
             Hagent planned_keyed Hnew eq_refl Hplanner).
Defined.

(** ** What the stream loop does to the id list and to the Research marker
    (C7, C4) *)

Lemma sameResearch_refl (w : World) : sameResearch w w.
Proof. by repeat split. Qed.

Lemma sameResearch_trans (w1 w2 w3 : World) :
  sameResearch w1 w2 -> sameResearch w2 w3 -> sameResearch w1 w3.
Proof.
  intros (Ha & Hb & Hc & Hd) (Ha' & Hb' & Hc' & Hd'). repeat split; congruence.
Qed.

Lemma appendResearchActivity_same (message : Message) (w : World) :
  sameResearch w (worldOf (appendResearchActivity message w)).
Proof.
  unfold appendResearchActivity.
  destruct (getOngoingResearchId w) as [researchId|]; [|apply sameResearch_refl].
  destruct (truthy researchId); [|apply sameResearch_refl].
  destruct (researchActivityIds (store w) !! researchId) as [current|];
    [|apply sameResearch_refl].
  destruct (bool_decide (id message ∈ current));
    destruct (agentIs "reporter" message); by repeat split.
Qed.

Lemma sectionCommitted_same `{Externals} (message : Message) (w : World) :
  sameResearch w (onStore (sectionCommitted message) w).
Proof.
  unfold onStore.
  destruct (sectionCommitted_cases message (store w)) as [->|[text ->]];
    by repeat split.
Qed.

(** The commit blocks between the Research step and the store's own call. *)
Lemma CoreStore_commit_blocks_same `{Externals} (message : Message) (w : World) :
  sameResearch w (coreCommitBlocks message w).
Proof.
  unfold coreCommitBlocks. simpl.
  destruct (agentIs "outline_writer" message && negb (isStreaming message));
    destruct (agentIs "paper_writer" message && negb (isStreaming message));
    try by repeat split.
  - apply (sameResearch_trans _ (onStore (outlineCommitted message) w));
      [by repeat split|].
    apply (sameResearch_trans _ _ _ (sectionCommitted_same message _)).
    by repeat split.
  - apply (sameResearch_trans _ _ _ (sectionCommitted_same message _)).
    by repeat split.
Qed.

Lemma ViewStore_commit_blocks_same `{Externals} (message : Message) (w : World) :
  sameResearch w (viewCommitBlocks message w).
Proof.
  unfold viewCommitBlocks. simpl.
  apply (sameResearch_trans _
           (if agentIs "outline_writer" message && negb (isStreaming message)
            then onStore (outlineCommitted message) w else w)).
  { destruct (agentIs "outline_writer" message && negb (isStreaming message));
      by repeat split. }
  set (w2 := if agentIs "outline_writer" message && negb (isStreaming message)
             then _ else _).
  clearbody w2.
  apply (sameResearch_trans _
           (if agentIs "paper_writer" message && negb (isStreaming message)
            then onStore (sectionCommitted message) w2 else w2)).
  { destruct (agentIs "paper_writer" message && negb (isStreaming message));
      [apply sectionCommitted_same | apply sameResearch_refl]. }
  destruct (agentIs "references_writer" message && negb (isStreaming message));
    by repeat split.
Qed.

Lemma researchStep_effect (message : Message) (w : World) :
  let w' := worldOf (researchStep message w) in
  messageIds (store w') = messageIds (store w)
  /\ ((researchIds (store w') = researchIds (store w)
       /\ ongoingResearchId (store w') = ongoingResearchId (store w))
      \/ (truthyOpt (getOngoingResearchId w) = false
          /\ hasThrown (researchStep message w) = false
          /\ researchIds (store w') = researchIds (store w) ++ [id message]
          /\ ongoingResearchId (store w') = Some (id message))).
Proof.
  unfold researchStep.
  destruct (truthyOpt (getOngoingResearchId w)) eqn:Hon; simpl.
  - destruct (appendResearchActivity_same message w) as (Ha & Hb & Hc & _).
    destruct (appendResearchActivity message w); simpl in *; auto.
  - destruct (appendResearch (id message) w) as [w1|w1] eqn:Hstart; simpl.
    + destruct (appendResearch_returned _ _ _ Hstart)
        as (planMessage & _ & _ & Hact & Hids & Hongoing & Hmids & _).
      destruct (appendResearchActivity_opened message (id planMessage)
                  (openResearch (Some (id message)) w1))
        as (w2 & Hret & _ & _ & Hids2 & Hon2 & Hmids2 & _);
        [done | by simpl; rewrite Hact, lookup_insert_eq |].
      rewrite Hret. simpl in *. split; [congruence|]. right.
      repeat split; congruence.
    + unfold appendResearch in Hstart.
      destruct (findPlanMessage _ _); inversion Hstart. auto.
Qed.

Lemma appendMessage_unfold `{Externals} (append : Message -> World -> Result)
    (update : Message -> World -> Result) (message : Message) (w : World) :
  storeFunctions append update ->
  exists (research : bool) (blocks : World -> World),
    (forall w1, sameResearch w1 (blocks w1))
    /\ append message w
       = andThen (if research then researchStep message w else Returned w)
           (fun w1 =>
              if commitThrows message then Thrown w1
              else Returned (onStore (Store.appendMessage message) (blocks w1))).
Proof.
  intros [[-> _]|[-> _]].
  - exists (CoreStore.isResearchAgent message), (coreCommitBlocks message).
    split; [|apply CoreStore_appendMessage_cases].
    intros w1. apply CoreStore_commit_blocks_same.
  - exists (ViewStore.isResearchAgent message), (viewCommitBlocks message).
    split; [|apply ViewStore_appendMessage_cases].
    intros w1. apply ViewStore_commit_blocks_same.
Qed.

(** [appendMessage] lists the message exactly when it returns.  When it
    starts a Research, it throws only through the [paper_writer] block. *)
Lemma appendMessage_effect `{Externals} (append : Message -> World -> Result)
    (update : Message -> World -> Result) (message : Message) (w : World) :
  storeFunctions append update ->
  let r := append message w in
  messageIds (store (worldOf r))
  = (if hasThrown r then messageIds (store w)
     else messageIds (store w) ++ [id message])
  /\ ((researchIds (store (worldOf r)) = researchIds (store w)
       /\ ongoingResearchId (store (worldOf r)) = ongoingResearchId (store w))
      \/ (truthyOpt (getOngoingResearchId w) = false
          /\ hasThrown r = commitThrows message
          /\ researchIds (store (worldOf r)) = researchIds (store w) ++ [id message]
          /\ ongoingResearchId (store (worldOf r)) = Some (id message))).
Proof.
  intros Hfun.
  destruct (appendMessage_unfold append update message w Hfun)
    as (research & blocks & Hblocks & ->).
  destruct research.
  - pose proof (researchStep_effect message w) as Hstep.
    destruct (researchStep message w) as [w1|w1]; simpl in *.
    + destruct (Hblocks w1) as (Ha & Hb & Hc & _).
      destruct (commitThrows message); simpl; rewrite ?Ha, ?Hb, ?Hc;
        destruct Hstep as [-> Hstep]; (split; [done|]);
        destruct Hstep as [?|(? & ? & ? & ?)]; auto.
    + destruct Hstep as [-> Hstep]. split; [done|].
      destruct Hstep as [?|(? & ? & ? & ?)]; [auto | discriminate].
  - simpl. destruct (Hblocks w) as (Ha & Hb & Hc & _).
    destruct (commitThrows message); simpl; rewrite ?Ha, ?Hb, ?Hc; auto.
Qed.

Lemma reporterCommitted_effect (message : Message) (w : World) :
  messageIds (store (reporterCommitted message w)) = messageIds (store w)
  /\ researchIds (store (reporterCommitted message w)) = researchIds (store w)
  /\ messages (store (reporterCommitted message w)) = messages (store w)
  /\ (ongoingResearchId (store (reporterCommitted message w))
      = ongoingResearchId (store w)
      \/ ongoingResearchId (store (reporterCommitted message w)) = None).
Proof.
  unfold reporterCommitted. destruct (_ && _ && _ && _); simpl; auto.
Qed.

(** [updateMessage] of one store: a throw that leaves the world as it was,
    or the store's own call after the commit blocks. *)
Lemma updateMessage_unfold `{Externals} (append : Message -> World -> Result)
    (update : Message -> World -> Result) (message : Message) (w : World) :
  storeFunctions append update ->
  exists blocks : World -> World,
    (forall w1, sameResearch w1 (blocks w1))
    /\ update message w
       = if commitThrows message then Thrown w
         else Returned (onStore (Store.updateMessage message)
                          (blocks (reporterCommitted message w))).
Proof.
  intros [[_ ->]|[_ ->]].
  - exists (coreCommitBlocks message).
    split; [|apply CoreStore_updateMessage_cases].
    intros w1. apply CoreStore_commit_blocks_same.
  - exists (viewCommitBlocks message).
    split; [|apply ViewStore_updateMessage_cases].
    intros w1. apply ViewStore_commit_blocks_same.
Qed.

Lemma updateMessage_effect `{Externals} (append : Message -> World -> Result)
    (update : Message -> World -> Result) (message : Message) (w : World) :
  storeFunctions append update ->
  messageIds (store (worldOf (update message w))) = messageIds (store w)
  /\ researchIds (store (worldOf (update message w))) = researchIds (store w)
  /\ (ongoingResearchId (store (worldOf (update message w)))
      = ongoingResearchId (store w)
      \/ ongoingResearchId (store (worldOf (update message w))) = None).
Proof.
  intros Hfun.
  destruct (updateMessage_unfold append update message w Hfun)
    as (blocks & Hblocks & ->).
  destruct (commitThrows message); simpl; [auto|].
  destruct (Hblocks (reporterCommitted message w)) as (Ha & Hb & Hc & _).
  destruct (reporterCommitted_effect message w) as (Hd & He & _ & Hf).
  rewrite Ha, Hb, Hc, Hd, He. auto.
Qed.

Lemma streamIteration_effect `{Externals} (append : Message -> World -> Result)
    (update : Message -> World -> Result) (feedback : option string)
    (event : ChatEvent) (w : World) :
  storeFunctions append update ->
  iterationEffect event w
    (streamIteration append update
       feedback event w).
Proof.
  intros Hfun. unfold streamIteration, iterationEffect.
  destruct (String.eqb_spec (ev_type event) "tool_call_result") as [Htype|Htype].
  - simpl. left. split; [auto|].
    destruct (findMessageByToolCallId (ev_tool_call_id event) w) as [m|];
      [|destruct (getMessage (ev_id event) w) as [m|]]; simpl; auto;
      destruct (updateMessage_effect append update (mergeMessage m event) w Hfun)
        as (Ha & Hb & Hc); auto.
  - unfold existsMessage.
    destruct (bool_decide (ev_id event ∈ messageIds (store w))) eqn:Hexists;
      simpl.
    + apply bool_decide_eq_true in Hexists. left. split; [auto|].
      destruct (getMessage (ev_id event) w) as [m|]; simpl; auto.
      destruct (updateMessage_effect append update (mergeMessage m event) w Hfun)
        as (Ha & Hb & Hc); auto.
    + apply bool_decide_eq_false in Hexists.
      set (message := mkMessage (ev_id event) _ _ _ _ _ _ _ _ _).
      pose proof (appendMessage_effect append update message w Hfun) as Happ.
      simpl in Happ.
      destruct (append message w) as [w1|w1]; simpl in *.
      * right. destruct Happ as [Hids Hres].
        destruct (updateMessage_effect append update
                    (mergeMessage message event) w1 Hfun) as (Ha & Hb & Hc).
        rewrite Ha, Hb, Hids. repeat split; try done.
        destruct Hres as [[Hr Ho]|(Hnone & _ & Hr & Ho)].
        -- left. rewrite Hr, <- Ho. done.
        -- right. rewrite Hr. split; [done|]. split; [done|].
           rewrite <- Ho. done.
      * left. destruct Happ as [Hids Hres]. split; [auto|].
        destruct Hres as [[Hr Ho]|(_ & Hthrown & _)]; [auto|].
        by rewrite commitThrows_streaming in Hthrown.
Qed.

Lemma NoDup_append_new {A : Type} (l : list A) (x : A) :
  NoDup l -> x ∉ l -> NoDup (l ++ [x]).
Proof.
  intros Hl Hx. apply NoDup_app. split; [done|]. split.
  - intros y Hy Hin. apply list_elem_of_singleton in Hin. by subst y.
  - apply NoDup_singleton.
Qed.








(** [sendMessage] stores the user message and goes on. *)
Lemma agentIs_none (a : string) (m : Message) :
  agent m = None -> agentIs a m = false.
Proof. intros Hm. unfold agentIs. rewrite Hm. by apply bool_decide_eq_false. Qed.

Lemma agentIs_other (a b : string) (m : Message) :
  agent m = Some a -> a <> b -> agentIs b m = false.
Proof.
  intros Hm Hne. rewrite (agentIs_eqb a b m Hm). by apply String.eqb_neq.
Qed.

Lemma appendMessage_plain
    (E : Externals) (message : Message) (w : World)
    (Hagent :
       agent message = None
       \/ exists a, agent message = Some a
                    /\ a ∉ ["coder"; "thinking"; "reporter"; "researcher";
                            "outline_writer"; "paper_writer";
                            "references_writer"]) :
  CoreStore.appendMessage message w
  = Returned (onStore (Store.appendMessage message) w)
  /\ ViewStore.appendMessage message w
     = Returned (onStore (Store.appendMessage message) w).
Proof.
  assert (Hnot : forall b,
             b ∈ ["coder"; "thinking"; "reporter"; "researcher";
                  "outline_writer"; "paper_writer"; "references_writer"] ->
             agentIs b message = false).
  { intros b Hb. destruct Hagent as [Hnone|(a & Ha & Hout)].
    - by apply agentIs_none.
    - apply (agentIs_other a); [done|]. intros ->. done. }
  assert (Hc := Hnot "coder"). assert (Ht := Hnot "thinking").
  assert (Hr := Hnot "reporter"). assert (Hs := Hnot "researcher").
  assert (Ho := Hnot "outline_writer"). assert (Hp := Hnot "paper_writer").
  assert (Hf := Hnot "references_writer").
  unfold CoreStore.appendMessage, ViewStore.appendMessage,
    CoreStore.isResearchAgent, ViewStore.isResearchAgent.
  rewrite Hc, Ht, Hr, Hs, Ho, Hp, Hf; try done;
    repeat first [apply list_elem_of_here | apply list_elem_of_further].
Qed.

Lemma userMessage_plain (THREAD_ID nanoid text : string) :
  agent (userMessage THREAD_ID nanoid text) = None
  \/ exists a,
      agent (userMessage THREAD_ID nanoid text) = Some a
      /\ a ∉ ["coder"; "thinking"; "reporter"; "researcher"; "outline_writer";
              "paper_writer"; "references_writer"].
Proof. by left. Qed.

(** [sendMessage] never throws: the user message is only stored, and what
    the loop throws is caught. *)
Lemma sendMessage_returns `{Externals} (append : Message -> World -> Result)
    (update : Message -> World -> Result) (THREAD_ID : string)
    (messageContent : option string) (nanoid : string)
    (feedback : option string) (events : list ChatEvent) (streamFails : bool)
    (w : World) :
  storeFunctions append update ->
  sendMessageOver append update
    THREAD_ID messageContent nanoid feedback events streamFails w
  = Returned
      (sendMessageReturns append update
         THREAD_ID messageContent nanoid feedback events streamFails w).
Proof.
  intros Hfun. unfold sendMessageOver, sendMessageReturns.
  destruct messageContent as [text|]; [|reflexivity].
  change (mkMessage nanoid THREAD_ID user None text [text] None false None None)
    with (userMessage THREAD_ID nanoid text).
  destruct (appendMessage_plain _ (userMessage THREAD_ID nanoid text) w
              (userMessage_plain THREAD_ID nanoid text)) as [Hcore Hview].
  destruct Hfun as [[-> _]|[-> _]]; [rewrite Hcore | rewrite Hview];
    reflexivity.
Qed.




Lemma iterationEffect_marker (event : ChatEvent) (w : World) (r : Result) :
  iterationEffect event w r ->
  ev_id event <> "" ->
  ongoingResearchId (store w) <> Some "" ->
  ongoingResearchId (store (worldOf r)) <> Some "".
Proof.
  intros Heffect Hid Hmarker Hafter.
  assert (Hcases : ongoingResearchId (store (worldOf r)) = ongoingResearchId (store w)
                   \/ ongoingResearchId (store (worldOf r)) = None
                   \/ ongoingResearchId (store (worldOf r)) = Some (ev_id event)).
  { destruct Heffect as [(_ & _ & _ & [?|?])|(_ & _ & _ & Hres)]; auto.
    destruct Hres as [(_ & [?|?])|(_ & _ & [?|?])]; auto. }
  destruct Hcases as [Heq|[Heq|Heq]]; rewrite Heq in Hafter.
  - done.
  - discriminate.
  - inversion Hafter. done.
Qed.

Lemma streamLoop_marker `{Externals} (append : Message -> World -> Result)
    (update : Message -> World -> Result) (feedback : option string)
    (events : list ChatEvent) (messageId : option string) (w : World) :
  storeFunctions append update ->
  Forall (fun event => ev_id event <> "") events ->
  ongoingResearchId (store w) <> Some "" ->
  ongoingResearchId
    (store
       (worldOf
          (fst (streamLoop append update
                  feedback events messageId w))))
  <> Some "".
Proof.
  intros Hfun Hids. revert messageId w.
  induction Hids as [|event rest Hid Hrest IH]; intros messageId w Hmarker;
    simpl; [done|].
  pose proof (iterationEffect_marker event w _
                (streamIteration_effect append update feedback event w Hfun)
                Hid Hmarker) as Hstep.
  destruct (streamIteration _ _ feedback event w) as [w'|w']; simpl in *.
  - by apply IH.
  - done.
Qed.

Lemma truthyOpt_false (marker : option string) :
  truthyOpt marker = false <-> marker = None \/ marker = Some "".
Proof.
  destruct marker as [s|]; simpl; [|split; auto].
  unfold truthy. rewrite negb_false_iff, String.eqb_eq. split.
  - intros ->. auto.
  - intros [?|Heq]; [done | by inversion Heq].
Qed.

(** C4, as stated, fails on a message whose id is the empty string: the
    Research it opens is marked ongoing under [""], which is not null, and
    the guard [!getOngoingResearchId()] reads it as falsy, so the next
    research message starts a second Research. *)
Lemma research_started_while_marker_is_empty_id :
  summary afterEmptyId
  = [("m1", Some "planner", false); ("", Some "researcher", true)]
  /\ ongoingResearchId (store afterEmptyId) = Some ""
  /\ researchIds (store afterEmptyId) = [""]
  /\ researchIds
       (store
          (worldOf
             (@streamIteration plainExternals
                (@ViewStore.appendMessage plainExternals)
                (@ViewStore.updateMessage plainExternals)
                None (startEvent "m2" "researcher") afterEmptyId)))
     = [""; "m2"]
  /\ researchIds
       (store
          (worldOf
             (@streamIteration plainExternals
                (@CoreStore.appendMessage plainExternals)
                (@CoreStore.updateMessage plainExternals)
                None (startEvent "m2" "researcher") afterEmptyId)))
     = [""; "m2"].
Proof. repeat split; vm_compute; reflexivity. Qed.

(** C4 (amended). The store has one ongoing-Research marker, so at most one
    Research id is marked ongoing at any point.  An increment starts a new
    Research only when that marker is null or the empty string, and then the
    new Research is the one of the increment's id.  From a store whose marker
    is not the empty string, and over events whose ids are not empty, the
    marker never is the empty string: there a new Research is never started
    while [ongoingResearchId] is non-null.  This holds for both stores. *)
Theorem research_exclusivity
    (E : Externals) (append : Message -> World -> Result)
    (update : Message -> World -> Result) (w : World)
    (Hfun : storeFunctions append update) :
  (forall r1 r2,
      ongoingResearchId (store w) = Some r1 ->
      ongoingResearchId (store w) = Some r2 -> r1 = r2)
  /\ (forall feedback event,
        let w' := worldOf (streamIteration append update feedback event w) in
        researchIds (store w') <> researchIds (store w) ->
        truthyOpt (getOngoingResearchId w) = false
        /\ researchIds (store w') = researchIds (store w) ++ [ev_id event])
  /\ (forall feedback processed event,
        ongoingResearchId (store w) <> Some "" ->
        Forall (fun e => ev_id e <> "") processed ->
        let reached :=
          worldOf (fst (streamLoop append update feedback processed None w)) in
        let w' := worldOf (streamIteration append update feedback event reached) in
        researchIds (store w') <> researchIds (store reached) ->
        ongoingResearchId (store reached) = None).
Proof.
  assert (Hstep : forall feedback event w0,
             let w' := worldOf (streamIteration append update feedback event w0) in
             researchIds (store w') <> researchIds (store w0) ->
             truthyOpt (getOngoingResearchId w0) = false
             /\ researchIds (store w') = researchIds (store w0) ++ [ev_id event]).
  { intros feedback event w0 w' Hchanged.
    pose proof (streamIteration_effect append update feedback event w0 Hfun)
      as Heffect.
    destruct Heffect as [(_ & _ & Hsame & _)|(_ & _ & _ & Hres)];
      [by destruct Hchanged|].
    destruct Hres as [(Hsame & _)|(Hnone & Hnew & _)];
      [by destruct Hchanged | done]. }
  split; [congruence|]. split; [intros feedback event; apply Hstep|].
  intros feedback processed event Hmarker Hids reached w' Hchanged.
  destruct (Hstep feedback event reached Hchanged) as [Hnone _].
  apply truthyOpt_false in Hnone as [Hnone|Hempty]; [done|].
  exfalso.
  by apply (streamLoop_marker append update feedback processed None w Hfun Hids
              Hmarker).
Qed.

Lemma research_exclusivity_witness :
  @storeFunctions plainExternals (@ViewStore.appendMessage plainExternals)
    (@ViewStore.updateMessage plainExternals)
  /\ (forall feedback event,
        let w' :=
          worldOf
            (@streamIteration plainExternals
               (@ViewStore.appendMessage plainExternals)
               (@ViewStore.updateMessage plainExternals) feedback event
               planned) in
        researchIds (store w') <> researchIds (store planned) ->
        truthyOpt (getOngoingResearchId planned) = false
        /\ researchIds (store w') = researchIds (store planned) ++ [ev_id event]).
Proof.
  assert (Hfun : @storeFunctions plainExternals
                   (@ViewStore.appendMessage plainExternals)
                   (@ViewStore.updateMessage plainExternals))
    by (right; split; reflexivity).
  split; [exact Hfun|].
  exact (proj1 (proj2 (research_exclusivity plainExternals _ _ planned Hfun))).
Defined.

(** ** Every entry of the message map sits under its own id

    The hypothesis of the planner linkage holds in every store the functions
    can reach: the initial store is keyed, and the stream loop, [sendMessage],
    the timer callbacks and the settling of a fetch keep it so. *)

Lemma keyed_initial (THREAD_ID : string) : keyed (initialState THREAD_ID).
Proof. intros k m Hin. by apply elem_of_nil in Hin. Qed.

Lemma keyed_same (s s' : State) :
  messages s' = messages s -> keyed s -> keyed s'.
Proof. unfold keyed. intros ->. done. Qed.

Lemma keyed_set (s s' : State) (message : Message) :
  messages s' = JsMap.set (id message) message (messages s) ->
  keyed s -> keyed s'.
Proof.
  unfold keyed. intros -> Hkeyed k m Hin.
  apply JsMap_elem_of_set in Hin as [[-> ->]|Hin]; [done | by apply Hkeyed].
Qed.

Lemma researchStep_messages (message : Message) (w : World) :
  messages (store (worldOf (researchStep message w))) = messages (store w).
Proof.
  unfold researchStep.
  destruct (truthyOpt (getOngoingResearchId w)); simpl.
  - destruct (appendResearchActivity_same message w) as (_ & _ & _ & Hd).
    destruct (appendResearchActivity message w); done.
  - destruct (appendResearch (id message) w) as [w1|w1] eqn:Hstart; simpl.
    + destruct (appendResearch_returned _ _ _ Hstart)
        as (planMessage & _ & _ & _ & _ & _ & _ & Hmsgs).
      pose proof (appendResearchActivity_same message
                    (openResearch (Some (id message)) w1)) as (_ & _ & _ & Hd).
      destruct (appendResearchActivity message _); simpl in *; congruence.
    + unfold appendResearch in Hstart.
      destruct (findPlanMessage _ _); inversion Hstart. done.
Qed.

Lemma appendMessage_keyed `{Externals} (append : Message -> World -> Result)
    (update : Message -> World -> Result) (message : Message) (w : World) :
  storeFunctions append update ->
  keyed (store w) -> keyed (store (worldOf (append message w))).
Proof.
  intros Hfun Hkeyed.
  destruct (appendMessage_unfold append update message w Hfun)
    as (research & blocks & Hblocks & ->).
  assert (Hstep : keyed (store (worldOf
                    (if research then researchStep message w else Returned w)))).
  { destruct research; [|done].
    by apply (keyed_same (store w)); [apply researchStep_messages|]. }
  destruct (if research then researchStep message w else Returned w) as [w1|w1];
    simpl in *; [|done].
  destruct (commitThrows message); simpl; [done|].
  destruct (Hblocks w1) as (_ & _ & _ & Hd).
  apply (keyed_set (store w1) _ message); [simpl; by rewrite Hd | done].
Qed.

Lemma updateMessage_keyed `{Externals} (append : Message -> World -> Result)
    (update : Message -> World -> Result) (message : Message) (w : World) :
  storeFunctions append update ->
  keyed (store w) -> keyed (store (worldOf (update message w))).
Proof.
  intros Hfun Hkeyed.
  destruct (updateMessage_unfold append update message w Hfun)
    as (blocks & Hblocks & ->).
  destruct (commitThrows message); simpl; [done|].
  destruct (Hblocks (reporterCommitted message w)) as (_ & _ & _ & Hd).
  destruct (reporterCommitted_effect message w) as (_ & _ & He & _).
  apply (keyed_set (store w) _ message); [|done].
  simpl. by rewrite Hd, He.
Qed.

Lemma streamIteration_keyed `{Externals} (append : Message -> World -> Result)
    (update : Message -> World -> Result) (feedback : option string)
    (event : ChatEvent) (w : World) :
  storeFunctions append update ->
  keyed (store w) ->
  keyed
    (store
       (worldOf
          (streamIteration append update
             feedback event w))).
Proof.
  intros Hfun Hkeyed. unfold streamIteration.
  destruct (String.eqb (ev_type event) "tool_call_result"); simpl.
  - destruct (findMessageByToolCallId (ev_tool_call_id event) w) as [m|];
      [|destruct (getMessage (ev_id event) w) as [m|]]; simpl; try done;
      by apply (updateMessage_keyed append update).
  - destruct (existsMessage (ev_id event) w); simpl.
    + destruct (getMessage (ev_id event) w) as [m|]; simpl; [|done].
      by apply (updateMessage_keyed append update).
    + match goal with |- context [append ?m w] =>
        pose proof (appendMessage_keyed append update m w Hfun Hkeyed) as Happ;
        destruct (append m w) as [w1|w1]
      end; simpl in *; [|done].
      by apply (updateMessage_keyed append update).
Qed.

Lemma streamLoop_keyed `{Externals} (append : Message -> World -> Result)
    (update : Message -> World -> Result) (feedback : option string)
    (events : list ChatEvent) (messageId : option string) (w : World) :
  storeFunctions append update ->
  keyed (store w) ->
  keyed
    (store
       (worldOf
          (fst (streamLoop append update
                  feedback events messageId w)))).
Proof.
  intros Hfun. revert messageId w.
  induction events as [|event rest IH]; intros messageId w Hkeyed; simpl; [done|].
  pose proof (streamIteration_keyed append update feedback event w Hfun Hkeyed)
    as Hstep.
  destruct (streamIteration _ _ feedback event w) as [w'|w']; simpl in *.
  - by apply IH.
  - done.
Qed.

Lemma catchBlock_keyed (messageId : option string) (w : World) :
  keyed (store w) -> keyed (store (catchBlock messageId w)).
Proof.
  intros Hkeyed. unfold catchBlock. destruct messageId as [i|]; [|done].
  destruct (getMessage i w) as [message|] eqn:Hget; [|done].
  destruct (isStreaming message); [|done]. simpl.
  assert (Hid : id message = i)
    by (apply Hkeyed; by apply JsMap_get_elem_of).
  set (stopped := mkMessage (id message) _ _ _ _ _ _ false _ _).
  intros k m Hin. simpl in Hin.
  apply (JsMap_elem_of_set (id stopped)) in Hin as [[-> ->]|Hin]; [done|].
  rewrite <- Hid in Hin.
  apply (JsMap_elem_of_set (id stopped)) in Hin as [[-> ->]|Hin]; [done|].
  by apply Hkeyed.
Qed.

Lemma keyed_responding (value : bool) (w : World) :
  keyed (store w) -> keyed (store (setResponding value w)).
Proof. done. Qed.

Lemma sendMessage_keyed `{Externals} (append : Message -> World -> Result)
    (update : Message -> World -> Result) (THREAD_ID : string)
    (messageContent : option string) (nanoid : string)
    (feedback : option string) (events : list ChatEvent) (streamFails : bool)
    (w : World) :
  storeFunctions append update ->
  keyed (store w) ->
  keyed
    (store
       (worldOf
          (sendMessageOver append update
             THREAD_ID messageContent nanoid feedback events streamFails w))).
Proof.
  intros Hfun Hkeyed. unfold sendMessageOver.
  set (first := match messageContent with Some _ => _ | None => Returned w end).
  assert (Hfirst : keyed (store (worldOf first))).
  { subst first. destruct messageContent as [text|]; [|done].
    by apply (appendMessage_keyed append update). }
  destruct first as [w0|w0]; [|done].
  cbn [andThen worldOf].
  pose proof (streamLoop_keyed append update feedback events None
                (setResponding true w0) Hfun Hfirst) as Hloop.
  destruct (fst (streamLoop append _ feedback events None (setResponding true w0)))
    as [w1|w1]; cbn [worldOf] in Hloop.
  - apply keyed_responding. destruct streamFails; [|done].
    by apply catchBlock_keyed.
  - apply keyed_responding. by apply catchBlock_keyed.
Qed.

Lemma runTasks_keyed `{Externals} (tasks : list Task) (w : World) :
  keyed (store w) ->
  keyed (store (CoreStore.runTasks tasks w))
  /\ keyed (store (ViewStore.runTasks tasks w)).
Proof.
  intros Hkeyed0. unfold CoreStore.runTasks, ViewStore.runTasks. split.
  - revert w Hkeyed0. induction tasks as [|task rest IH]; intros w Hkeyed; [done|].
    rewrite runTasks_cons. apply IH.
    destruct task as [|k outcome nanoid]; simpl.
    + destruct (timers w) as [|threadId pending]; [done|].
      rewrite CoreStore_callback_cases. by destruct (CoreStore.shouldFetch _).
    + destruct (inflight w !! k) as [threadId|]; [|done].
      destruct outcome; exact Hkeyed.
  - revert w Hkeyed0. induction tasks as [|task rest IH]; intros w Hkeyed; [done|].
    rewrite runTasks_cons. apply IH.
    destruct task as [|k outcome nanoid]; simpl.
    + destruct (timers w) as [|threadId pending]; [done|].
      rewrite ViewStore_callback_cases. by destruct (ViewStore.shouldFetch _).
    + destruct (inflight w !! k) as [threadId|]; [|done].
      destruct outcome as [response|error]; simpl; [|exact Hkeyed].
      destruct (truthy (final_paper response)); [|exact Hkeyed].
      eapply keyed_set; [reflexivity|]. exact Hkeyed.
Qed.

(** * Further properties of the store *)

(** ** The store's own methods *)

Lemma JsMap_keys_set {V : Type} (k : string) (v : V) (m : JsMap.t V) :
  JsMap.keys (JsMap.set k v m)
  = if bool_decide (k ∈ JsMap.keys m) then JsMap.keys m else JsMap.keys m ++ [k].
Proof.
  induction m as [|[k' v'] r IH].
  - unfold JsMap.keys. cbn [JsMap.set map fst].
    rewrite bool_decide_eq_false_2; [done | apply not_elem_of_nil].
  - cbn [JsMap.set]. unfold JsMap.keys in *.
    destruct (decide (k' = k)) as [->|Hne]; cbn [map fst].
    + rewrite bool_decide_eq_true_2; [done | apply list_elem_of_here].
    + unfold JsMap.keys in IH. rewrite IH.
      destruct (bool_decide (k ∈ map fst r)) eqn:Hin.
      * apply bool_decide_eq_true in Hin.
        rewrite bool_decide_eq_true_2; [done | by apply list_elem_of_further].
      * apply bool_decide_eq_false in Hin.
        rewrite bool_decide_eq_false_2; [done|].
        intros Hc. apply elem_of_cons in Hc as [?|?]; [congruence | done].
Qed.

Lemma JsMap_keys_set_NoDup {V : Type} (k : string) (v : V) (m : JsMap.t V) :
  NoDup (JsMap.keys m) -> NoDup (JsMap.keys (JsMap.set k v m)).
Proof.
  intros Hm. rewrite JsMap_keys_set.
  destruct (bool_decide (k ∈ JsMap.keys m)) eqn:Hin; [done|].
  apply bool_decide_eq_false in Hin. by apply NoDup_append_new.
Qed.

Lemma JsMap_get_is_Some {V : Type} (k : string) (m : JsMap.t V) :
  is_Some (JsMap.get k m) <-> k ∈ JsMap.keys m.
Proof.
  induction m as [|[k' v'] r IH]; simpl.
  - split; [by intros [? ?] | intros Hin; by apply elem_of_nil in Hin].
  - destruct (decide (k' = k)) as [->|Hne].
    + split; [intros _; apply list_elem_of_here | by eexists].
    + rewrite IH. split; [by apply list_elem_of_further|].
      intros Hin. apply elem_of_cons in Hin as [?|?]; [congruence | done].
Qed.

(** X1. Insert and look up: after the store's [appendMessage] the id is
    listed and [getMessage] returns the message appended; after the store's
    [updateMessage] [getMessage] returns the new message and the id list is
    untouched; in both cases every other id reads as before. *)
Theorem store_write_then_read :
  forall (message : Message) (w : World),
    let appended := onStore (Store.appendMessage message) w in
    let updated := onStore (Store.updateMessage message) w in
    (existsMessage (id message) appended = true
     /\ getMessage (id message) appended = Some message
     /\ messageIds (store appended) = messageIds (store w) ++ [id message])
    /\ (getMessage (id message) updated = Some message
        /\ messageIds (store updated) = messageIds (store w)
        /\ existsMessage (id message) updated = existsMessage (id message) w)
    /\ (forall i, i <> id message ->
          getMessage i appended = getMessage i w
          /\ getMessage i updated = getMessage i w
          /\ existsMessage i appended = existsMessage i w).
Proof.
  intros message w appended updated. unfold getMessage, existsMessage. simpl.
  rewrite !JsMap_get_set_eq. split; [|split].
  - split; [|done]. apply bool_decide_eq_true, elem_of_app. right.
    apply list_elem_of_here.
  - done.
  - intros i Hne. rewrite !JsMap_get_set_ne by done. split; [done|].
    split; [done|]. apply bool_decide_ext. rewrite elem_of_app.
    split; [|auto]. intros [?|Hin]; [done|].
    apply list_elem_of_singleton in Hin. congruence.
Qed.

(** X2. The message map never holds two entries under one id, and writing a
    message that is already stored keeps its place in the map's order: the
    keys after a write are the keys before, with the id added at the end
    only when it was absent. *)
Theorem store_write_keeps_map_order :
  forall (message : Message) (state : State),
    let written := Store.updateMessage message state in
    JsMap.keys (messages written)
    = (if bool_decide (id message ∈ JsMap.keys (messages state))
       then JsMap.keys (messages state)
       else JsMap.keys (messages state) ++ [id message])
    /\ messages (Store.appendMessage message state) = messages written
    /\ (NoDup (JsMap.keys (messages state)) ->
        NoDup (JsMap.keys (messages written))).
Proof.
  intros message state written. simpl.
  split; [apply JsMap_keys_set|]. split; [done|]. apply JsMap_keys_set_NoDup.
Qed.

Lemma updateMessages_fold (batch : list Message) (state : State) :
  Store.updateMessages batch state
  = fold_left (fun acc m => Store.updateMessage m acc) batch state.
Proof.
  unfold Store.updateMessages. revert state.
  induction batch as [|m rest IH]; intros state; simpl.
  - by destruct state.
  - rewrite <- IH. reflexivity.
Qed.

(** X3. [updateMessages] is the one-by-one [updateMessage] of the batch in
    order: the id list is untouched, an id outside the batch reads as before,
    and an id in the batch reads as the last message of the batch with that
    id. *)
Theorem updateMessages_last_writer_wins :
  forall (batch : list Message) (state : State),
    Store.updateMessages batch state
    = fold_left (fun acc m => Store.updateMessage m acc) batch state
    /\ messageIds (Store.updateMessages batch state) = messageIds state
    /\ (forall i, i ∉ map id batch ->
          JsMap.get i (messages (Store.updateMessages batch state))
          = JsMap.get i (messages state))
    /\ (forall before m after,
          batch = before ++ m :: after -> id m ∉ map id after ->
          JsMap.get (id m) (messages (Store.updateMessages batch state))
          = Some m).
Proof.
  intros batch state. split; [apply updateMessages_fold|]. split; [done|].
  assert (Hout : forall l s i, i ∉ map id l ->
            JsMap.get i (messages (Store.updateMessages l s))
            = JsMap.get i (messages s)).
  { intros l. induction l as [|m rest IH]; intros s i Hi; [done|].
    simpl in Hi. apply not_elem_of_cons in Hi as [Hne Hi].
    change (JsMap.get i (messages (Store.updateMessages rest
                                      (Store.updateMessage m s)))
            = JsMap.get i (messages s)).
    rewrite IH by done. simpl. by rewrite JsMap_get_set_ne. }
  split; [apply Hout|].
  intros before m after -> Hlast. revert state.
  induction before as [|m0 rest IH]; intros state.
  - change (JsMap.get (id m) (messages (Store.updateMessages after
                                          (Store.updateMessage m state)))
            = Some m).
    rewrite Hout by done. simpl. apply JsMap_get_set_eq.
  - change (JsMap.get (id m)
              (messages (Store.updateMessages (rest ++ m :: after)
                           (Store.updateMessage m0 state))) = Some m).
    apply IH.
Qed.

(** ** Tool calls *)

Lemma find_first {A : Type} (f : A -> bool) (l : list A) (x : A) :
  find f l = Some x ->
  exists before after,
    l = before ++ x :: after /\ f x = true
    /\ forall y, y ∈ before -> f y = false.
Proof.
  induction l as [|a r IH]; simpl; [done|].
  destruct (f a) eqn:Hfa.
  - intros Heq. inversion Heq; subst a. exists [], r. repeat split; try done.
    intros y Hy. by apply elem_of_nil in Hy.
  - intros Hfound. destruct (IH Hfound) as (before & after & -> & Hx & Hb).
    exists (a :: before), after. repeat split; try done.
    intros y Hy. apply elem_of_cons in Hy as [->|Hy]; [done | by apply Hb].
Qed.

Lemma find_none_iff {A : Type} (f : A -> bool) (l : list A) :
  find f l = None <-> forall y, y ∈ l -> f y = false.
Proof.
  split.
  - intros Hnone y Hy. apply (find_none f l Hnone). by apply list_elem_of_In.
  - intros Hall. destruct (find f l) as [x|] eqn:Hfind; [|done].
    apply find_some in Hfind as [Hin Hx].
    rewrite (Hall x) in Hx by by apply list_elem_of_In. discriminate.
Qed.

(** X4. [findMessageByToolCallId] returns the last message, in the map's
    order, that holds a tool call with the given id: the message found holds
    it, no message after it does, and nothing is found exactly when no stored
    message holds it (in particular when a message has no tool calls). *)
Theorem findMessageByToolCallId_latest_owner :
  forall (toolCallId : string) (w : World),
    (forall owner,
        findMessageByToolCallId toolCallId w = Some owner ->
        exists earlier later,
          allMessagesOf (store w) = earlier ++ owner :: later
          /\ hasToolCall toolCallId owner = true
          /\ forall m, m ∈ later -> hasToolCall toolCallId m = false)
    /\ (findMessageByToolCallId toolCallId w = None
        <-> forall m, m ∈ allMessagesOf (store w) ->
                      hasToolCall toolCallId m = false)
    /\ (forall m, toolCalls m = None -> hasToolCall toolCallId m = false).
Proof.
  intros toolCallId w. unfold findMessageByToolCallId, allMessagesOf.
  split; [|split].
  - intros owner Hfound.
    destruct (find_first _ _ _ Hfound) as (before & after & Hrev & Hown & Hbefore).
    exists (rev after), (rev before). split; [|split; [done|]].
    + rewrite <- (rev_involutive (JsMap.values (messages (store w)))), Hrev.
      rewrite rev_app_distr. simpl. by rewrite <- app_assoc.
    + intros m Hm. apply Hbefore. by apply elem_of_rev.
  - rewrite find_none_iff. split; intros Hall m Hm; apply Hall.
    + by apply elem_of_rev.
    + by apply elem_of_rev.
  - intros m Hm. unfold hasToolCall. by rewrite Hm.
Qed.

(** X5. A [tool_call_result] increment never appends: when a stored message
    holds the tool call, the increment is merged into that message (the
    latest owner), whatever the id the increment carries, and ends as
    [updateMessage] of the merged message does; when none holds it, the
    increment is merged into the stored message of its own id, if any; and
    when there is neither, the world is left as it is.  This holds for both
    stores. *)
Theorem tool_call_result_routing
    (E : Externals) (append : Message -> World -> Result)
    (update : Message -> World -> Result) (feedback : option string)
    (event : ChatEvent) (w : World)
    (Hfun : storeFunctions append update)
    (Htype : ev_type event = "tool_call_result") :
  let r :=
    streamIteration append update
      feedback event w in
  messageIds (store (worldOf r)) = messageIds (store w)
  /\ (forall owner,
        findMessageByToolCallId (ev_tool_call_id event) w = Some owner ->
        r = update (mergeMessage owner event) w)
  /\ (findMessageByToolCallId (ev_tool_call_id event) w = None ->
      forall m, getMessage (ev_id event) w = Some m ->
                r = update (mergeMessage m event) w)
  /\ (findMessageByToolCallId (ev_tool_call_id event) w = None ->
      getMessage (ev_id event) w = None -> r = Returned w).
Proof.
  intros r. subst r. unfold streamIteration. rewrite Htype. simpl.
  destruct (findMessageByToolCallId (ev_tool_call_id event) w) as [owner|];
    simpl.
  - split; [|split; [|split]]; try done.
    + by destruct (updateMessage_effect append update
                     (mergeMessage owner event) w Hfun) as (-> & _).
    + intros o Ho. by inversion Ho.
  - destruct (getMessage (ev_id event) w) as [m|]; simpl.
    + split; [|split; [|split]]; try done.
      * by destruct (updateMessage_effect append update
                       (mergeMessage m event) w Hfun) as (-> & _).
      * intros _ m' Hm'. by inversion Hm'.
    + split; [|split; [|split]]; done.
Qed.

Lemma tool_call_result_routing_witness :
  (@storeFunctions plainExternals (@ViewStore.appendMessage plainExternals)
     (@ViewStore.updateMessage plainExternals)
   /\ ev_type
        (mkChatEvent "tool_call_result" "t9" "T" None assistant (Some "42") "c7"
           None None)
      = "tool_call_result")
  /\ messageIds
       (store
          (worldOf
             (@streamIteration plainExternals
                (@ViewStore.appendMessage plainExternals)
                (@ViewStore.updateMessage plainExternals)
                None
                (mkChatEvent "tool_call_result" "t9" "T" None assistant
                   (Some "42") "c7" None None)
                planned)))
     = messageIds (store planned).
Proof.
  assert (Hfun : @storeFunctions plainExternals
                   (@ViewStore.appendMessage plainExternals)
                   (@ViewStore.updateMessage plainExternals))
    by (right; split; reflexivity).
  split; [by split|].
  exact (proj1 (tool_call_result_routing plainExternals _ _ None
                  (mkChatEvent "tool_call_result" "t9" "T" None assistant
                     (Some "42") "c7" None None)
                  planned Hfun eq_refl)).
Defined.

(** ** The functions by cases *)

Lemma researchStep_cases (message : Message) (w : World) :
  researchStep message w = researchStepCases message w.
Proof.
  unfold researchStep, researchStepCases.
  destruct (truthyOpt (getOngoingResearchId w)) eqn:Hon; simpl.
  - unfold appendResearchActivity.
    destruct (getOngoingResearchId w) as [r|]; [|discriminate].
    simpl in Hon. rewrite Hon.
    destruct (researchActivityIds (store w) !! r) as [current|]; [|done].
    f_equal. unfold activityRecorded.
    destruct (bool_decide (id message ∈ current));
      destruct (agentIs "reporter" message);
      destruct w as [s t i f]; destruct s; reflexivity.
  - unfold appendResearch.
    destruct (findPlanMessage _ _) as [planMessage|]; simpl; [|done].
    unfold appendResearchActivity, getOngoingResearchId, researchStarted. simpl.
    destruct (truthy (id message)); simpl.
    + rewrite lookup_insert_eq.
      rewrite bool_decide_eq_true_2
        by (apply elem_of_cons; right; apply list_elem_of_here).
      destruct (agentIs "reporter" message);
        destruct w as [s t i f]; destruct s; reflexivity.
    + destruct w as [s t i f]; destruct s; reflexivity.
Qed.

Lemma SameButPaper_refl (s : State) : SameButPaper s s.
Proof. by constructor. Qed.

Lemma sectionCommitted_frame `{Externals} (message : Message) (s : State) :
  SameButPaper s (sectionCommitted message s).
Proof.
  destruct (sectionCommitted_cases message s) as [->|[text ->]];
    by constructor.
Qed.

Lemma sectionCommitted_ids `{Externals} (message : Message) (s : State) :
  paperOutlineId (sectionCommitted message s) = paperOutlineId s
  /\ completedPaperId (sectionCommitted message s) = completedPaperId s.
Proof.
  by destruct (sectionCommitted_cases message s) as [->|[text ->]].
Qed.

Lemma CoreStore_blocks_frame `{Externals} (message : Message) (w : World) :
  BlocksFrame message w (coreCommitBlocks message w).
Proof.
  unfold coreCommitBlocks. simpl.
  destruct (agentIs "outline_writer" message && negb (isStreaming message));
    destruct (agentIs "paper_writer" message && negb (isStreaming message));
    constructor; simpl;
    rewrite ?(proj1 (sectionCommitted_ids message _)),
      ?(proj2 (sectionCommitted_ids message _));
    simpl; auto; try by constructor.
  - destruct (sectionCommitted_frame message
                (outlineCommitted message (store w))).
    by constructor.
  - apply sectionCommitted_frame.
Qed.

Lemma ViewStore_blocks_frame `{Externals} (message : Message) (w : World) :
  BlocksFrame message w (viewCommitBlocks message w).
Proof.
  unfold viewCommitBlocks. simpl.
  destruct (agentIs "outline_writer" message && negb (isStreaming message));
    destruct (agentIs "paper_writer" message && negb (isStreaming message));
    destruct (agentIs "references_writer" message && negb (isStreaming message));
    constructor; simpl;
    rewrite ?(proj1 (sectionCommitted_ids message _)),
      ?(proj2 (sectionCommitted_ids message _));
    simpl; auto; try (by constructor);
    try apply sectionCommitted_frame;
    destruct (sectionCommitted_frame message
                (outlineCommitted message (store w)));
    by constructor.
Qed.

(** [appendMessage] of either store: the Research step when the agent is one
    of the store's research agents; then the throw of the [paper_writer]
    block, or the commit blocks and the store's own [appendMessage]. *)
Lemma appendMessage_cases `{Externals} (append : Message -> World -> Result)
    (update : Message -> World -> Result) (message : Message) (w : World) :
  storeFunctions append update ->
  exists (research : bool) (blocks : World -> World),
    ((append = CoreStore.appendMessage
      /\ research = CoreStore.isResearchAgent message)
     \/ (append = ViewStore.appendMessage
         /\ research = ViewStore.isResearchAgent message))
    /\ (forall w1, BlocksFrame message w1 (blocks w1))
    /\ append message w
       = andThen (if research then researchStepCases message w else Returned w)
           (fun w1 =>
              if commitThrows message then Thrown w1
              else Returned (onStore (Store.appendMessage message) (blocks w1))).
Proof.
  intros [[-> _]|[-> _]].
  - exists (CoreStore.isResearchAgent message), (coreCommitBlocks message).
    split; [by left|]. split; [intros w1; apply CoreStore_blocks_frame|].
    rewrite <- researchStep_cases. apply CoreStore_appendMessage_cases.
  - exists (ViewStore.isResearchAgent message), (viewCommitBlocks message).
    split; [by right|]. split; [intros w1; apply ViewStore_blocks_frame|].
    rewrite <- researchStep_cases. apply ViewStore_appendMessage_cases.
Qed.

(** [updateMessage] of either store: the throw of the [paper_writer] block,
    which leaves the world as it was; or the marker cleared or kept, then the
    commit blocks, then the store's own [updateMessage]. *)
Lemma updateMessage_cases `{Externals} (append : Message -> World -> Result)
    (update : Message -> World -> Result) (message : Message) (w : World) :
  storeFunctions append update ->
  exists (blocks : World -> World),
    (forall w1, BlocksFrame message w1 (blocks w1))
    /\ update message w
       = if commitThrows message then Thrown w
         else Returned
                (onStore (Store.updateMessage message)
                   (blocks
                      (if truthyOpt (getOngoingResearchId w)
                          && agentIs "reporter" message
                          && negb (isStreaming message)
                          && negb (somePaperWritingMessage (store w))
                       then onStore (Store.setOngoingResearch None) w
                       else w))).
Proof.
  intros [[_ ->]|[_ ->]].
  - exists (coreCommitBlocks message).
    split; [intros w1; apply CoreStore_blocks_frame|].
    apply CoreStore_updateMessage_cases.
  - exists (viewCommitBlocks message).
    split; [intros w1; apply ViewStore_blocks_frame|].
    apply ViewStore_updateMessage_cases.
Qed.

(** ** Messages that are only stored *)

(** X6. A message that has no agent (a user message), or whose agent is none
    of [coder], [thinking], [reporter], [researcher], [outline_writer],
    [paper_writer], [references_writer] (a planner, coordinator, podcast or
    final-paper message), is only stored by [appendMessage]: the call returns
    and the world is the one the store's own [appendMessage] leaves, with no
    Research touched, no paper state changed and no timer armed.  This holds
    for both stores. *)
Theorem appendMessage_only_stores
    (E : Externals) (message : Message) (w : World)
    (Hagent :
       agent message = None
       \/ exists a, agent message = Some a
                    /\ a ∉ ["coder"; "thinking"; "reporter"; "researcher";
                            "outline_writer"; "paper_writer";
                            "references_writer"]) :
  CoreStore.appendMessage message w
  = Returned (onStore (Store.appendMessage message) w)
  /\ ViewStore.appendMessage message w
     = Returned (onStore (Store.appendMessage message) w).
Proof. exact (appendMessage_plain E message w Hagent). Qed.

Lemma appendMessage_only_stores_witness :
  (agent (mkMessage "u1" "T" user None "Hello" ["Hello"] None false None None)
   = None
   \/ exists a,
       agent (mkMessage "u1" "T" user None "Hello" ["Hello"] None false None None)
       = Some a
       /\ a ∉ ["coder"; "thinking"; "reporter"; "researcher";
               "outline_writer"; "paper_writer"; "references_writer"])
  /\ @ViewStore.appendMessage plainExternals
       (mkMessage "u1" "T" user None "Hello" ["Hello"] None false None None)
       (initialWorld "T")
     = Returned
         (onStore
            (Store.appendMessage
               (mkMessage "u1" "T" user None "Hello" ["Hello"] None false None
                  None))
            (initialWorld "T")).
Proof.
  split; [by left|].
  exact (proj2 (appendMessage_only_stores plainExternals
                  (mkMessage "u1" "T" user None "Hello" ["Hello"] None false
                     None None)
                  (initialWorld "T") (or_introl eq_refl))).
Defined.

(** ** When [appendMessage] throws *)

Lemma andThen_thrown (research : bool) (step : Result) (w : World)
    (throws : bool) (k : World -> World) :
  hasThrown
    (andThen (if research then step else Returned w)
       (fun w1 => if throws then Thrown w1 else Returned (k w1))) = true
  <-> (research = true /\ hasThrown step = true) \/ throws = true.
Proof.
  destruct research; [destruct step|]; destruct throws; simpl;
    intuition congruence.
Qed.

Lemma andThen_thrown_same (research : bool) (step : Result) (w : World)
    (throws : bool) (k : World -> World) :
  hasThrown
    (andThen (if research then step else Returned w)
       (fun w1 => if throws then Thrown w1 else Returned (k w1))) = true ->
  andThen (if research then step else Returned w)
    (fun w1 => if throws then Thrown w1 else Returned (k w1))
  = Thrown (if research then worldOf step else w).
Proof.
  destruct research; [destruct step as [w1|w1]|]; destruct throws; simpl;
    done.
Qed.

Lemma findPlanMessage_none (msgs : JsMap.t Message) (ids : list string) :
  findPlanMessage msgs ids = None
  <-> forall k m, k ∈ ids -> JsMap.get k msgs = Some m ->
                  agent m <> Some "planner".
Proof.
  split.
  - intros Hnone k m Hin Hget Hag.
    destruct (findPlanMessage_exists msgs ids k m Hin Hget Hag) as [pm Hpm].
    congruence.
  - intros Hall. destruct (findPlanMessage msgs ids) as [pm|] eqn:Hfind; [|done].
    destruct (findPlanMessage_found _ _ _ Hfind)
      as (before & k & after & -> & Hget & Hag & _).
    destruct (Hall k pm); [|done..].
    apply elem_of_app. right. apply list_elem_of_here.
Qed.

Lemma researchStepCases_throws (message : Message) (w : World) :
  ResearchSound (store w) ->
  (hasThrown (researchStepCases message w) = true
   <-> truthyOpt (getOngoingResearchId w) = false
       /\ forall k m, k ∈ messageIds (store w) -> getMessage k w = Some m ->
                      agent m <> Some "planner")
  /\ (hasThrown (researchStepCases message w) = true ->
      researchStepCases message w = Thrown w).
Proof.
  intros Hsound. unfold researchStepCases, getOngoingResearchId.
  destruct (truthyOpt (ongoingResearchId (store w))) eqn:Hon.
  - destruct (ongoingResearchId (store w)) as [r|] eqn:Hr; [|discriminate].
    destruct (rs_activity _ Hsound r (rs_ongoing _ Hsound r Hr)) as (l & -> & _).
    simpl. split; [|discriminate]. split; [discriminate | by intros [? _]].
  - destruct (findPlanMessage _ _) as [pm|] eqn:Hfind; simpl.
    + split; [|discriminate]. split; [discriminate|].
      intros [_ Hall]. exfalso.
      assert (findPlanMessage (messages (store w)) (rev (messageIds (store w)))
              = None) as Hnone; [|congruence].
      apply findPlanMessage_none. intros k m Hin. apply Hall.
      by apply elem_of_rev.
    + split; [|done]. split; [|done]. intros _. split; [done|].
      intros k m Hin. apply (proj1 (findPlanMessage_none _ _) Hfind).
      by apply elem_of_rev.
Qed.

(** X7. In a store whose Research bookkeeping is sound, [appendMessage]
    throws exactly when the message is of one of the store's research
    agents, no Research is ongoing, and no listed message is a planner
    message; or when the message is a committed [paper_writer] message whose
    parse cannot be read.  A throw of [store.ts] has changed nothing.  A
    throw of the store that follows [message-list-view.tsx] has changed
    nothing in the first case; in the second case alone it has run the
    Research step, since [paper_writer] is one of its research agents: the
    message is recorded in a Research and is not stored. *)
Theorem appendMessage_throw_cases
    (E : Externals) (message : Message) (w : World)
    (Hsound : ResearchSound (store w)) :
  let noPlanner :=
    forall k m, k ∈ messageIds (store w) -> getMessage k w = Some m ->
                agent m <> Some "planner" in
  let unreadable :=
    agent message = Some "paper_writer" /\ isStreaming message = false
    /\ section_content (content message) = ReadThrows in
  (hasThrown (CoreStore.appendMessage message w) = true
   <-> (CoreStore.isResearchAgent message = true
        /\ truthyOpt (getOngoingResearchId w) = false /\ noPlanner)
       \/ unreadable)
  /\ (hasThrown (ViewStore.appendMessage message w) = true
      <-> (ViewStore.isResearchAgent message = true
           /\ truthyOpt (getOngoingResearchId w) = false /\ noPlanner)
          \/ unreadable)
  /\ (hasThrown (CoreStore.appendMessage message w) = true ->
      CoreStore.appendMessage message w = Thrown w)
  /\ (hasThrown (ViewStore.appendMessage message w) = true ->
      (truthyOpt (getOngoingResearchId w) = false /\ noPlanner ->
       ViewStore.appendMessage message w = Thrown w)
      /\ (~ (truthyOpt (getOngoingResearchId w) = false /\ noPlanner) ->
          exists w1,
            researchStep message w = Returned w1
            /\ ViewStore.appendMessage message w = Thrown w1
            /\ messageIds (store w1) = messageIds (store w)
            /\ messages (store w1) = messages (store w)
            /\ (id message ∈ researchIds (store w1)
                \/ exists r current,
                    getOngoingResearchId w = Some r
                    /\ researchActivityIds (store w1) !! r = Some current
                    /\ id message ∈ current))).
Proof.
  intros noPlanner unreadable.
  destruct (researchStepCases_throws message w Hsound) as [Hiff Hsame].
  assert (Hunreadable : commitThrows message = true <-> unreadable).
  { split; [apply commitThrows_agent|].
    intros (Hagent & Hcommit & Hread). unfold commitThrows, readThrows.
    known_agent Hagent. by rewrite Hcommit, Hread. }
  rewrite CoreStore_appendMessage_cases, ViewStore_appendMessage_cases.
  change (andThen
            (if negb (truthyOpt (getOngoingResearchId w))
             then andThen (appendResearch (id message) w)
                    (fun w' => Returned (openResearch (Some (id message)) w'))
             else Returned w)
            (appendResearchActivity message))
    with (researchStep message w).
  rewrite researchStep_cases.
  split; [|split; [|split]].
  - rewrite andThen_thrown, Hiff, Hunreadable. tauto.
  - rewrite andThen_thrown, Hiff, Hunreadable. tauto.
  - intros Hthrown. pose proof Hthrown as Hwhy.
    apply andThen_thrown in Hwhy.
    rewrite (andThen_thrown_same _ _ _ _ _ Hthrown).
    destruct Hwhy as [[Hresearch Hstep]|Hcommit].
    + by rewrite Hresearch, (Hsame Hstep).
    + apply commitThrows_agent in Hcommit as (Hagent & _).
      unfold CoreStore.isResearchAgent. by known_agent Hagent.
  - intros Hthrown. pose proof Hthrown as Hwhy.
    apply andThen_thrown in Hwhy.
    rewrite (andThen_thrown_same _ _ _ _ _ Hthrown).
    split.
    + intros Hnone. apply Hiff in Hnone. rewrite (Hsame Hnone).
      by destruct (ViewStore.isResearchAgent message).
    + intros Hsome.
      assert (Hstep : hasThrown (researchStepCases message w) = false).
      { apply not_true_is_false. intros Hstep. by apply Hiff in Hstep. }
      destruct Hwhy as [[_ Hcontra]|Hcommit]; [congruence|].
      apply commitThrows_agent in Hcommit as (Hagent & _).
      assert (Hresearch : ViewStore.isResearchAgent message = true).
      { unfold ViewStore.isResearchAgent. by known_agent Hagent. }
      rewrite Hresearch.
      destruct (researchStepCases message w) as [w1|w1] eqn:Hcases;
        [|discriminate].
      exists w1. split; [done|]. split; [done|].
      revert Hcases. unfold researchStepCases, getOngoingResearchId.
      destruct (truthyOpt (ongoingResearchId (store w))) eqn:Hon.
      * destruct (ongoingResearchId (store w)) as [r|]; [|discriminate].
        destruct (researchActivityIds (store w) !! r) as [current|] eqn:Hact;
          [|discriminate].
        intros Heq. inversion Heq. subst w1.
        split; [done|]. split; [done|]. right.
        unfold activityRecorded. simpl.
        destruct (bool_decide (id message ∈ current)) eqn:Hin.
        -- apply bool_decide_eq_true in Hin. by exists r, current.
        -- exists r, (current ++ [id message]).
           split; [done|]. split; [by rewrite lookup_insert_eq|].
           apply elem_of_app. right. apply list_elem_of_here.
      * destruct (findPlanMessage _ _) as [planMessage|]; [|discriminate].
        intros Heq. inversion Heq. subst w1. unfold researchStarted.
        destruct (truthy (id message) && agentIs "reporter" message); simpl;
          (split; [done|]); (split; [done|]); left;
          apply elem_of_app; right; apply list_elem_of_here.
Qed.

(** ** The Research bookkeeping stays sound *)

Lemma JsMap_set_keeps {V : Type} (i k : string) (v : V) (m : JsMap.t V) :
  is_Some (JsMap.get i m) -> is_Some (JsMap.get i (JsMap.set k v m)).
Proof.
  intros Hi. destruct (decide (k = i)) as [->|Hne].
  - rewrite JsMap_get_set_eq. by eexists.
  - by rewrite JsMap_get_set_ne.
Qed.

Lemma ResearchSound_initial (THREAD_ID : string) :
  ResearchSound (initialState THREAD_ID).
Proof.
  constructor; simpl; try (intros ? Hin; by apply elem_of_nil in Hin).
  - apply NoDup_nil_2.
  - discriminate.
  - intros r q Hq. by rewrite lookup_empty in Hq.
Qed.

Lemma ResearchSound_frame (s s' : State) :
  SameButPaper s s' -> ResearchSound s -> ResearchSound s'.
Proof.
  intros [_ _ Hmi Hm Hri Hpl Hre Hac Hon _ _ _ _]
    [Hids Hlisted Honce Hongoing Hplan Hact Hrep].
  constructor; rewrite ?Hmi, ?Hm, ?Hri, ?Hpl, ?Hre, ?Hac, ?Hon; done.
Qed.

Lemma SameButPaper_append (message : Message) (s s' : State) :
  SameButPaper s s' ->
  SameButPaper (Store.appendMessage message s) (Store.appendMessage message s').
Proof. intros []. constructor; simpl; congruence. Qed.

Lemma SameButPaper_update (message : Message) (s s' : State) :
  SameButPaper s s' ->
  SameButPaper (Store.updateMessage message s) (Store.updateMessage message s').
Proof. intros []. constructor; simpl; congruence. Qed.

Lemma ResearchSound_stored (message : Message) (s : State) :
  ResearchSound s ->
  ResearchSound (Store.updateMessage message s)
  /\ ResearchSound (Store.appendMessage message s).
Proof.
  intros [Hids Hlisted Honce Hon Hplan Hact Hrep]. split.
  - constructor; simpl; try done.
    + intros i Hi. by apply JsMap_set_keeps, Hids.
    + intros r Hr. destruct (Hplan r Hr) as (p & Hp & Hsome).
      exists p. split; [done | by apply JsMap_set_keeps].
    + intros r q Hq. by apply JsMap_set_keeps, (Hrep r).
  - constructor; simpl; try done.
    + intros i Hi. apply elem_of_app in Hi as [Hi|Hi].
      * by apply JsMap_set_keeps, Hids.
      * apply list_elem_of_singleton in Hi as ->.
        rewrite JsMap_get_set_eq. by eexists.
    + intros r Hr. apply elem_of_app. left. by apply Hlisted.
    + intros r Hr. destruct (Hplan r Hr) as (p & Hp & Hsome).
      exists p. split; [done | by apply JsMap_set_keeps].
    + intros r q Hq. by apply JsMap_set_keeps, (Hrep r).
Qed.

Lemma ResearchSound_cleared (s : State) :
  ResearchSound s -> ResearchSound (Store.setOngoingResearch None s).
Proof. intros []. by constructor. Qed.

Lemma ResearchSound_recorded (r : string) (current : list string)
    (message : Message) (s : State) :
  ResearchSound s ->
  ongoingResearchId s = Some r ->
  researchActivityIds s !! r = Some current ->
  ResearchSound (Store.appendMessage message (activityRecorded r current message s)).
Proof.
  intros [Hids Hlisted Honce Hon Hplan Hact Hrep] Hr Hcurrent.
  constructor; simpl; try done.
  - intros i Hi. apply elem_of_app in Hi as [Hi|Hi].
    + by apply JsMap_set_keeps, Hids.
    + apply list_elem_of_singleton in Hi as ->.
      rewrite JsMap_get_set_eq. by eexists.
  - intros r' Hr'. apply elem_of_app. left. by apply Hlisted.
  - intros r' Hr'. destruct (Hplan r' Hr') as (p & Hp & Hsome).
    exists p. split; [done | by apply JsMap_set_keeps].
  - intros r' Hr'.
    destruct (bool_decide (id message ∈ current)) eqn:Hin; [by apply Hact|].
    apply bool_decide_eq_false in Hin.
    destruct (decide (r' = r)) as [->|Hne].
    + exists (current ++ [id message]). rewrite lookup_insert_eq.
      split; [done|]. apply NoDup_append_new; [|done].
      destruct (Hact r Hr') as (l & Hl & Hnodup). congruence.
    + rewrite lookup_insert_ne by done. by apply Hact.
  - intros r' q. destruct (agentIs "reporter" message).
    + destruct (decide (r' = r)) as [->|Hne].
      * rewrite lookup_insert_eq. intros Hq. inversion Hq.
        rewrite JsMap_get_set_eq. by eexists.
      * rewrite lookup_insert_ne by done. intros Hq.
        by apply JsMap_set_keeps, (Hrep r').
    + intros Hq. by apply JsMap_set_keeps, (Hrep r').
Qed.

Lemma ResearchSound_started (planMessage message : Message) (k : string)
    (s : State) :
  ResearchSound s ->
  k ∈ messageIds s ->
  JsMap.get k (messages s) = Some planMessage ->
  id planMessage = k ->
  id message ∉ messageIds s ->
  ResearchSound
    (Store.appendMessage message (researchStarted planMessage message s)).
Proof.
  intros [Hids Hlisted Honce Hon Hplan Hact Hrep] Hk Hget Hid Hnew.
  assert (Hnotres : id message ∉ researchIds s).
  { intros Hin. by apply Hnew, Hlisted. }
  assert (Hne : k <> id message) by (intros ->; done).
  unfold researchStarted.
  destruct (truthy (id message) && agentIs "reporter" message);
    constructor; simpl; try done.
  all: try (intros i Hi; apply elem_of_app in Hi as [Hi|Hi];
            [by apply JsMap_set_keeps, Hids
            |apply list_elem_of_singleton in Hi as ->;
             rewrite JsMap_get_set_eq; by eexists]).
  all: try (intros r Hr; apply elem_of_app in Hr as [Hr|Hr];
            apply elem_of_app; [left; by apply Hlisted | by right]).
  all: try by apply NoDup_append_new.
  all: try (intros r Hr; inversion Hr; apply elem_of_app; right;
            apply list_elem_of_here).
  all: try (intros r Hr; apply elem_of_app in Hr as [Hr|Hr];
            [destruct (Hplan r Hr) as (p & Hp & Hsome); exists p;
             rewrite lookup_insert_ne by (intros <-; done);
             split; [done | by apply JsMap_set_keeps]
            |apply list_elem_of_singleton in Hr as ->;
             exists (id planMessage); rewrite lookup_insert_eq;
             split; [done|]; apply JsMap_set_keeps; rewrite Hid, Hget;
             by eexists]).
  all: try (intros r Hr; apply elem_of_app in Hr as [Hr|Hr];
            [rewrite lookup_insert_ne by (intros <-; done); by apply Hact
            |apply list_elem_of_singleton in Hr as ->;
             exists [id planMessage; id message]; rewrite lookup_insert_eq;
             split; [done|]; rewrite Hid; apply NoDup_cons;
             split; [by intros ?%list_elem_of_singleton | apply NoDup_singleton]]).
  - intros r q. destruct (decide (r = id message)) as [->|Hr].
    + rewrite lookup_insert_eq. intros Hq. inversion Hq.
      rewrite JsMap_get_set_eq. by eexists.
    + rewrite lookup_insert_ne by done. intros Hq.
      by apply JsMap_set_keeps, (Hrep r).
  - intros r q Hq. by apply JsMap_set_keeps, (Hrep r).
Qed.

Lemma appendMessage_sound `{Externals} (append : Message -> World -> Result)
    (update : Message -> World -> Result) (message : Message) (w : World) :
  storeFunctions append update ->
  commitThrows message = false ->
  keyed (store w) ->
  id message ∉ messageIds (store w) ->
  ResearchSound (store w) ->
  ResearchSound (store (worldOf (append message w))).
Proof.
  intros Hfun Hreadable Hkeyed Hnew Hsound.
  destruct (appendMessage_cases append update message w Hfun)
    as (research & blocks & _ & Hblocks & ->).
  rewrite Hreadable.
  assert (Hafter : forall s1 w1,
             store w1 = s1 ->
             ResearchSound (Store.appendMessage message s1) ->
             ResearchSound
               (store (onStore (Store.appendMessage message) (blocks w1)))).
  { intros s1 w1 <- Hs1. simpl.
    apply (ResearchSound_frame (Store.appendMessage message (store w1)));
      [|done].
    apply SameButPaper_append, (bf_store _ _ _ (Hblocks w1)). }
  destruct research; simpl.
  - unfold researchStepCases, getOngoingResearchId.
    destruct (truthyOpt (ongoingResearchId (store w))) eqn:Hon.
    + destruct (ongoingResearchId (store w)) as [r|] eqn:Hr; [|discriminate].
      destruct (researchActivityIds (store w) !! r) as [current|] eqn:Hcur;
        simpl; [|done].
      apply (Hafter (activityRecorded r current message (store w))); [done|].
      by apply ResearchSound_recorded.
    + destruct (findPlanMessage _ _) as [pm|] eqn:Hfind; simpl; [|done].
      destruct (findPlanMessage_found _ _ _ Hfind)
        as (before & k & after & Hrev & Hget & _ & _).
      assert (Hk : k ∈ messageIds (store w)).
      { apply elem_of_rev. rewrite Hrev. apply elem_of_app. right.
        apply list_elem_of_here. }
      apply (Hafter (researchStarted pm message (store w))); [done|].
      apply (ResearchSound_started pm message k); try done.
      apply Hkeyed. by apply JsMap_get_elem_of.
  - apply (Hafter (store w)); [done|]. by apply ResearchSound_stored.
Qed.

Lemma updateMessage_sound `{Externals} (append : Message -> World -> Result)
    (update : Message -> World -> Result) (message : Message) (w : World) :
  storeFunctions append update ->
  ResearchSound (store w) ->
  ResearchSound (store (worldOf (update message w))).
Proof.
  intros Hfun Hsound.
  destruct (updateMessage_cases append update message w Hfun)
    as (blocks & Hblocks & ->).
  destruct (commitThrows message); [done|]. cbn [worldOf].
  set (w0 := if _ && _ && _ && _ then _ else w).
  assert (Hw0 : ResearchSound (store w0)).
  { subst w0. destruct (_ && _ && _ && _); [|done].
    by apply ResearchSound_cleared. }
  simpl.
  apply (ResearchSound_frame (Store.updateMessage message (store w0))).
  - apply SameButPaper_update, (bf_store _ _ _ (Hblocks w0)).
  - by apply ResearchSound_stored.
Qed.

Lemma streamIteration_sound `{Externals} (append : Message -> World -> Result)
    (update : Message -> World -> Result) (feedback : option string)
    (event : ChatEvent) (w : World) :
  storeFunctions append update ->
  keyed (store w) ->
  ResearchSound (store w) ->
  ResearchSound
    (store
       (worldOf
          (streamIteration append update
             feedback event w))).
Proof.
  intros Hfun Hkeyed Hsound. unfold streamIteration.
  destruct (String.eqb (ev_type event) "tool_call_result"); simpl.
  - destruct (findMessageByToolCallId (ev_tool_call_id event) w) as [m|];
      [|destruct (getMessage (ev_id event) w) as [m|]]; simpl; try done;
      by apply (updateMessage_sound append update).
  - unfold existsMessage.
    destruct (bool_decide (ev_id event ∈ messageIds (store w))) eqn:Hexists;
      simpl.
    + destruct (getMessage (ev_id event) w) as [m|]; simpl; [|done].
      by apply (updateMessage_sound append update).
    + apply bool_decide_eq_false in Hexists.
      match goal with |- context [append ?m w] =>
        pose proof (appendMessage_sound append update m w Hfun
                      (commitThrows_streaming m eq_refl) Hkeyed Hexists
                      Hsound) as Happ;
        destruct (append m w) as [w1|w1]
      end; simpl in *; [|done].
      by apply (updateMessage_sound append update).
Qed.

Lemma streamLoop_sound `{Externals} (append : Message -> World -> Result)
    (update : Message -> World -> Result) (feedback : option string)
    (events : list ChatEvent) (messageId : option string) (w : World) :
  storeFunctions append update ->
  keyed (store w) ->
  ResearchSound (store w) ->
  ResearchSound
    (store
       (worldOf
          (fst (streamLoop append update
                  feedback events messageId w)))).
Proof.
  intros Hfun. revert messageId w.
  induction events as [|event rest IH]; intros messageId w Hkeyed Hsound;
    simpl; [done|].
  pose proof (streamIteration_sound append update feedback event w Hfun Hkeyed
                Hsound) as Hstep.
  pose proof (streamIteration_keyed append update feedback event w Hfun Hkeyed)
    as Hk.
  destruct (streamIteration _ _ feedback event w) as [w'|w']; simpl in *.
  - by apply IH.
  - done.
Qed.

Lemma catchBlock_sound (messageId : option string) (w : World) :
  ResearchSound (store w) -> ResearchSound (store (catchBlock messageId w)).
Proof.
  intros Hsound. unfold catchBlock.
  set (w1 := match messageId with Some _ => _ | None => w end).
  assert (Hw1 : ResearchSound (store w1)).
  { subst w1. destruct messageId as [i|]; [|done].
    destruct (getMessage i w) as [message|]; [|done].
    destruct (isStreaming message); [|done]. simpl.
    set (stopped := mkMessage (id message) _ _ _ _ _ _ false _ _).
    apply (ResearchSound_stored stopped).
    destruct Hsound as [Hids Hlisted Honce Hon Hplan Hact Hrep].
    constructor; simpl; try done.
    - intros j Hj. by apply JsMap_set_keeps, Hids.
    - intros r Hr. destruct (Hplan r Hr) as (p & Hp & Hsome).
      exists p. split; [done | by apply JsMap_set_keeps].
    - intros r q Hq. by apply JsMap_set_keeps, (Hrep r). }
  by apply ResearchSound_cleared.
Qed.

Lemma sendMessage_sound `{Externals} (append : Message -> World -> Result)
    (update : Message -> World -> Result) (THREAD_ID : string)
    (messageContent : option string) (nanoid : string)
    (feedback : option string) (events : list ChatEvent) (streamFails : bool)
    (w : World) :
  storeFunctions append update ->
  keyed (store w) ->
  (is_Some messageContent -> nanoid ∉ messageIds (store w)) ->
  ResearchSound (store w) ->
  ResearchSound
    (store
       (worldOf
          (sendMessageOver append update
             THREAD_ID messageContent nanoid feedback events streamFails w))).
Proof.
  intros Hfun Hkeyed Hfresh Hsound. unfold sendMessageOver.
  set (first := match messageContent with Some _ => _ | None => Returned w end).
  assert (Hfirst : ResearchSound (store (worldOf first))
                   /\ keyed (store (worldOf first))).
  { subst first. destruct messageContent as [text|]; [|done]. split.
    - apply (appendMessage_sound append update); try done.
      apply Hfresh. by eexists.
    - by apply (appendMessage_keyed append update). }
  destruct Hfirst as [Hs0 Hk0].
  destruct first as [w0|w0]; [|done].
  cbn [andThen worldOf].
  pose proof (streamLoop_sound append update feedback events None
                (setResponding true w0) Hfun Hk0) as Hloop.
  assert (Hresp : forall v w', ResearchSound (store w') ->
                               ResearchSound (store (setResponding v w'))).
  { intros v w' []. by constructor. }
  specialize (Hloop (Hresp true w0 Hs0)).
  destruct (fst (streamLoop append _ feedback events None (setResponding true w0)))
    as [w1|w1]; cbn [worldOf] in Hloop; apply Hresp.
  - destruct streamFails; [|done]. by apply catchBlock_sound.
  - by apply catchBlock_sound.
Qed.

(** ** [sendMessage] as a whole *)











Lemma catchBlock_marker (messageId : option string) (w : World) :
  ongoingResearchId (store (catchBlock messageId w)) = None.
Proof. reflexivity. Qed.



Lemma appendMessage_throw_cases_witness :
  ResearchSound (store (initialWorld "T"))
  /\ @CoreStore.appendMessage plainExternals researcherStarts (initialWorld "T")
     = Thrown (initialWorld "T").
Proof.
  split; [apply ResearchSound_initial|].
  apply (proj1 (proj2 (proj2
           (appendMessage_throw_cases plainExternals
              researcherStarts (initialWorld "T")
              (ResearchSound_initial "T"))))).
  vm_compute. reflexivity.
Defined.

(** X9. The Research bookkeeping stays sound through [sendMessage], in both
    stores and for every stream of events, however it ends: every listed id
    has a stored message, every Research is a listed message, is recorded
    once, has a stored plan message and a duplicate-free activity list, the
    ongoing marker names a recorded Research, and every report id has a
    stored message.  The store starts sound. *)
Theorem sendMessage_keeps_research_sound
    (E : Externals) (append : Message -> World -> Result)
    (update : Message -> World -> Result) (THREAD_ID : string)
    (messageContent : option string) (nanoid : string)
    (feedback : option string) (events : list ChatEvent) (streamFails : bool)
    (w : World)
    (Hfun : storeFunctions append update)
    (Hkeyed : keyed (store w))
    (Hfresh : is_Some messageContent -> nanoid ∉ messageIds (store w))
    (Hsound : ResearchSound (store w)) :
  let w' :=
    worldOf
      (sendMessageOver append update
         THREAD_ID messageContent nanoid feedback events streamFails w) in
  ResearchSound (store w') /\ keyed (store w')
  /\ ResearchSound (initialState THREAD_ID) /\ keyed (initialState THREAD_ID).
Proof.
  intros w'. split; [|split; [|split]].
  - by apply (sendMessage_sound append update).
  - by apply (sendMessage_keyed append update).
  - apply ResearchSound_initial.
  - apply keyed_initial.
Qed.

Lemma sendMessage_keeps_research_sound_witness :
  @storeFunctions plainExternals (@ViewStore.appendMessage plainExternals)
    (@ViewStore.updateMessage plainExternals)
  /\ keyed (store (initialWorld "T"))
  /\ (is_Some (Some "Why is the sky blue?") ->
      "u" ∉ messageIds (store (initialWorld "T")))
  /\ ResearchSound (store (initialWorld "T"))
  /\ ResearchSound (store planned).
Proof.
  assert (Hfun : @storeFunctions plainExternals
                   (@ViewStore.appendMessage plainExternals)
                   (@ViewStore.updateMessage plainExternals))
    by (right; split; reflexivity).
  assert (Hfresh : is_Some (Some "Why is the sky blue?") ->
                   "u" ∉ messageIds (store (initialWorld "T")))
    by (intros _ Hin; by apply elem_of_nil in Hin).
  split; [exact Hfun|]. split; [apply keyed_initial|].
  split; [exact Hfresh|]. split; [apply ResearchSound_initial|].
  exact (proj1 (sendMessage_keeps_research_sound plainExternals _ _ "T"
                  (Some "Why is the sky blue?") "u" None
                  [startEvent "m1" "planner";
                   deltaEvent "m1" "planner" "{title: X}";
                   finishEvent "m1" "planner"]
                  false (initialWorld "T") Hfun (keyed_initial "T") Hfresh
                  (ResearchSound_initial "T"))).
Defined.

(** ** What the components read *)

Lemma researchCardState_sound (r : string) (s : State) :
  ResearchSound s ->
  is_Some (researchCardState r s)
  /\ (researchCardState r s = Some "Report generated"
      <-> exists q report,
            researchReportIds s !! r = Some q
            /\ JsMap.get q (messages s) = Some report
            /\ isStreaming report = false)
  /\ (researchCardState r s = Some "Researching..."
      <-> researchReportIds s !! r = None)
  /\ (r ∈ researchIds s ->
      exists p plan,
        researchPlanIds s !! r = Some p
        /\ JsMap.get p (messages s) = Some plan
        /\ useResearchMessage r s = if truthy p then Some plan else None).
Proof.
  intros Hsound.
  assert (Hplan : r ∈ researchIds s ->
                  exists p plan,
                    researchPlanIds s !! r = Some p
                    /\ JsMap.get p (messages s) = Some plan
                    /\ useResearchMessage r s
                       = if truthy p then Some plan else None).
  { intros Hin. destruct (rs_plan s Hsound r Hin) as (p & Hp & [plan Hget]).
    exists p, plan. split; [done|]. split; [done|].
    unfold useResearchMessage. rewrite Hp, Hget. done. }
  cut (is_Some (researchCardState r s)
       /\ (researchCardState r s = Some "Report generated"
           <-> exists q report,
                 researchReportIds s !! r = Some q
                 /\ JsMap.get q (messages s) = Some report
                 /\ isStreaming report = false)
       /\ (researchCardState r s = Some "Researching..."
           <-> researchReportIds s !! r = None)).
  { intros (Ha & Hb & Hc). split; [exact Ha|]. split; [exact Hb|].
    split; [exact Hc | exact Hplan]. }
  clear Hplan. unfold researchCardState.
  destruct (researchReportIds s !! r) as [q|] eqn:Hq.
  - destruct (rs_report s Hsound r q Hq) as [report Hreport].
    rewrite Hreport. split; [by eexists|]. split.
    + split.
      * intros Heq. exists q, report. repeat split; try done.
        by destruct (isStreaming report).
      * intros (q' & report' & Hq' & Hget & Hstr).
        injection Hq' as <-. rewrite Hreport in Hget. injection Hget as <-.
        by rewrite Hstr.
    + split; [|done]. by destruct (isStreaming report).
  - split; [by eexists|]. split; [|done].
    split; [done|]. by intros (q & report & Hq' & _).
Qed.

(** X10. The status line of a [ResearchCard] can always be computed after
    [sendMessage]: in the store [sendMessage] leaves (either store, any
    events, any ending), started from a store with sound bookkeeping, the
    read [messages.get(reportId)!.isStreaming] finds a message for every
    Research id; the line is "Report generated" exactly when the Research
    has a report message that is not streaming, and "Researching..." exactly
    when it has no report id.  For a recorded Research, [useResearchMessage]
    gives the stored plan message, which the title is read from, unless the
    plan id is the empty string. *)
Theorem researchCard_state_defined
    (E : Externals) (append : Message -> World -> Result)
    (update : Message -> World -> Result) (THREAD_ID : string)
    (messageContent : option string) (nanoid : string)
    (feedback : option string) (events : list ChatEvent) (streamFails : bool)
    (w : World)
    (Hfun : storeFunctions append update)
    (Hkeyed : keyed (store w))
    (Hfresh : is_Some messageContent -> nanoid ∉ messageIds (store w))
    (Hsound : ResearchSound (store w)) :
  let s' :=
    store
      (worldOf
         (sendMessageOver append update
            THREAD_ID messageContent nanoid feedback events streamFails w)) in
  forall researchId,
    is_Some (researchCardState researchId s')
    /\ (researchCardState researchId s' = Some "Report generated"
        <-> exists q report,
              researchReportIds s' !! researchId = Some q
              /\ JsMap.get q (messages s') = Some report
              /\ isStreaming report = false)
    /\ (researchCardState researchId s' = Some "Researching..."
        <-> researchReportIds s' !! researchId = None)
    /\ (researchId ∈ researchIds s' ->
        exists p plan,
          researchPlanIds s' !! researchId = Some p
          /\ JsMap.get p (messages s') = Some plan
          /\ useResearchMessage researchId s'
             = if truthy p then Some plan else None).
Proof.
  intros s' researchId. apply researchCardState_sound.
  by apply (sendMessage_sound append update).
Qed.

Lemma researchCard_state_defined_witness :
  @storeFunctions plainExternals (@ViewStore.appendMessage plainExternals)
    (@ViewStore.updateMessage plainExternals)
  /\ keyed (store (initialWorld "T"))
  /\ (is_Some (Some "Why is the sky blue?") ->
      "u" ∉ messageIds (store (initialWorld "T")))
  /\ ResearchSound (store (initialWorld "T"))
  /\ is_Some (researchCardState "m2" (store planned)).
Proof.
  assert (Hfun : @storeFunctions plainExternals
                   (@ViewStore.appendMessage plainExternals)
                   (@ViewStore.updateMessage plainExternals))
    by (right; split; reflexivity).
  assert (Hfresh : is_Some (Some "Why is the sky blue?") ->
                   "u" ∉ messageIds (store (initialWorld "T")))
    by (intros _ Hin; by apply elem_of_nil in Hin).
  split; [exact Hfun|]. split; [apply keyed_initial|].
  split; [exact Hfresh|]. split; [apply ResearchSound_initial|].
  exact (proj1 (researchCard_state_defined plainExternals _ _ "T"
                  (Some "Why is the sky blue?") "u" None
                  [startEvent "m1" "planner";
                   deltaEvent "m1" "planner" "{title: X}";
                   finishEvent "m1" "planner"]
                  false (initialWorld "T") Hfun (keyed_initial "T") Hfresh
                  (ResearchSound_initial "T") "m2")).
Defined.

Lemma podcast_messages_plain (E : Externals)
    (append : Message -> World -> Result) (message : Message) (w : World) :
  append = CoreStore.appendMessage \/ append = ViewStore.appendMessage ->
  agent message = None \/ agent message = Some "podcast" ->
  append message w = Returned (onStore (Store.appendMessage message) w).
Proof.
  intros Happ Hagent.
  assert (Hplain : agent message = None
                   \/ exists a,
                       agent message = Some a
                       /\ a ∉ ["coder"; "thinking"; "reporter"; "researcher";
                               "outline_writer"; "paper_writer";
                               "references_writer"]).
  { destruct Hagent as [Hnone|Hpod]; [by left|right].
    exists "podcast". split; [done|].
    apply (proj1 (bool_decide_eq_false _)). vm_compute. reflexivity. }
  destruct (appendMessage_plain E message w Hplain) as [Hcore Hview].
  by destruct Happ as [->| ->].
Qed.

(** X11. [listenToPodcast] on a recorded Research of a store with sound
    bookkeeping, in either store, throws exactly when the Research has a plan
    id and a report id that are both non-empty and the read of the title off
    the parsed plan throws; it has then changed nothing and called nothing.
    When it does not call [generatePodcast] it has changed nothing.  When it
    does, the title has been read off the plan message, the Research has a
    report message with content, which is what is sent; the store lists the
    two new ids after the old ones, and holds the podcast message under the
    second, streaming; and whenever the call settles, with an audio url or
    with an error, on a store that still holds that message, the message is
    written back with [isStreaming] false and its id kept, and no id is
    added. *)
Theorem listenToPodcast_on_recorded_research
    (E : Externals) (append : Message -> World -> Result)
    (planTitle : string -> PropertyRead)
    (podcastJSON : option string -> string -> PodcastExtra -> string)
    (THREAD_ID researchId nanoid1 nanoid2 : string) (w : World)
    (Happ : append = CoreStore.appendMessage \/ append = ViewStore.appendMessage)
    (Hsound : ResearchSound (store w))
    (Hin : researchId ∈ researchIds (store w)) :
  let out :=
    listenToPodcast append planTitle podcastJSON THREAD_ID researchId nanoid1
      nanoid2 w in
  (hasThrown (fst out) = true
   <-> exists p q plan,
         researchPlanIds (store w) !! researchId = Some p
         /\ researchReportIds (store w) !! researchId = Some q
         /\ truthy p = true /\ truthy q = true
         /\ getMessage p w = Some plan
         /\ planTitle (content plan) = ReadThrows)
  /\ (snd out = None -> worldOf (fst out) = w)
  /\ (forall request, snd out = Some request ->
        let w' := worldOf (fst out) in
        fst out = Returned w'
        /\ (exists p plan,
               researchPlanIds (store w) !! researchId = Some p
               /\ getMessage p w = Some plan
               /\ planTitle (content plan) = ReadGives (podcastTitle request))
        /\ (exists q report,
               researchReportIds (store w) !! researchId = Some q
               /\ getMessage q w = Some report
               /\ truthy (content report) = true
               /\ reportContent request = content report)
        /\ podCastMessageId request = nanoid2
        /\ messageIds (store w') = messageIds (store w) ++ [nanoid1; nanoid2]
        /\ (exists m, getMessage nanoid2 w' = Some m
                      /\ agent m = Some "podcast" /\ isStreaming m = true)
        /\ (forall outcome s,
              is_Some (JsMap.get nanoid2 (messages s)) ->
              keyed s ->
              exists s' m',
                listenToPodcast_settled podcastJSON request outcome s = Some s'
                /\ messageIds s' = messageIds s
                /\ JsMap.get nanoid2 (messages s') = Some m'
                /\ id m' = nanoid2
                /\ isStreaming m' = false)).
Proof.
  intros out. subst out. unfold listenToPodcast.
  destruct (rs_plan _ Hsound researchId Hin) as (p & Hp & [plan Hplan]).
  change (JsMap.get p (messages (store w))) with (getMessage p w) in Hplan.
  rewrite Hp.
  destruct (researchReportIds (store w) !! researchId) as [q|] eqn:Hq.
  2: { cbn. split; [split; [done|]|by split; [|intros ? [=]]].
       by intros (p' & q' & plan' & _ & [=] & _). }
  destruct (truthy p && truthy q) eqn:Hpq.
  2: { cbn. split; [split; [done|]|by split; [|intros ? [=]]].
       intros (p' & q' & plan' & [= <-] & [= <-] & Htp & Htq & _).
       by rewrite Htp, Htq in Hpq. }
  apply andb_true_iff in Hpq as [Htp Htq].
  rewrite Hplan.
  destruct (planTitle (content plan)) as [|title] eqn:Htitle.
  { cbn. split; [split; [|done]|by split; [|intros ? [=]]].
    intros _. by exists p, q, plan. }
  assert (Hnot : ~ exists p0 q0 plan0,
               Some p = Some p0 /\ Some q = Some q0
               /\ truthy p0 = true /\ truthy q0 = true
               /\ getMessage p0 w = Some plan0
               /\ planTitle (content plan0) = ReadThrows).
  { intros (p' & q' & plan' & [= <-] & _ & _ & _ & Hget & Hthrows).
    rewrite Hplan in Hget. injection Hget as <-. congruence. }
  destruct (getMessage q w) as [report|] eqn:Hreport.
  2: { cbn. split; [split; [done | by intros ?]|by split; [|intros ? [=]]]. }
  destruct (truthy (content report)) eqn:Hcontent.
  2: { cbn. split; [split; [done | by intros ?]|by split; [|intros ? [=]]]. }
  rewrite (podcast_messages_plain E append _ w Happ) by (by left).
  rewrite (podcast_messages_plain E append _ _ Happ) by (by right).
  cbn [fst snd hasThrown worldOf].
  split; [split; [done | by intros ?]|]. split; [done|].
  intros request [= <-]. cbn [podCastMessageId reportContent podcastTitle].
  split; [done|]. split; [by exists p, plan|].
  split; [by exists q, report|]. split; [done|]. split.
  { simpl. by rewrite <- app_assoc. }
  split.
  { eexists. split; [apply JsMap_get_set_eq|]. by split. }
  intros outcome s [m Hm] Hkeyed.
  unfold listenToPodcast_settled. cbn [podCastMessageId]. rewrite Hm.
  eexists _, _. split; [reflexivity|]. split; [done|].
  split; [apply JsMap_get_set_eq|]. split; [|done].
  simpl. apply Hkeyed. by apply JsMap_get_elem_of.
Qed.

Lemma reported_sound : ResearchSound (store reported).
Proof.
  apply (@sendMessage_sound plainExternals ViewStore.appendMessage
           ViewStore.updateMessage).
  - right. split; reflexivity.
  - apply keyed_initial.
  - by intros [? ?].
  - apply ResearchSound_initial.
Qed.

Lemma listenToPodcast_on_recorded_research_witness :
  ResearchSound (store reported)
  /\ "m2" ∈ researchIds (store reported)
  /\ messageIds
       (store
          (worldOf
             (fst (listenToPodcast (@ViewStore.appendMessage plainExternals)
                     (fun _ => ReadGives (Some "X"))
                     (fun _ researchId _ => researchId)
                     "T" "m2" "n1" "n2" reported))))
     = messageIds (store reported) ++ ["n1"; "n2"].
Proof.
  assert (Hin : "m2" ∈ researchIds (store reported)).
  { assert (Hids : researchIds (store reported) = ["m2"])
      by (vm_compute; reflexivity).
    rewrite Hids. apply list_elem_of_here. }
  split; [apply reported_sound|]. split; [exact Hin|].
  destruct (snd (listenToPodcast (@ViewStore.appendMessage plainExternals)
                   (fun _ => ReadGives (Some "X"))
                   (fun _ researchId _ => researchId)
                   "T" "m2" "n1" "n2" reported)) as [request|] eqn:Hrequest;
    [|vm_compute in Hrequest; discriminate].
  exact (proj1 (proj2 (proj2 (proj2 (proj2
           (proj2 (proj2 (listenToPodcast_on_recorded_research plainExternals
                            (@ViewStore.appendMessage plainExternals)
                            (fun _ => ReadGives (Some "X"))
                            (fun _ researchId _ => researchId)
                            "T" "m2" "n1" "n2"
                            reported (or_intror eq_refl) reported_sound Hin))
              request Hrequest)))))).
Defined.

(** ** Relations kept by every step of the stores

    A reflexive and transitive relation between worlds that holds across
    [appendMessage], [updateMessage] and the store's own writes holds
    across [sendMessage]. *)
Section KeptByCalls.
Context `{Externals}.
Variable R : World -> World -> Prop.
Variable append : Message -> World -> Result.
Variable update : Message -> World -> Result.
Hypothesis Hfun : storeFunctions append update.
Hypothesis R_refl : forall w, R w w.
Hypothesis R_trans : forall w1 w2 w3, R w1 w2 -> R w2 w3 -> R w1 w3.
Hypothesis R_append_call :
  forall message w, R w (worldOf (append message w)).
Hypothesis R_update_call :
  forall message w, R w (worldOf (update message w)).
Hypothesis R_append :
  forall message w, R w (onStore (Store.appendMessage message) w).
Hypothesis R_marker : forall w, R w (onStore (Store.setOngoingResearch None) w).
Hypothesis R_stopped :
  forall i message w,
    R w (onStore
           (fun s =>
              Store.updateMessage message
                (set_messages (JsMap.set i message (messages s)) s))
           w).
Hypothesis R_responding : forall value w, R w (setResponding value w).

Lemma calls_keep_iteration (feedback : option string) (event : ChatEvent)
    (w : World) :
  R w
    (worldOf
       (streamIteration append update
          feedback event w)).
Proof.
  unfold streamIteration.
  destruct (String.eqb (ev_type event) "tool_call_result"); simpl.
  - destruct (findMessageByToolCallId (ev_tool_call_id event) w) as [m|];
      [|destruct (getMessage (ev_id event) w) as [m|]]; simpl;
      try apply R_refl; apply R_update_call.
  - destruct (existsMessage (ev_id event) w); simpl.
    + destruct (getMessage (ev_id event) w) as [m|]; simpl;
        [apply R_update_call | apply R_refl].
    + match goal with |- context [append ?m w] =>
        pose proof (R_append_call m w) as Happ;
        destruct (append m w) as [w1|w1]
      end; simpl in *; [|done].
      apply (R_trans _ _ _ Happ), R_update_call.
Qed.

Lemma calls_keep_loop (feedback : option string) (events : list ChatEvent)
    (messageId : option string) (w : World) :
  R w
    (worldOf
       (fst (streamLoop append update
               feedback events messageId w))).
Proof.
  revert messageId w.
  induction events as [|event rest IH]; intros messageId w; simpl;
    [apply R_refl|].
  pose proof (calls_keep_iteration feedback event w) as Hstep.
  destruct (streamIteration _ _ feedback event w) as [w'|w']; simpl in *.
  - apply (R_trans _ _ _ Hstep), IH.
  - done.
Qed.

Lemma calls_keep_catchBlock (messageId : option string) (w : World) :
  R w (catchBlock messageId w).
Proof.
  unfold catchBlock.
  set (w1 := match messageId with Some _ => _ | None => w end).
  apply (R_trans _ w1); [|apply R_marker].
  subst w1. destruct messageId as [i|]; [|apply R_refl].
  destruct (getMessage i w) as [message|]; [|apply R_refl].
  destruct (isStreaming message); [apply R_stopped | apply R_refl].
Qed.

Lemma calls_keep_sendMessage (THREAD_ID : string)
    (messageContent : option string) (nanoid : string)
    (feedback : option string) (events : list ChatEvent) (streamFails : bool)
    (w : World) :
  R w
    (worldOf
       (sendMessageOver append update
          THREAD_ID messageContent nanoid feedback events streamFails w)).
Proof.
  rewrite (sendMessage_returns append update) by exact Hfun.
  cbn [worldOf]. unfold sendMessageReturns.
  set (w0 := match messageContent with Some _ => _ | None => w end).
  assert (Hw0 : R w (setResponding true w0)).
  { apply (R_trans _ w0); [|apply R_responding].
    subst w0. destruct messageContent; [apply R_append | apply R_refl]. }
  pose proof (calls_keep_loop feedback events None (setResponding true w0))
    as Hloop.
  destruct (streamLoop append _ feedback events None (setResponding true w0))
    as [[w1|w1] messageId]; cbn [fst snd worldOf] in *;
    apply (R_trans _ _ _ Hw0), (R_trans _ _ _ Hloop).
  - apply (R_trans _ (if streamFails then catchBlock messageId w1 else w1));
      [|apply R_responding].
    destruct streamFails; [apply calls_keep_catchBlock | apply R_refl].
  - apply (R_trans _ (catchBlock messageId w1));
      [apply calls_keep_catchBlock | apply R_responding].
Qed.
End KeptByCalls.

(** Such a relation holds across [appendMessage] and [updateMessage] of both
    stores when it holds across the Research step, the commit blocks and
    the store's own writes. *)
Section KeptByStoreCalls.
Context `{Externals}.
Variable R : World -> World -> Prop.
Hypothesis R_refl : forall w, R w w.
Hypothesis R_trans : forall w1 w2 w3, R w1 w2 -> R w2 w3 -> R w1 w3.
Hypothesis R_research :
  forall message w, R w (worldOf (researchStepCases message w)).
Hypothesis R_blocks : forall message w w', BlocksFrame message w w' -> R w w'.
Hypothesis R_append :
  forall message w, R w (onStore (Store.appendMessage message) w).
Hypothesis R_update :
  forall message w, R w (onStore (Store.updateMessage message) w).
Hypothesis R_marker : forall w, R w (onStore (Store.setOngoingResearch None) w).
Hypothesis R_stopped :
  forall i message w,
    R w (onStore
           (fun s =>
              Store.updateMessage message
                (set_messages (JsMap.set i message (messages s)) s))
           w).
Hypothesis R_responding : forall value w, R w (setResponding value w).

Variable append : Message -> World -> Result.
Variable update : Message -> World -> Result.
Hypothesis Hfun : storeFunctions append update.



End KeptByStoreCalls.

(** ** The final paper *)




(** ** Timers and requests *)

Lemma TasksBudget_refl (w : World) : TasksBudget w w.
Proof.
  exists [], []. rewrite app_nil_r. repeat split; [constructor | simpl; lia].
Qed.

Lemma TasksBudget_trans (w1 w2 w3 : World) :
  TasksBudget w1 w2 -> TasksBudget w2 w3 -> TasksBudget w1 w3.
Proof.
  intros (a & g & Hc & Ht & Hs & Hl) (a' & g' & Hc' & Ht' & Hs' & Hl').
  exists (a ++ a'), (g ++ g'). split; [|split; [|split]].
  - by rewrite Hc', Hc, app_assoc.
  - by rewrite Ht, Ht', app_assoc.
  - by apply sublist_app.
  - rewrite length_app. lia.
Qed.

Section RunTasks.
Variable callback : string -> World -> World.
Variable settled : string -> FetchOutcome -> string -> State -> State.
Hypothesis callback_cases :
  forall threadId w,
    callback threadId w = w \/ callback threadId w = fetchFinalPaper threadId w.
Hypothesis callback_present :
  forall threadId w,
    is_Some (finalPaper (store w)) -> callback threadId w = w.
Hypothesis settled_present :
  forall threadId outcome nanoid s,
    is_Some (finalPaper s) ->
    is_Some (finalPaper (settled threadId outcome nanoid s)).

Lemma runTask_budget (task : Task) (w : World) :
  TasksBudget w (runTask callback settled task w).
Proof.
  destruct task as [|k outcome nanoid]; simpl.
  - destruct (timers w) as [|threadId rest] eqn:Htimers;
      [apply TasksBudget_refl|].
    destruct (callback_cases threadId
                (mkWorld (store w) rest (inflight w) (fetchCalls w)))
      as [-> | ->].
    + exists [], [threadId]. simpl. rewrite app_nil_r, Htimers.
      repeat split; [apply sublist_nil_l | lia].
    + exists [threadId], [threadId]. simpl. rewrite Htimers.
      repeat split; [done | rewrite length_app; simpl; lia].
  - destruct (inflight w !! k) as [threadId|] eqn:Hk;
      [|apply TasksBudget_refl].
    exists [], []. simpl. rewrite app_nil_r.
    repeat split; [constructor|].
    rewrite length_delete by by eexists. lia.
Qed.

Lemma runTasks_budget (tasks : list Task) (w : World) :
  TasksBudget w (runTasks callback settled tasks w).
Proof.
  revert w. induction tasks as [|task rest IH]; intros w;
    [apply TasksBudget_refl|].
  rewrite runTasks_cons.
  apply (TasksBudget_trans _ _ _ (runTask_budget task w)), IH.
Qed.

Lemma runTasks_present (tasks : list Task) (w : World) :
  is_Some (finalPaper (store w)) ->
  fetchCalls (runTasks callback settled tasks w) = fetchCalls w
  /\ is_Some (finalPaper (store (runTasks callback settled tasks w))).
Proof.
  revert w. induction tasks as [|task rest IH]; intros w Hsome; [done|].
  rewrite runTasks_cons.
  assert (Hstep : fetchCalls (runTask callback settled task w) = fetchCalls w
                  /\ is_Some (finalPaper
                                (store (runTask callback settled task w)))).
  { destruct task as [|k outcome nanoid]; simpl.
    - destruct (timers w) as [|threadId pending]; [done|].
      by rewrite callback_present.
    - destruct (inflight w !! k) as [threadId|]; [|done].
      simpl. split; [done|]. by apply settled_present. }
  destruct Hstep as [Hcalls Hstill].
  destruct (IH _ Hstill) as [Hrest Hfinal]. split; [congruence | done].
Qed.
End RunTasks.

Lemma CoreStore_shouldFetch_present `{Externals} (state : State) :
  is_Some (finalPaper state) ->
  CoreStore.shouldFetch (CoreStore.locals state) = false.
Proof.
  intros Hsome. unfold CoreStore.shouldFetch. simpl.
  rewrite (bool_decide_eq_true_2 _ Hsome). simpl. apply andb_false_r.
Qed.

Lemma fetchFailed_present (error : ThrownValue) (s : State) :
  is_Some (finalPaper s) -> is_Some (finalPaper (fetchFailed error s)).
Proof. done. Qed.

(** X13. Running tasks of the event loop, in either store, never arms a
    timer: the timers left are the armed ones without a consumed prefix.
    Every call of the fetch it adds is for a timer it consumed, in the order
    consumed, so the calls added are at most the timers consumed; and the
    pending requests are at most the old ones and the new calls.  Once the
    final paper is in the state, no run of tasks calls the fetch, and the
    paper stays in the state, whether requests resolve or fail. *)
Theorem tasks_fetch_only_for_consumed_timers :
  forall (E : Externals) (tasks : list Task) (w : World),
    let bounded (w' : World) :=
      (exists added gone,
          fetchCalls w' = fetchCalls w ++ added
          /\ timers w = gone ++ timers w'
          /\ sublist added gone
          /\ List.length added <= List.length gone
          /\ List.length (inflight w')
             <= List.length (inflight w) + List.length added)
      /\ (is_Some (finalPaper (store w)) ->
          fetchCalls w' = fetchCalls w /\ is_Some (finalPaper (store w'))) in
    bounded (CoreStore.runTasks tasks w) /\ bounded (ViewStore.runTasks tasks w).
Proof.
  intros E tasks w bounded. subst bounded. cbv beta.
  unfold CoreStore.runTasks, ViewStore.runTasks.
  assert (Hcore : forall threadId w0,
             CoreStore.checkAndFetchFinalPaper_callback threadId w0 = w0
             \/ CoreStore.checkAndFetchFinalPaper_callback threadId w0
                = fetchFinalPaper threadId w0).
  { intros threadId w0. rewrite CoreStore_callback_cases.
    destruct (CoreStore.shouldFetch _); [by right | by left]. }
  assert (Hview : forall threadId w0,
             ViewStore.checkAndFetchFinalPaper_callback threadId w0 = w0
             \/ ViewStore.checkAndFetchFinalPaper_callback threadId w0
                = fetchFinalPaper threadId w0).
  { intros threadId w0. rewrite ViewStore_callback_cases.
    destruct (ViewStore.shouldFetch _); [by right | by left]. }
  split; (split; [|intros Hsome]).
  - destruct (runTasks_budget _ CoreStore.fetchFinalPaper_settled Hcore tasks w)
      as (added & gone & Hc & Ht & Hs & Hl).
    exists added, gone. repeat split; try done. by apply sublist_length.
  - apply runTasks_present; [| |done].
    + intros threadId w0 Hp. rewrite CoreStore_callback_cases.
      by rewrite CoreStore_shouldFetch_present.
    + intros threadId outcome nanoid s Hp. destruct outcome; simpl; [by eexists | done].
  - destruct (runTasks_budget _ ViewStore.fetchFinalPaper_settled Hview tasks w)
      as (added & gone & Hc & Ht & Hs & Hl).
    exists added, gone. repeat split; try done. by apply sublist_length.
  - apply runTasks_present; [| |done].
    + intros threadId w0 Hp. by apply ViewStore_callback_present.
    + intros threadId outcome nanoid s Hp. destruct outcome; simpl; [|done].
      destruct (truthy (final_paper response)); by eexists.
Qed.



(** ** A stream that breaks *)

Lemma catchBlock_stops (i : string) (w : World) :
  match getMessage i w with
  | Some before =>
      exists after,
        getMessage i (catchBlock (Some i) w) = Some after
        /\ isStreaming after = false
        /\ id after = id before
        /\ agent after = agent before
        /\ content after = content before
        /\ toolCalls after = toolCalls before
  | None => getMessage i (catchBlock (Some i) w) = None
  end.
Proof.
  unfold catchBlock. destruct (getMessage i w) as [before|] eqn:Hget; [|done].
  destruct (isStreaming before) eqn:Hstreaming.
  - unfold getMessage. simpl.
    destruct (decide (id before = i)) as [Heq|Hne].
    + eexists. split; [rewrite Heq; apply JsMap_get_set_eq|]. by repeat split.
    + eexists. split.
      { rewrite JsMap_get_set_ne by done. apply JsMap_get_set_eq. }
      by repeat split.
  - exists before. by repeat split.
Qed.

Lemma catchBlock_others (i k : string) (w : World) :
  keyed (store w) -> k <> i ->
  getMessage k (catchBlock (Some i) w) = getMessage k w.
Proof.
  intros Hkeyed Hne. unfold catchBlock.
  destruct (getMessage i w) as [before|] eqn:Hget; [|done].
  destruct (isStreaming before); [|done].
  assert (Hid : id before = i) by (by apply Hkeyed, JsMap_get_elem_of).
  unfold getMessage. simpl. rewrite Hid.
  by rewrite !JsMap_get_set_ne.
Qed.

Lemma streamLoop_last `{Externals} (append updated : Message -> World -> Result)
    (feedback : option string) (events : list ChatEvent)
    (messageId : option string) (w : World) :
  let looped := streamLoop append updated feedback events messageId w in
  (events = [] -> snd looped = messageId)
  /\ (forall event, last events = Some event ->
                    hasThrown (fst looped) = false ->
                    snd looped = Some (ev_id event))
  /\ (events <> [] -> exists event, event ∈ events
                                   /\ snd looped = Some (ev_id event)).
Proof.
  revert messageId w. induction events as [|event rest IH];
    intros messageId w; simpl.
  - split; [done|]. split; [done|]. by intros [].
  - split; [done|].
    destruct (streamIteration append updated feedback event w) as [w'|w'];
      simpl.
    + destruct (IH (Some (ev_id event)) w') as (Hnil & Hlast & Hsome).
      split.
      * intros final Hfinal Hreturned.
        destruct rest as [|next rest'].
        -- injection Hfinal as <-. by apply Hnil.
        -- by apply Hlast.
      * intros _. destruct rest as [|next rest'].
        -- exists event. split; [apply list_elem_of_here | by apply Hnil].
        -- destruct Hsome as (e & He & Hsnd); [done|].
           exists e. split; [by apply list_elem_of_further | done].
    + split; [done|]. intros _. exists event.
      split; [apply list_elem_of_here | done].
Qed.

(** X14. When the stream breaks, or a call in the loop throws, the message
    whose increment was the last one taken from the stream is left not
    streaming, with its id, agent, content and tool calls as they were; it is
    the message named by the id of that increment (for a stream that breaks
    after its last increment, the id of the last increment), also when the
    increment was a tool-call result merged into another message.  In a
    store whose messages sit under their own ids, no other message is changed
    by the handling of the failure.  This holds for both stores. *)
Theorem broken_stream_stops_last_message
    (E : Externals) (append : Message -> World -> Result)
    (update : Message -> World -> Result) (THREAD_ID : string)
    (messageContent : option string) (nanoid : string)
    (feedback : option string) (events : list ChatEvent) (streamFails : bool)
    (w : World)
    (Hfun : storeFunctions append update) :
  let w0 :=
    match messageContent with
    | Some text =>
        onStore (Store.appendMessage (userMessage THREAD_ID nanoid text)) w
    | None => w
    end in
  let looped :=
    streamLoop append update feedback events None (setResponding true w0) in
  let w' :=
    worldOf
      (sendMessageOver append update THREAD_ID messageContent nanoid feedback
         events streamFails w) in
  (streamFails = true \/ hasThrown (fst looped) = true ->
   forall i,
     snd looped = Some i ->
     match getMessage i (worldOf (fst looped)) with
     | Some before =>
         exists after,
           getMessage i w' = Some after
           /\ isStreaming after = false
           /\ id after = id before
           /\ agent after = agent before
           /\ content after = content before
           /\ toolCalls after = toolCalls before
     | None => getMessage i w' = None
     end)
  /\ (keyed (store (worldOf (fst looped))) ->
      forall k, snd looped <> Some k ->
                getMessage k w' = getMessage k (worldOf (fst looped)))
  /\ (forall event, last events = Some event ->
                    hasThrown (fst looped) = false ->
                    snd looped = Some (ev_id event))
  /\ (events <> [] -> exists event, event ∈ events
                                   /\ snd looped = Some (ev_id event)).
Proof.
  intros w0 looped w'.
  split; [|split;
           [|apply (streamLoop_last append update feedback events None
                      (setResponding true w0))]].
  - intros Hfails i Hi. subst w'.
    rewrite (sendMessage_returns append update) by done.
    cbn [worldOf]. unfold sendMessageReturns.
    fold w0. fold looped. rewrite Hi.
    destruct (fst looped) as [w1|w1] eqn:Hloop; cbn [worldOf hasThrown] in *.
    + destruct Hfails as [->|?]; [|done].
      apply (catchBlock_stops i w1).
    + apply (catchBlock_stops i w1).
  - intros Hkeyed k Hk. subst w'.
    rewrite (sendMessage_returns append update) by done.
    cbn [worldOf]. unfold sendMessageReturns.
    fold w0. fold looped.
    assert (Hcatch : forall w1,
               keyed (store w1) ->
               getMessage k (catchBlock (snd looped) w1) = getMessage k w1).
    { intros w1 Hk1. destruct (snd looped) as [i|]; [|done].
      apply catchBlock_others; [done|]. by intros ->. }
    destruct (fst looped) as [w1|w1]; cbn [worldOf] in *.
    + destruct streamFails; [|done]. by apply Hcatch.
    + by apply Hcatch.
Qed.

Lemma broken_stream_stops_last_message_witness :
  @storeFunctions plainExternals (@ViewStore.appendMessage plainExternals)
    (@ViewStore.updateMessage plainExternals)
  /\ exists after,
      getMessage "m1"
        (worldOf
           (@ViewStore.sendMessage plainExternals "T" (Some "Hi") "u" None
              [startEvent "m1" "planner"; deltaEvent "m1" "planner" "{tit"]
              true (initialWorld "T")))
      = Some after
      /\ isStreaming after = false.
Proof.
  assert (Hfun : @storeFunctions plainExternals
                   (@ViewStore.appendMessage plainExternals)
                   (@ViewStore.updateMessage plainExternals))
    by (right; split; reflexivity).
  split; [exact Hfun|].
  pose proof (proj1 (broken_stream_stops_last_message plainExternals _ _ "T"
                       (Some "Hi") "u" None
                       [startEvent "m1" "planner";
                        deltaEvent "m1" "planner" "{tit"]
                       true (initialWorld "T") Hfun)
                (or_introl eq_refl) "m1" eq_refl) as Hstops.
  vm_compute in Hstops. destruct Hstops as (after & Hget & Hstr & _).
  exists after. split; [|exact Hstr].
  vm_compute. exact Hget.
Defined.

(** [updateMessage] throws through the [paper_writer] block only. *)
Lemma updateMessage_throws `{Externals} (append : Message -> World -> Result)
    (update : Message -> World -> Result) (message : Message) (w : World) :
  storeFunctions append update ->
  hasThrown (update message w) = commitThrows message
  /\ (commitThrows message = true -> update message w = Thrown w).
Proof.
  intros Hfun.
  destruct (updateMessage_cases append update message w Hfun)
    as (blocks & _ & ->).
  by destruct (commitThrows message).
Qed.

Lemma streamIteration_throws `{Externals}
    (append : Message -> World -> Result) (update : Message -> World -> Result)
    (feedback : option string) (event : ChatEvent) (w : World) :
  storeFunctions append update ->
  let thrown := hasThrown (streamIteration append update feedback event w) in
  let fresh := incrementMessage feedback event in
  (String.eqb (ev_type event) "tool_call_result" = true ->
   (thrown = true
    <-> exists m,
          (findMessageByToolCallId (ev_tool_call_id event) w = Some m
           \/ (findMessageByToolCallId (ev_tool_call_id event) w = None
               /\ getMessage (ev_id event) w = Some m))
          /\ commitThrows (mergeMessage m event) = true))
  /\ (String.eqb (ev_type event) "tool_call_result" = false ->
      existsMessage (ev_id event) w = true ->
      (thrown = true
       <-> exists m,
             getMessage (ev_id event) w = Some m
             /\ commitThrows (mergeMessage m event) = true))
  /\ (String.eqb (ev_type event) "tool_call_result" = false ->
      existsMessage (ev_id event) w = false ->
      (thrown = true
       <-> hasThrown (append fresh w) = true
           \/ commitThrows (mergeMessage fresh event) = true)).
Proof.
  intros Hfun thrown fresh. subst thrown fresh. unfold streamIteration.
  change (mkMessage (ev_id event) (ev_thread_id event) (ev_role event)
            (ev_agent event) "" [] None true None feedback)
    with (incrementMessage feedback event).
  assert (Hup : forall m w0,
             hasThrown (update m w0) = commitThrows m).
  { intros m w0. apply (updateMessage_throws append update m w0 Hfun). }
  split; [|split].
  - intros ->. simpl.
    destruct (findMessageByToolCallId (ev_tool_call_id event) w) as [owner|];
      simpl.
    + rewrite Hup. split.
      * intros Hthrows. exists owner. auto.
      * by intros (m & [[= <-]|[[=] _]] & Hthrows).
    + destruct (getMessage (ev_id event) w) as [stored|]; simpl.
      * rewrite Hup. split.
        -- intros Hthrows. exists stored. auto.
        -- by intros (m & [[=]|[_ [= <-]]] & Hthrows).
      * split; [done|]. by intros (m & [[=]|[_ [=]]] & _).
  - intros -> ->. simpl.
    destruct (getMessage (ev_id event) w) as [stored|]; simpl.
    + rewrite Hup. split.
      * intros Hthrows. by exists stored.
      * by intros (m & [= <-] & Hthrows).
    + split; [done|]. by intros (m & [=] & _).
  - intros -> ->. simpl.
    destruct (append (incrementMessage feedback event) w) as [w1|w1]; simpl.
    + rewrite Hup. split; [auto|]. by intros [?|?].
    + split; auto.
Qed.

Lemma streamLoop_thrown `{Externals} (append updated : Message -> World -> Result)
    (feedback : option string) (events rest : list ChatEvent)
    (messageId : option string) (w : World) :
  hasThrown (fst (streamLoop append updated feedback events messageId w)) = true ->
  streamLoop append updated feedback (events ++ rest) messageId w
  = streamLoop append updated feedback events messageId w.
Proof.
  revert messageId w. induction events as [|event more IH];
    intros messageId w; simpl; [done|].
  destruct (streamIteration append updated feedback event w) as [w'|w'];
    [apply IH | done].
Qed.

(** X15. [updateMessage] of either store throws exactly for a committed
    [paper_writer] message whose parse cannot be read, and then leaves the
    world as it was.  In [sendMessage], taking an increment throws exactly
    when [appendMessage] throws on the message built for it (the increment is
    no tool-call result and its id is not listed), or [updateMessage] throws
    on the message the increment has been merged into: the owner of the tool
    call or else the stored message of the increment's id for a tool-call
    result, the stored message for a listed id, the message just appended
    for a new one.  Once an increment has thrown, the rest of the stream is
    not read: the call gives the same result as for the stream cut after
    that increment, whether or not the stream itself would have broken. *)
Theorem throwing_increment_ends_response
    (E : Externals) (append : Message -> World -> Result)
    (update : Message -> World -> Result)
    (Hfun : storeFunctions append update) :
  (forall message w,
      (hasThrown (update message w) = true
       <-> agent message = Some "paper_writer" /\ isStreaming message = false
           /\ section_content (content message) = ReadThrows)
      /\ (hasThrown (update message w) = true -> update message w = Thrown w))
  /\ (forall feedback event w,
        let thrown :=
          hasThrown (streamIteration append update feedback event w) in
        let fresh := incrementMessage feedback event in
        (String.eqb (ev_type event) "tool_call_result" = true ->
         (thrown = true
          <-> exists m,
                (findMessageByToolCallId (ev_tool_call_id event) w = Some m
                 \/ (findMessageByToolCallId (ev_tool_call_id event) w = None
                     /\ getMessage (ev_id event) w = Some m))
                /\ hasThrown (update (mergeMessage m event) w) = true))
        /\ (String.eqb (ev_type event) "tool_call_result" = false ->
            existsMessage (ev_id event) w = true ->
            (thrown = true
             <-> exists m,
                   getMessage (ev_id event) w = Some m
                   /\ hasThrown (update (mergeMessage m event) w) = true))
        /\ (String.eqb (ev_type event) "tool_call_result" = false ->
            existsMessage (ev_id event) w = false ->
            (thrown = true
             <-> hasThrown (append fresh w) = true
                 \/ hasThrown
                      (update (mergeMessage fresh event)
                         (worldOf (append fresh w))) = true)))
  /\ (forall THREAD_ID messageContent nanoid feedback events rest streamFails
             streamFails' w,
        let w0 :=
          match messageContent with
          | Some text =>
              onStore (Store.appendMessage (userMessage THREAD_ID nanoid text)) w
          | None => w
          end in
        hasThrown
          (fst (streamLoop append update feedback events None
                  (setResponding true w0))) = true ->
        sendMessageOver append update THREAD_ID messageContent nanoid feedback
          (events ++ rest) streamFails w
        = sendMessageOver append update THREAD_ID messageContent nanoid
            feedback events streamFails' w).
Proof.
  assert (Hup : forall m w0,
             hasThrown (update m w0) = commitThrows m).
  { intros m w0. apply (updateMessage_throws append update m w0 Hfun). }
  split; [|split].
  - intros message w.
    destruct (updateMessage_throws append update message w Hfun)
      as [Hthrows Hsame].
    rewrite Hthrows. split; [|done]. split; [apply commitThrows_agent|].
    intros (Hagent & Hcommit & Hread). unfold commitThrows, readThrows.
    known_agent Hagent. by rewrite Hcommit, Hread.
  - intros feedback event w thrown fresh. subst thrown fresh.
    pose proof (streamIteration_throws append update feedback event w Hfun)
      as Hthrows.
    cbv zeta in Hthrows. destruct Hthrows as (Hresult & Hlisted & Hnew).
    split; [|split].
    + intros Htype. rewrite (Hresult Htype).
      split; intros (m & Hm & Hthrows); exists m; by rewrite Hup in *.
    + intros Htype Hexists. rewrite (Hlisted Htype Hexists).
      split; intros (m & Hm & Hthrows); exists m; by rewrite Hup in *.
    + intros Htype Hexists. rewrite (Hnew Htype Hexists). by rewrite Hup.
  - intros THREAD_ID messageContent nanoid feedback events rest streamFails
      streamFails' w w0 Hthrown.
    rewrite !(sendMessage_returns append update) by done.
    unfold sendMessageReturns. fold w0.
    rewrite (streamLoop_thrown append update feedback events rest None
               (setResponding true w0) Hthrown).
    by destruct (fst (streamLoop append update feedback events None
                        (setResponding true w0))).
Qed.

Lemma throwing_increment_ends_response_witness :
  @storeFunctions plainExternals (@CoreStore.appendMessage plainExternals)
    (@CoreStore.updateMessage plainExternals)
  /\ @CoreStore.sendMessage plainExternals "T" (Some "Hi") "u" None
       ([startEvent "m2" "researcher"] ++ [finishEvent "m2" "researcher"])
       false (initialWorld "T")
     = @CoreStore.sendMessage plainExternals "T" (Some "Hi") "u" None
         [startEvent "m2" "researcher"] true (initialWorld "T").
Proof.
  assert (Hfun : @storeFunctions plainExternals
                   (@CoreStore.appendMessage plainExternals)
                   (@CoreStore.updateMessage plainExternals))
    by (left; split; reflexivity).
  split; [exact Hfun|].
  apply (proj2 (proj2 (throwing_increment_ends_response plainExternals _ _ Hfun))
           "T" (Some "Hi") "u" None [startEvent "m2" "researcher"]
           [finishEvent "m2" "researcher"] false true (initialWorld "T")).
  vm_compute. reflexivity.
Defined.

(** ** Which commit arms the check *)

Lemma researchStepCases_paper (message : Message) (w : World) :
  let w' := worldOf (researchStepCases message w) in
  timers w' = timers w
  /\ paperSections (store w') = paperSections (store w)
  /\ paperOutlineId (store w') = paperOutlineId (store w)
  /\ completedPaperId (store w') = completedPaperId (store w).
Proof.
  unfold researchStepCases.
  destruct (truthyOpt (getOngoingResearchId w)).
  - destruct (getOngoingResearchId w) as [r|]; [|done].
    by destruct (researchActivityIds (store w) !! r).
  - destruct (findPlanMessage _ _) as [planMessage|]; [|done].
    simpl. unfold researchStarted.
    by destruct (truthy (id message) && agentIs "reporter" message).
Qed.

Lemma coreCommitBlocks_timers `{Externals} (message : Message) (w : World) :
  timers (coreCommitBlocks message w)
  = timers w
    ++ (if agentIs "paper_writer" message && negb (isStreaming message)
        then [threadId message] else []).
Proof.
  unfold coreCommitBlocks.
  destruct (agentIs "outline_writer" message && negb (isStreaming message));
    destruct (agentIs "paper_writer" message && negb (isStreaming message));
    simpl; by rewrite ?app_nil_r.
Qed.

Lemma viewCommitBlocks_timers `{Externals} (message : Message) (w : World) :
  timers (viewCommitBlocks message w)
  = timers w
    ++ (if agentIs "references_writer" message && negb (isStreaming message)
        then [threadId message] else []).
Proof.
  unfold viewCommitBlocks.
  destruct (agentIs "outline_writer" message && negb (isStreaming message));
    destruct (agentIs "paper_writer" message && negb (isStreaming message));
    destruct (agentIs "references_writer" message && negb (isStreaming message));
    simpl; by rewrite ?app_nil_r.
Qed.

Lemma commitBlocks_streaming `{Externals} (message : Message) (w : World) :
  isStreaming message = true ->
  coreCommitBlocks message w = w /\ viewCommitBlocks message w = w.
Proof.
  intros Hstreaming. unfold coreCommitBlocks, viewCommitBlocks.
  by rewrite Hstreaming, !andb_false_r.
Qed.

Lemma reporterCommitted_paper (message : Message) (w : World) :
  timers (reporterCommitted message w) = timers w
  /\ paperSections (store (reporterCommitted message w))
     = paperSections (store w)
  /\ paperOutlineId (store (reporterCommitted message w))
     = paperOutlineId (store w)
  /\ completedPaperId (store (reporterCommitted message w))
     = completedPaperId (store w).
Proof. unfold reporterCommitted. by destruct (_ && _ && _ && _). Qed.

(** X16. A re-evaluation is armed by a committed message of one agent only,
    once, for the thread of the message: [paper_writer] in
    [src/src/core/store/store.ts], [references_writer] in the store that
    follows [message-list-view.tsx].  This is so for [updateMessage] and for
    [appendMessage] when they do not throw; when they throw they arm
    nothing.  [updateMessage] of either store throws exactly for a committed
    [paper_writer] message whose parse cannot be read, so in [store.ts] such
    a message arms no re-evaluation.  A message that is still streaming, as
    every message [sendMessage] appends for an increment is, arms nothing
    and leaves the sections, the outline id and the completed-paper id as
    they are. *)
Theorem commit_arms_one_check :
  forall (E : Externals) (message : Message) (w : World),
    let armedBy (a : string) (thrown : bool) :=
      if negb thrown && agentIs a message && negb (isStreaming message)
      then [threadId message] else [] in
    let paperKept (w' : World) :=
      timers w' = timers w
      /\ paperSections (store w') = paperSections (store w)
      /\ paperOutlineId (store w') = paperOutlineId (store w)
      /\ completedPaperId (store w') = completedPaperId (store w) in
    let unreadable :=
      agentIs "paper_writer" message && negb (isStreaming message)
      && match section_content (content message) with
         | ReadThrows => true
         | ReadGives _ => false
         end in
    hasThrown (CoreStore.updateMessage message w) = unreadable
    /\ hasThrown (ViewStore.updateMessage message w) = unreadable
    /\ timers (worldOf (CoreStore.updateMessage message w))
       = timers w
         ++ armedBy "paper_writer" (hasThrown (CoreStore.updateMessage message w))
    /\ timers (worldOf (ViewStore.updateMessage message w))
       = timers w
         ++ armedBy "references_writer"
              (hasThrown (ViewStore.updateMessage message w))
    /\ timers (worldOf (CoreStore.appendMessage message w))
       = timers w
         ++ armedBy "paper_writer" (hasThrown (CoreStore.appendMessage message w))
    /\ timers (worldOf (ViewStore.appendMessage message w))
       = timers w
         ++ armedBy "references_writer"
              (hasThrown (ViewStore.appendMessage message w))
    /\ (isStreaming message = true ->
        paperKept (worldOf (CoreStore.updateMessage message w))
        /\ paperKept (worldOf (ViewStore.updateMessage message w))
        /\ paperKept (worldOf (CoreStore.appendMessage message w))
        /\ paperKept (worldOf (ViewStore.appendMessage message w))).
Proof.
  intros E message w armedBy paperKept unreadable.
  subst armedBy paperKept unreadable. cbv beta.
  change (agentIs "paper_writer" message && negb (isStreaming message)
          && match section_content (content message) with
             | ReadThrows => true
             | ReadGives _ => false
             end)
    with (commitThrows message).
  rewrite CoreStore_updateMessage_cases, ViewStore_updateMessage_cases,
    CoreStore_appendMessage_cases, ViewStore_appendMessage_cases.
  change (andThen
            (if negb (truthyOpt (getOngoingResearchId w))
             then andThen (appendResearch (id message) w)
                    (fun w' => Returned (openResearch (Some (id message)) w'))
             else Returned w)
            (appendResearchActivity message))
    with (researchStep message w).
  rewrite researchStep_cases.
  pose proof (researchStepCases_paper message w) as Hstep. cbv zeta in Hstep.
  pose proof (reporterCommitted_paper message w) as Hreporter.
  split; [by destruct (commitThrows message)|].
  split; [by destruct (commitThrows message)|].
  split; [|split; [|split; [|split]]].
  - destruct (commitThrows message) eqn:Hthrows; simpl;
      [by rewrite app_nil_r|].
    rewrite coreCommitBlocks_timers. by rewrite (proj1 Hreporter).
  - destruct (commitThrows message) eqn:Hthrows; simpl.
    + apply commitThrows_agent in Hthrows as (Hagent & _).
      known_agent Hagent. by rewrite app_nil_r.
    + rewrite viewCommitBlocks_timers. by rewrite (proj1 Hreporter).
  - assert (Hres : timers (worldOf (if CoreStore.isResearchAgent message
                                    then researchStepCases message w
                                    else Returned w)) = timers w)
      by (destruct (CoreStore.isResearchAgent message); [apply Hstep | done]).
    destruct (if CoreStore.isResearchAgent message
              then researchStepCases message w else Returned w) as [w1|w1];
      simpl in *; [|by rewrite app_nil_r].
    destruct (commitThrows message); simpl; [by rewrite Hres, app_nil_r|].
    by rewrite coreCommitBlocks_timers, Hres.
  - assert (Hres : timers (worldOf (if ViewStore.isResearchAgent message
                                    then researchStepCases message w
                                    else Returned w)) = timers w)
      by (destruct (ViewStore.isResearchAgent message); [apply Hstep | done]).
    destruct (if ViewStore.isResearchAgent message
              then researchStepCases message w else Returned w) as [w1|w1];
      simpl in *; [|by rewrite app_nil_r].
    destruct (commitThrows message) eqn:Hthrows; simpl.
    + apply commitThrows_agent in Hthrows as (Hagent & _).
      known_agent Hagent. by rewrite Hres, app_nil_r.
    + by rewrite viewCommitBlocks_timers, Hres.
  - intros Hstreaming.
    rewrite (commitThrows_streaming message Hstreaming).
    assert (Hcore : forall w1, coreCommitBlocks message w1 = w1)
      by (intros w1; apply (commitBlocks_streaming message w1 Hstreaming)).
    assert (Hview : forall w1, viewCommitBlocks message w1 = w1)
      by (intros w1; apply (commitBlocks_streaming message w1 Hstreaming)).
    cbn [worldOf]. rewrite Hcore, Hview. simpl.
    split; [done|]. split; [done|].
    split.
    + destruct (CoreStore.isResearchAgent message); simpl;
        [|by rewrite Hcore].
      destruct (researchStepCases message w); simpl in *; by rewrite ?Hcore.
    + destruct (ViewStore.isResearchAgent message); simpl;
        [|by rewrite Hview].
      destruct (researchStepCases message w); simpl in *; by rewrite ?Hview.
Qed.

(** ** The hooks *)

Lemma last_two {A : Type} (l : list A) :
  2 <= List.length l ->
  exists front j lastId,
    l = front ++ [j; lastId]
    /\ l !! (List.length l - 1) = Some lastId
    /\ l !! (List.length l - 2) = Some j.
Proof.
  intros Hlen.
  destruct l as [|a l] using rev_ind; [simpl in Hlen; lia|].
  clear IHl. destruct l as [|b l] using rev_ind.
  { simpl in Hlen. lia. }
  clear IHl. exists l, b, a. rewrite <- app_assoc. split; [done|].
  simpl. rewrite !length_app. simpl. split.
  - replace (List.length l + 2 - 1) with (List.length l + 1) by lia.
    rewrite lookup_app_r by lia.
    by replace (List.length l + 1 - List.length l) with 1 by lia.
  - replace (List.length l + 2 - 2) with (List.length l + 0) by lia.
    rewrite lookup_app_r by lia.
    by replace (List.length l + 0 - List.length l) with 0 by lia.
Qed.

(** X17. [useLastInterruptMessage] and [useLastFeedbackMessageId] agree: one
    gives a value exactly when the other does, which is when at least two
    ids are listed and the message stored under the last one has finish
    reason "interrupt"; then the first gives that message and the second the
    id listed just before the last.  With fewer than two ids both give
    null. *)
Theorem interrupt_hooks_agree :
  forall (s : State),
    (is_Some (useLastInterruptMessage s) <-> is_Some (useLastFeedbackMessageId s))
    /\ (forall lastMessage feedbackId,
          useLastInterruptMessage s = Some lastMessage
          /\ useLastFeedbackMessageId s = Some feedbackId
          <-> exists front lastId,
                messageIds s = front ++ [feedbackId; lastId]
                /\ JsMap.get lastId (messages s) = Some lastMessage
                /\ finishReason lastMessage = Some "interrupt")
    /\ (List.length (messageIds s) < 2 ->
        useLastInterruptMessage s = None /\ useLastFeedbackMessageId s = None).
Proof.
  intros s. unfold useLastInterruptMessage, useLastFeedbackMessageId.
  destruct (Nat.leb 2 (List.length (messageIds s))) eqn:Hlen.
  - apply Nat.leb_le in Hlen.
    destruct (last_two (messageIds s) Hlen)
      as (front & j & lastId & Hids & Hlast & Hprev).
    rewrite Hlast, Hprev.
    split; [|split; [|lia]].
    + destruct (JsMap.get lastId (messages s)) as [m|]; [|done].
      destruct (bool_decide (finishReason m = Some "interrupt")); [|done].
      split; intros _; by eexists.
    + intros lastMessage feedbackId. split.
      * intros [Hm Hj]. exists front, lastId.
        destruct (JsMap.get lastId (messages s)) as [m|]; [|done].
        destruct (bool_decide (finishReason m = Some "interrupt")) eqn:Hfinish;
          [|done].
        apply bool_decide_eq_true in Hfinish.
        injection Hm as <-. injection Hj as <-. done.
      * intros (front' & lastId' & Hids' & Hget & Hfinish).
        rewrite Hids in Hids'.
        apply app_inj_2 in Hids' as [_ Heq]; [|done].
        injection Heq as <- <-. rewrite Hget.
        by rewrite (bool_decide_eq_true_2 _ Hfinish).
  - apply Nat.leb_gt in Hlen. split; [done|]. split; [|done].
    intros lastMessage feedbackId. split; [by intros [? _]|].
    intros (front & lastId & Hids & _). rewrite Hids, length_app in Hlen.
    simpl in Hlen. lia.
Qed.

Lemma useToolCalls_owner (toolCall : ToolCall) (w : World) :
  toolCall ∈ useToolCalls (store w) ->
  exists i owner calls,
    i ∈ messageIds (store w)
    /\ getMessage i w = Some owner
    /\ toolCalls owner = Some calls
    /\ toolCall ∈ calls.
Proof.
  unfold useToolCalls. intros Hin.
  apply list_elem_of_In, in_concat in Hin as (calls & Hcalls & Hcall).
  apply list_elem_of_In, list_elem_of_omap in Hcalls as (i & Hi & Hget).
  unfold getMessage.
  destruct (JsMap.get i (messages (store w))) as [owner|] eqn:Hstored; [|done].
  exists i, owner, calls. split; [exact Hi|]. split; [exact Hstored|].
  split; [exact Hget|]. by apply list_elem_of_In.
Qed.

(** X18. Every tool call [useToolCalls] lists belongs to a listed message
    that is stored, and a [tool_call_result] increment for its id finds a
    message to be merged into: [findMessageByToolCallId] gives a stored
    message that holds a tool call of that id. *)
Theorem listed_tool_calls_are_routable
    (toolCall : ToolCall) (w : World)
    (Hlisted : toolCall ∈ useToolCalls (store w)) :
  (exists i owner calls,
      i ∈ messageIds (store w)
      /\ getMessage i w = Some owner
      /\ toolCalls owner = Some calls
      /\ toolCall ∈ calls)
  /\ exists found,
      findMessageByToolCallId (tc_id toolCall) w = Some found
      /\ found ∈ allMessagesOf (store w)
      /\ hasToolCall (tc_id toolCall) found = true.
Proof.
  pose proof (useToolCalls_owner toolCall w Hlisted)
    as (i & owner & calls & Hi & Hget & Hcalls & Hcall).
  split; [by exists i, owner, calls|].
  assert (Howns : hasToolCall (tc_id toolCall) owner = true).
  { unfold hasToolCall. rewrite Hcalls. apply existsb_elem_of.
    exists toolCall. split; [done | apply String.eqb_refl]. }
  unfold findMessageByToolCallId, allMessagesOf.
  destruct (find (hasToolCall (tc_id toolCall))
              (rev (JsMap.values (messages (store w))))) as [found|] eqn:Hfind.
  - exists found. split; [done|].
    apply find_some in Hfind as [Hin Hfound]. split; [|done].
    apply elem_of_rev. by apply list_elem_of_In.
  - rewrite find_none_iff in Hfind.
    rewrite (Hfind owner) in Howns; [done|].
    apply elem_of_rev. by apply JsMap_get_values in Hget.
Qed.

Lemma listed_tool_calls_are_routable_witness :
  mkToolCall "c7" "web_search" "{}" None ∈ useToolCalls (store searching)
  /\ exists found,
      findMessageByToolCallId "c7" searching = Some found
      /\ id found = "m1".
Proof.
  assert (Hlisted : mkToolCall "c7" "web_search" "{}" None
                    ∈ useToolCalls (store searching))
    by (vm_compute; apply list_elem_of_here).
  split; [exact Hlisted|].
  pose proof (proj2 (listed_tool_calls_are_routable
                       (mkToolCall "c7" "web_search" "{}" None) searching
                       Hlisted)) as Hfound.
  vm_compute in Hfound. destruct Hfound as (found & Hfind & _).
  exists found. split; [vm_compute; exact Hfind|].
  by injection Hfind as <-.
Defined.

(** ** The message list *)

Lemma MessageListItem_research (messageId : string) (s : State)
    (message : Message) :
  useMessage (Some messageId) s = Some message ->
  (forall researchId,
      MessageListItem messageId s = ResearchCardItem researchId
      <-> researchId = id message
          /\ messageId ∈ researchIds s
          /\ Forall (fun a => agent message <> Some a)
               ["planner"; "podcast"; "outline_writer"; "paper_writer";
                "final_paper"; "reporter"]).
Proof.
  intros Hmessage researchId. unfold MessageListItem. rewrite Hmessage.
  cbv zeta.
  assert (Hagent : forall a, agentIs a message = true <-> agent message = Some a).
  { intros a. unfold agentIs. apply bool_decide_eq_true. }
  assert (Hnot : forall a, agentIs a message = false <-> agent message <> Some a).
  { intros a. unfold agentIs. apply bool_decide_eq_false. }
  rewrite !Forall_cons, Forall_nil.
  rewrite <- !Hnot.
  destruct (bool_decide (messageId ∈ researchIds s)) eqn:Hstart.
  - apply bool_decide_eq_true in Hstart.
    rewrite !orb_true_r.
    destruct (agentIs "planner" message); [by split; [|intros (_ & _ & ? & _)]|].
    destruct (agentIs "podcast" message);
      [by split; [|intros (_ & _ & _ & ? & _)]|].
    destruct (agentIs "outline_writer" message);
      [by split; [|intros (_ & _ & _ & _ & ? & _)]|].
    destruct (agentIs "paper_writer" message);
      [by split; [|intros (_ & _ & _ & _ & _ & ? & _)]|].
    destruct (agentIs "final_paper" message);
      [by split; [|intros (_ & _ & _ & _ & _ & _ & ? & _)]|].
    destruct (agentIs "reporter" message);
      [by split; [|intros (_ & _ & _ & _ & _ & _ & _ & ? & _)]|].
    split; [by intros [= <-] | by intros [-> _]].
  - apply bool_decide_eq_false in Hstart.
    split; [|by intros (_ & ? & _)].
    rewrite orb_false_r.
    destruct (_ || _ || _ || _ || _ || _ || _ || _); [|done].
    destruct (agentIs "planner" message); [done|].
    destruct (agentIs "podcast" message); [done|].
    destruct (agentIs "outline_writer" message); [done|].
    destruct (agentIs "paper_writer" message); [done|].
    destruct (agentIs "final_paper" message); [done|].
    destruct (agentIs "reporter" message); [done|].
    by destruct (truthy (content message)).
Qed.

(** X19. In a store with sound bookkeeping whose messages sit under their
    own ids, [MessageListItem] finds a message for every listed id that is
    not the empty string.  It shows a Research card exactly for a listed id
    that is a recorded Research and whose message is not of the agents
    [planner], [podcast], [outline_writer], [paper_writer], [final_paper],
    [reporter], which get their own cards first; the card is given the id
    of the list entry, and its status line can be computed.  A message of
    role assistant and another agent that does not start a Research shows
    nothing. *)
Theorem message_list_items
    (s : State) (messageId : string)
    (Hsound : ResearchSound s)
    (Hkeyed : keyed s)
    (Hlisted : messageId ∈ messageIds s)
    (Hid : truthy messageId = true) :
  exists message,
    useMessage (Some messageId) s = Some message
    /\ id message = messageId
    /\ MessageListItem messageId s <> UndefinedItem
    /\ (forall researchId,
          MessageListItem messageId s = ResearchCardItem researchId
          <-> researchId = messageId
              /\ messageId ∈ researchIds s
              /\ Forall (fun a => agent message <> Some a)
                   ["planner"; "podcast"; "outline_writer"; "paper_writer";
                    "final_paper"; "reporter"])
    /\ (forall researchId,
          MessageListItem messageId s = ResearchCardItem researchId ->
          is_Some (researchCardState researchId s))
    /\ (role message = assistant ->
        messageId ∉ researchIds s ->
        Forall (fun a => agent message <> Some a)
          ["coordinator"; "planner"; "podcast"; "outline_writer";
           "paper_writer"; "reporter"; "final_paper"] ->
        MessageListItem messageId s = NullItem).
Proof.
  destruct (rs_ids_stored s Hsound messageId Hlisted) as [message Hget].
  assert (Huse : useMessage (Some messageId) s = Some message)
    by (unfold useMessage; by rewrite Hid).
  assert (Hown : id message = messageId)
    by (by apply Hkeyed, JsMap_get_elem_of).
  exists message. split; [done|]. split; [done|]. split; [|split; [|split]].
  - unfold MessageListItem. rewrite Huse. cbv zeta.
    destruct (_ || _ || _ || _ || _ || _ || _ || _ || _); [|done].
    repeat match goal with
           | |- context [if ?b then _ else _] => destruct b
           end; done.
  - intros researchId.
    rewrite (MessageListItem_research messageId s message Huse researchId).
    by rewrite Hown.
  - intros researchId _. apply researchCardState_sound. done.
  - intros Hrole Hnot Hagents.
    rewrite !Forall_cons in Hagents.
    destruct Hagents as (Hc & Hp & Hpod & Ho & Hw & Hr & Hf & _).
    unfold MessageListItem. rewrite Huse. cbv zeta. rewrite Hrole.
    unfold agentIs.
    rewrite !bool_decide_eq_false_2 by done. done.
Qed.

Lemma message_list_items_witness :
  ResearchSound (store reported)
  /\ keyed (store reported)
  /\ "m1" ∈ messageIds (store reported)
  /\ truthy "m1" = true
  /\ MessageListItem "m1" (store reported) <> UndefinedItem.
Proof.
  assert (Hkeyed : keyed (store reported)).
  { apply (@sendMessage_keyed plainExternals ViewStore.appendMessage
             ViewStore.updateMessage).
    - right. split; reflexivity.
    - apply keyed_initial. }
  assert (Hlisted : "m1" ∈ messageIds (store reported)).
  { assert (Hids : messageIds (store reported) = ["m1"; "m2"])
      by (vm_compute; reflexivity).
    rewrite Hids. apply list_elem_of_here. }
  split; [apply reported_sound|]. split; [exact Hkeyed|].
  split; [exact Hlisted|]. split; [reflexivity|].
  destruct (message_list_items (store reported) "m1" reported_sound Hkeyed
              Hlisted eq_refl) as (message & _ & _ & Hitem & _).
  exact Hitem.
Defined.

(** ** The final-paper block *)

Lemma FinalPaperBlock_shown (isReplay editing : bool) (s : State) :
  finalPaperLoading s = false ->
  truthyOpt (finalPaperError s) = false ->
  FinalPaperBlock isReplay editing s
  = match finalPaper s with
    | Some paper =>
        if truthy (final_paper paper) then
          if negb isReplay && editing
          then PaperEditorView (final_paper paper)
          else PaperMarkdownView (final_paper paper)
        else NoPaperView
    | None => NoPaperView
    end.
Proof.
  intros Hloading Herror. unfold FinalPaperBlock. cbv zeta.
  rewrite Hloading, Herror. cbn [negb andb].
  destruct (finalPaper s) as [paper|]; [|done].
  simpl. destruct (truthy (final_paper paper)); simpl; [|done].
  by rewrite andb_true_r.
Qed.

(** X20. [FinalPaperBlock] follows the fetch.  While a request started by
    [fetchFinalPaper] is under way it shows the loading line.  When that
    request resolves, in either store, it shows the paper returned, in the
    editor when editing outside a replay and as Markdown otherwise, or the
    missing-paper line when the text returned is empty.  When a request
    fails with a non-empty error text it shows that text, also when the
    state holds a paper.  Where the block reads [isCompleted] it is always
    true.  After [handleMarkdownChange] the block shows the edited text, or
    the missing-paper line for an empty one, and the state still holds a
    paper. *)
Theorem final_paper_block_follows_fetch :
  forall (E : Externals) (isReplay editing : bool) (threadId nanoid : string),
    let shown (text : string) :=
      if truthy text then
        if negb isReplay && editing
        then PaperEditorView text else PaperMarkdownView text
      else NoPaperView in
    (forall w,
        FinalPaperBlock isReplay editing (store (fetchFinalPaper threadId w))
        = LoadingPaperView)
    /\ (forall response w,
          FinalPaperBlock isReplay editing
            (CoreStore.fetchFinalPaper_settled threadId (Resolved response)
               nanoid (store (fetchFinalPaper threadId w)))
          = shown (final_paper response)
          /\ FinalPaperBlock isReplay editing
               (ViewStore.fetchFinalPaper_settled threadId (Resolved response)
                  nanoid (store (fetchFinalPaper threadId w)))
             = shown (final_paper response))
    /\ (forall error s,
          truthy (errorMessage error) = true ->
          FinalPaperBlock isReplay editing
            (CoreStore.fetchFinalPaper_settled threadId (Rejected error) nanoid s)
          = PaperErrorView (errorMessage error)
          /\ FinalPaperBlock isReplay editing
               (ViewStore.fetchFinalPaper_settled threadId (Rejected error)
                  nanoid s)
             = PaperErrorView (errorMessage error))
    /\ (forall markdown s,
          finalPaperLoading s = false ->
          truthyOpt (finalPaperError s) = false ->
          is_Some (finalPaper s) ->
          FinalPaperBlock isReplay editing (handleMarkdownChange markdown s)
          = shown markdown
          /\ is_Some (finalPaper (handleMarkdownChange markdown s))).
Proof.
  intros E isReplay editing threadId nanoid shown. subst shown. cbv beta.
  split; [done|]. split; [|split].
  - intros response w. split.
    + by rewrite FinalPaperBlock_shown.
    + simpl. destruct (truthy (final_paper response)) eqn:Htext.
      * rewrite FinalPaperBlock_shown by done. simpl. by rewrite Htext.
      * rewrite FinalPaperBlock_shown by done. simpl. by rewrite Htext.
  - intros error s Htext. simpl. unfold fetchFailed, FinalPaperBlock. simpl.
    by rewrite Htext.
  - intros markdown s Hloading Herror [paper Hpaper].
    unfold handleMarkdownChange. rewrite Hpaper. split; [|by eexists].
    rewrite FinalPaperBlock_shown by done. done.
Qed.

(** ** The other writers of the store *)

Lemma ResearchSound_same (s s' : State) :
  messageIds s' = messageIds s ->
  messages s' = messages s ->
  researchIds s' = researchIds s ->
  researchPlanIds s' = researchPlanIds s ->
  researchReportIds s' = researchReportIds s ->
  researchActivityIds s' = researchActivityIds s ->
  ongoingResearchId s' = ongoingResearchId s ->
  ResearchSound s -> ResearchSound s'.
Proof.
  intros Hmi Hm Hri Hpl Hre Hac Hon
    [Hids Hlisted Honce Hongoing Hplan Hact Hrep].
  constructor; rewrite ?Hmi, ?Hm, ?Hri, ?Hpl, ?Hre, ?Hac, ?Hon; done.
Qed.

Lemma ResearchSound_set (k : string) (message : Message) (s : State) :
  ResearchSound s ->
  ResearchSound (set_messages (JsMap.set k message (messages s)) s).
Proof.
  intros [Hids Hlisted Honce Hon Hplan Hact Hrep].
  constructor; simpl; try done.
  - intros i Hi. by apply JsMap_set_keeps, Hids.
  - intros r Hr. destruct (Hplan r Hr) as (p & Hp & Hsome).
    exists p. split; [done | by apply JsMap_set_keeps].
  - intros r q Hq. by apply JsMap_set_keeps, (Hrep r).
Qed.

Lemma runTasks_sound (callback : string -> World -> World)
    (settled : string -> FetchOutcome -> string -> State -> State)
    (tasks : list Task) (w : World) :
  (forall threadId w0,
      callback threadId w0 = w0
      \/ callback threadId w0 = fetchFinalPaper threadId w0) ->
  (forall threadId outcome nanoid s,
      ResearchSound s -> ResearchSound (settled threadId outcome nanoid s)) ->
  ResearchSound (store w) ->
  ResearchSound (store (runTasks callback settled tasks w)).
Proof.
  intros Hcallback Hsettled. revert w.
  induction tasks as [|task rest IH]; intros w Hsound; [done|].
  rewrite runTasks_cons. apply IH.
  destruct task as [|k outcome nanoid]; simpl.
  - destruct (timers w) as [|threadId pending]; [done|].
    destruct (Hcallback threadId
                (mkWorld (store w) pending (inflight w) (fetchCalls w)))
      as [-> | ->]; [done|].
    simpl. by apply (ResearchSound_same (store w)).
  - destruct (inflight w !! k) as [threadId|]; [|done].
    simpl. by apply Hsettled.
Qed.

(** X21. The other writers keep the Research bookkeeping sound as well: any
    run of timer and settling tasks, in either store (a resolved request
    stores the paper and, in the store that follows [message-list-view.tsx],
    files the final-paper card); [listenToPodcast] up to its request, and
    its continuation however the request settles; and
    [handleMarkdownChange] of the final-paper block. *)
Theorem other_writers_keep_research_sound
    (E : Externals) (w : World)
    (Hsound : ResearchSound (store w)) :
  (forall tasks,
      ResearchSound (store (CoreStore.runTasks tasks w))
      /\ ResearchSound (store (ViewStore.runTasks tasks w)))
  /\ (forall append planTitle podcastJSON THREAD_ID researchId nanoid1 nanoid2,
        append = CoreStore.appendMessage \/ append = ViewStore.appendMessage ->
        ResearchSound
          (store
             (worldOf
                (fst (listenToPodcast append planTitle podcastJSON THREAD_ID
                        researchId nanoid1 nanoid2 w)))))
  /\ (forall podcastJSON request outcome s',
        listenToPodcast_settled podcastJSON request outcome (store w) = Some s' ->
        ResearchSound s')
  /\ (forall markdown, ResearchSound (handleMarkdownChange markdown (store w))).
Proof.
  split; [|split; [|split]].
  - intros tasks. unfold CoreStore.runTasks, ViewStore.runTasks. split.
    + apply runTasks_sound; [| |done].
      * intros threadId w0. rewrite CoreStore_callback_cases.
        destruct (CoreStore.shouldFetch _); [by right | by left].
      * intros threadId outcome nanoid s Hs.
        destruct outcome; simpl; by apply (ResearchSound_same s).
    + apply runTasks_sound; [| |done].
      * intros threadId w0. rewrite ViewStore_callback_cases.
        destruct (ViewStore.shouldFetch _); [by right | by left].
      * intros threadId outcome nanoid s Hs.
        destruct outcome; simpl; [|by apply (ResearchSound_same s)].
        destruct (truthy (final_paper response));
          [|by apply (ResearchSound_same s)].
        apply ResearchSound_stored. by apply (ResearchSound_same s).
  - intros append planTitle podcastJSON THREAD_ID researchId nanoid1 nanoid2
      Happ.
    unfold listenToPodcast.
    destruct (researchPlanIds (store w) !! researchId) as [p|]; [|done].
    destruct (researchReportIds (store w) !! researchId) as [q|]; [|done].
    destruct (truthy p && truthy q); [|done].
    destruct (getMessage p w) as [plan|]; [|done].
    destruct (planTitle (content plan)) as [|title]; [done|].
    destruct (getMessage q w) as [report|]; [|done].
    destruct (truthy (content report)); [|done].
    rewrite (podcast_messages_plain E append _ w Happ) by (by left).
    rewrite (podcast_messages_plain E append _ _ Happ) by (by right).
    simpl. by apply ResearchSound_stored, ResearchSound_stored.
  - intros podcastJSON request outcome s'. unfold listenToPodcast_settled.
    destruct (JsMap.get (podCastMessageId request) (messages (store w)));
      [|done].
    intros [= <-]. by apply ResearchSound_set.
  - intros markdown. unfold handleMarkdownChange.
    destruct (finalPaper (store w)); [|done].
    by apply (ResearchSound_same (store w)).
Qed.

Lemma other_writers_keep_research_sound_witness :
  ResearchSound (store referencesCommittedTwice)
  /\ ResearchSound
       (store
          (@ViewStore.runTasks plainExternals
             [TimerFires; FetchSettles 0 (Resolved paperResponse) "card1"]
             referencesCommittedTwice)).
Proof.
  assert (Hsound : ResearchSound (store referencesCommittedTwice)).
  { apply (@sendMessage_sound plainExternals ViewStore.appendMessage
             ViewStore.updateMessage).
    - right. split; reflexivity.
    - apply keyed_initial.
    - intros _ Hin. by apply elem_of_nil in Hin.
    - apply ResearchSound_initial. }
  split; [exact Hsound|].
  exact (proj2 (proj1 (other_writers_keep_research_sound plainExternals
                         referencesCommittedTwice Hsound)
                  [TimerFires; FetchSettles 0 (Resolved paperResponse) "card1"])).
Defined.

(** ** The paper bookkeeping *)

Lemma PaperSound_same (s s' : State) :
  completedPaperId s' = completedPaperId s ->
  paperOutlineId s' = paperOutlineId s ->
  messages s' = messages s ->
  PaperSound s -> PaperSound s'.
Proof. intros Hc Ho Hm [Hnone Hstored]. split; rewrite ?Hc, ?Ho, ?Hm; done. Qed.

Lemma PaperSound_set (k : string) (message : Message) (s : State) :
  PaperSound s ->
  PaperSound (set_messages (JsMap.set k message (messages s)) s).
Proof.
  intros [Hnone Hstored]. split; [done|].
  intros i Hi. by apply JsMap_set_keeps, Hstored.
Qed.

Lemma researchStepCases_messages (message : Message) (w : World) :
  messages (store (worldOf (researchStepCases message w))) = messages (store w).
Proof.
  unfold researchStepCases.
  destruct (truthyOpt (getOngoingResearchId w)).
  - destruct (getOngoingResearchId w) as [r|]; [|done].
    by destruct (researchActivityIds (store w) !! r).
  - destruct (findPlanMessage _ _) as [planMessage|]; [|done].
    simpl. unfold researchStarted.
    by destruct (truthy (id message) && agentIs "reporter" message).
Qed.

Lemma PaperSound_blocks (message : Message) (w w' : World) :
  BlocksFrame message w w' ->
  PaperSound (store w) ->
  PaperSound (set_messages (JsMap.set (id message) message (messages (store w')))
                (store w')).
Proof.
  intros [[] _ _ _ Houtline Hcompleted] [Hnone Hstored]. split.
  - simpl. destruct Hcompleted as [-> | ->]; done.
  - simpl. intros i Hi. destruct Houtline as [Hsame|Hnew].
    + apply JsMap_set_keeps. rewrite sbp_messages0. apply Hstored. congruence.
    + rewrite Hnew in Hi. injection Hi as <-. rewrite JsMap_get_set_eq.
      by eexists.
Qed.

Lemma PaperSound_calls `{Externals} (append : Message -> World -> Result)
    (update : Message -> World -> Result) (message : Message) (w : World) :
  storeFunctions append update ->
  PaperSound (store w) ->
  PaperSound (store (worldOf (append message w)))
  /\ PaperSound (store (worldOf (update message w))).
Proof.
  intros Hfun Hsound. split.
  - destruct (appendMessage_cases append update message w Hfun)
      as (research & blocks & _ & Hblocks & ->).
    assert (Hstep : PaperSound
                      (store (worldOf (if research
                                       then researchStepCases message w
                                       else Returned w)))).
    { destruct research; [|done].
      destruct (researchStepCases_paper message w) as (_ & _ & Ho & Hc).
      apply (PaperSound_same (store w)); try done.
      apply researchStepCases_messages. }
    destruct (if research then researchStepCases message w else Returned w)
      as [w1|w1]; simpl in *; [|done].
    destruct (commitThrows message); simpl; [done|].
    destruct (PaperSound_blocks message w1 (blocks w1) (Hblocks w1) Hstep)
      as [Hnone Hstored].
    split; [done|]. exact Hstored.
  - destruct (updateMessage_cases append update message w Hfun)
      as (blocks & Hblocks & ->).
    destruct (commitThrows message); [done|]. cbn [worldOf].
    set (w0 := if _ && _ && _ && _ then _ else w).
    assert (Hw0 : PaperSound (store w0))
      by (subst w0; by destruct (_ && _ && _ && _)).
    exact (PaperSound_blocks message w0 (blocks w0) (Hblocks w0) Hw0).
Qed.

Lemma PaperSound_sendMessage `{Externals} (append : Message -> World -> Result)
    (update : Message -> World -> Result) (THREAD_ID : string)
    (messageContent : option string) (nanoid : string)
    (feedback : option string) (events : list ChatEvent) (streamFails : bool)
    (w : World) :
  storeFunctions append update ->
  PaperSound (store w) ->
  PaperSound
    (store
       (worldOf
          (sendMessageOver append update
             THREAD_ID messageContent nanoid feedback events streamFails w))).
Proof.
  intros Hfun.
  apply (calls_keep_sendMessage
           (fun w1 w2 => PaperSound (store w1) -> PaperSound (store w2))
           append update Hfun); try done.
  - intros w1 w2 w3 H12 H23 Hs. by apply H23, H12.
  - intros message w1 Hs.
    by apply (PaperSound_calls append update message w1 Hfun).
  - intros message w1 Hs.
    by apply (PaperSound_calls append update message w1 Hfun).
  - intros message w1 [Hnone Hstored]. split; [done|].
    intros i Hi. by apply JsMap_set_keeps, Hstored.
  - intros i message w1 Hs.
    apply (PaperSound_set (id message)), (PaperSound_set i), Hs.
Qed.

Lemma runTasks_invariant (P : State -> Prop)
    (callback : string -> World -> World)
    (settled : string -> FetchOutcome -> string -> State -> State)
    (tasks : list Task) (w : World) :
  (forall threadId w0,
      callback threadId w0 = w0
      \/ callback threadId w0 = fetchFinalPaper threadId w0) ->
  (forall s, P s -> P (set_finalPaperError None (set_finalPaperLoading true s))) ->
  (forall threadId outcome nanoid s, P s -> P (settled threadId outcome nanoid s)) ->
  P (store w) ->
  P (store (runTasks callback settled tasks w)).
Proof.
  intros Hcallback Hstart Hsettled. revert w.
  induction tasks as [|task rest IH]; intros w Hsound; [done|].
  rewrite runTasks_cons. apply IH.
  destruct task as [|k outcome nanoid]; simpl.
  - destruct (timers w) as [|threadId pending]; [done|].
    destruct (Hcallback threadId
                (mkWorld (store w) pending (inflight w) (fetchCalls w)))
      as [-> | ->]; [done|].
    simpl. by apply Hstart.
  - destruct (inflight w !! k) as [threadId|]; [|done].
    simpl. by apply Hsettled.
Qed.

(** X22. The paper bookkeeping stays sound: from a store in which no
    completed-paper id is recorded and the outline id, if any, names a stored
    message (as in the initial store), the same holds after [appendMessage],
    [updateMessage] and [sendMessage] of either store, and after any run of
    timer and settling tasks.  So nothing ever records a completed-paper id,
    and [usePaperOutlineMessage] gives no message only when there is no
    outline id or the id is the empty string. *)
Theorem paper_bookkeeping_stays_sound
    (E : Externals) (append : Message -> World -> Result)
    (update : Message -> World -> Result) (w : World)
    (Hfun : storeFunctions append update)
    (Hsound : PaperSound (store w)) :
  (forall THREAD_ID, PaperSound (initialState THREAD_ID))
  /\ (forall message,
        PaperSound (store (worldOf (append message w)))
        /\ PaperSound (store (worldOf (update message w))))
  /\ (forall THREAD_ID messageContent nanoid feedback events streamFails,
        PaperSound
          (store
             (worldOf
                (sendMessageOver append
                   update
                   THREAD_ID messageContent nanoid feedback events streamFails
                   w))))
  /\ (forall tasks,
        PaperSound (store (CoreStore.runTasks tasks w))
        /\ PaperSound (store (ViewStore.runTasks tasks w)))
  /\ (usePaperOutlineMessage (store w) = None
      <-> paperOutlineId (store w) = None \/ paperOutlineId (store w) = Some "").
Proof.
  split; [|split; [|split; [|split]]].
  - intros THREAD_ID. split; [done|]. discriminate.
  - intros message. by apply PaperSound_calls.
  - intros THREAD_ID messageContent nanoid feedback events streamFails.
    by apply PaperSound_sendMessage.
  - intros tasks. unfold CoreStore.runTasks, ViewStore.runTasks. split.
    + apply (runTasks_invariant PaperSound); try done.
      * intros threadId w0. rewrite CoreStore_callback_cases.
        destruct (CoreStore.shouldFetch _); [by right | by left].
      * intros threadId outcome nanoid s Hs. by destruct outcome.
    + apply (runTasks_invariant PaperSound); try done.
      * intros threadId w0. rewrite ViewStore_callback_cases.
        destruct (ViewStore.shouldFetch _); [by right | by left].
      * intros threadId outcome nanoid s Hs. destruct outcome; [|done].
        simpl. destruct (truthy (final_paper response)); [|done].
        destruct Hs as [Hnone Hstored]. split; [done|].
        intros i Hi. by apply JsMap_set_keeps, Hstored.
  - unfold usePaperOutlineMessage, usePaperOutlineId, useMessage.
    destruct Hsound as [_ Hstored].
    destruct (paperOutlineId (store w)) as [i|] eqn:Hi.
    + destruct (truthy i) eqn:Htruthy.
      * destruct (Hstored i eq_refl) as [m ->]. split; [done|].
        intros [?|[= ->]]; done.
      * split; [|done]. intros _. right. f_equal.
        unfold truthy in Htruthy. apply negb_false_iff in Htruthy.
        by apply String.eqb_eq in Htruthy.
    + split; [by left | done].
Qed.

Lemma paper_bookkeeping_stays_sound_witness :
  @storeFunctions plainExternals (@ViewStore.appendMessage plainExternals)
    (@ViewStore.updateMessage plainExternals)
  /\ PaperSound (store (initialWorld "T"))
  /\ PaperSound (store referencesCommittedTwice).
Proof.
  assert (Hfun : @storeFunctions plainExternals
                   (@ViewStore.appendMessage plainExternals)
                   (@ViewStore.updateMessage plainExternals))
    by (right; split; reflexivity).
  assert (Hinitial : PaperSound (store (initialWorld "T")))
    by (split; [done | discriminate]).
  split; [exact Hfun|]. split; [exact Hinitial|].
  exact (proj1 (proj2 (proj2
           (paper_bookkeeping_stays_sound plainExternals _ _ (initialWorld "T")
              Hfun Hinitial)))
           "T" (Some "Write a paper") "u" None
           [startEvent "p" "planner"; deltaEvent "p" "planner" "plan";
            finishEvent "p" "planner";
            startEvent "o" "outline_writer";
            deltaEvent "o" "outline_writer" "## Intro";
            finishEvent "o" "outline_writer";
            startEvent "s1" "paper_writer"; deltaEvent "s1" "paper_writer" "One";
            finishEvent "s1" "paper_writer";
            startEvent "r" "references_writer";
            deltaEvent "r" "references_writer" "[1] A source";
            finishEvent "r" "references_writer";
            finishEvent "r" "references_writer"]
           false).
Defined.
